(** * Debug location translation of the Jupyter kernel debug adapters

    A shallow embedding of the two [KernelDebugAdapter] classes:

    - the interactive-window adapter, which keeps the array
      [cellToDebugFileSortedInReverseOrderByLineNumber] (module [IW]);
    - the notebook adapter of [src/notebooks/debugger/kernelDebugAdapter.ts],
      which keeps the map [cellToFile] (module [NB]).

    JavaScript numbers that hold line numbers are integers here ([Z]);
    [undefined] is [None]; a thrown exception or a rejected promise is
    [Throw]; the adapter's fields, the kernel session behind
    [session.customRequest] and the log are threaded through a state and
    exception monad. *)

From Stdlib Require Import ZArith String Ascii Bool Lia Permutation Sorted List.
Import ListNotations.
Open Scope string_scope.
Open Scope list_scope.
Open Scope Z_scope.

Set Implicit Arguments.

(** ** JavaScript values *)

Inductive error : Type :=
| TypeError (what : string)
| SyntaxError (what : string)
| Error (message : string)
| Rejected (reason : string).

Inductive outcome (A : Type) : Type :=
| Ok (a : A)
| Throw (e : error).
Arguments Ok {A} a.
Arguments Throw {A} e.

(** [x || 0] on a number: [0] is the only falsy integer. *)
Definition orZero (x : Z) : Z := if x =? 0 then 0 else x.

(** [a || b] on strings: the empty string is falsy. *)
Definition orString (a : option string) (b : string) : string :=
  match a with
  | Some s => if String.eqb s "" then b else s
  | None => b
  end.

(** [!p] negated for an optional string: defined and not empty. *)
Definition truthyString (p : option string) : option string :=
  match p with
  | Some s => if String.eqb s "" then None else Some s
  | None => None
  end.

(** ['...' + x] for an optional string: [undefined] reads "undefined". *)
Definition stringOf (x : option string) : string :=
  match x with
  | Some s => s
  | None => "undefined"
  end.

Definition isSome {A : Type} (o : option A) : bool :=
  match o with Some _ => true | None => false end.

Definition CR : ascii := ascii_of_nat 13.
Definition LF : ascii := ascii_of_nat 10.

(** [s.replace(/\r\n/g, '\n')] *)
Fixpoint replaceCRLF (s : string) : string :=
  match s with
  | EmptyString => EmptyString
  | String c rest =>
      match rest with
      | String c2 rest2 =>
          if (Ascii.eqb c CR && Ascii.eqb c2 LF)%bool
          then String LF (replaceCRLF rest2)
          else String c (replaceCRLF rest)
      | EmptyString => String c EmptyString
      end
  end.

(** Lines joined by a separator. *)
Fixpoint joinLines (sep : string) (ls : list string) : string :=
  match ls with
  | [] => EmptyString
  | [l] => l
  | l :: rest => (l ++ sep ++ joinLines sep rest)%string
  end.

(** No carriage return in the string. *)
Fixpoint noCR (s : string) : bool :=
  match s with
  | EmptyString => true
  | String c rest => (negb (Ascii.eqb c CR) && noCR rest)%bool
  end.

Definition CRLF : string := String CR (String LF EmptyString).
Definition NL : string := String LF EmptyString.

(** [Array.prototype.sort(cmp)]: the sort is stable, so with a consistent
    comparator the result is the one of a stable insertion sort.  An element
    goes in front of the first one that the comparator orders after it. *)
Section JsSort.
Variable A : Type.
Variable cmp : A -> A -> Z.

Fixpoint insertSorted (x : A) (l : list A) : list A :=
  match l with
  | [] => [x]
  | y :: l' => if cmp y x >? 0 then x :: y :: l' else y :: insertSorted x l'
  end.

Definition jsSort (l : list A) : list A :=
  fold_left (fun acc x => insertSorted x acc) l [].
End JsSort.

(** ** The state and exception monad of an adapter method *)

Definition M (W A : Type) : Type := W -> outcome A * W.

Definition ret {W A : Type} (a : A) : M W A := fun w => (Ok a, w).

Definition bind {W A B : Type} (m : M W A) (k : A -> M W B) : M W B :=
  fun w =>
    match m w with
    | (Ok a, w') => k a w'
    | (Throw e, w') => (Throw e, w')
    end.

Definition throw {W A : Type} (e : error) : M W A := fun w => (Throw e, w).

(** [try { body } catch (err) { handler(err) }]: what the body wrote before it
    threw stays written. *)
Definition tryCatch {W A : Type} (body : M W A) (handler : error -> M W A)
  : M W A :=
  fun w =>
    match body w with
    | (Ok a, w') => (Ok a, w')
    | (Throw e, w') => handler e w'
    end.

Definition gets {W A : Type} (f : W -> A) : M W A := fun w => (Ok (f w), w).
Definition modify {W : Type} (f : W -> W) : M W unit := fun w => (Ok tt, f w).

(** Lifts a value that may have thrown into the monad. *)
Definition liftOutcome {W A : Type} (o : outcome A) : M W A := fun w => (o, w).

Declare Scope adapter_scope.
Delimit Scope adapter_scope with adapter.
Notation "x <- m ;; k" := (bind m (fun x => k))
  (at level 100, m at next level, right associativity) : adapter_scope.
Notation "m ;;; k" := (bind m (fun _ => k))
  (at level 100, right associativity) : adapter_scope.

(** ** Debug Adapter Protocol data *)

Record Uri : Type := mkUri {
  uri_path : string;      (* uri.path *)
  uri_toString : string   (* uri.toString() *)
}.

(** [DebugProtocol.Source]; the adapters read and write [name] and [path]
    only. *)
Record Source : Type := mkSource {
  name : option string;
  path : option string;
  sourceReference : option Z
}.

(** [DebugProtocol.SourceBreakpoint] *)
Record SourceBreakpoint : Type := mkSourceBreakpoint {
  bp_line : Z;
  bp_column : option Z;
  bp_condition : option string
}.

(** [DebugProtocol.Breakpoint], as it appears in a response body. *)
Record Breakpoint : Type := mkBreakpoint {
  verified : bool;
  b_line : option Z;
  b_column : option Z;
  b_condition : option string;
  b_source : option Source
}.

(** The second argument of [translateDebuggerFileToRealFile]. *)
Record Lines : Type := mkLines {
  line : option Z;
  endLine : option Z;
  lines : option (list Z)
}.

(** The second argument of [translateRealLocationToDebuggerLocation]. *)
Record Location : Type := mkLocation {
  loc_line : option Z;
  loc_endLine : option Z;
  loc_breakpoints : option (list SourceBreakpoint)
}.

(** [DebugProtocol.SetBreakpointsArguments] *)
Record SetBreakpointsArguments : Type := mkArgs {
  source : Source;
  breakpoints : option (list SourceBreakpoint)
}.

(** [DebugProtocol.Request] whose arguments are read as
    [SetBreakpointsArguments]. *)
Record Request : Type := mkRequest {
  seq : Z;
  command : string;
  arguments : SetBreakpointsArguments
}.

Record ResponseBody : Type := mkBody {
  body_breakpoints : option (list Breakpoint)
}.

(** [DebugProtocol.Response]; the synthesized response of the partitioner has
    a [body] and nothing else. *)
Record Response : Type := mkResponse {
  request_seq : option Z;
  success : option bool;
  body : option ResponseBody
}.

(** [InteractiveCellMetadata] *)
Record Interactive : Type := mkInteractive {
  uristring : string;
  lineIndex : Z;
  originalSource : string
}.

Record GeneratedCode : Type := mkGeneratedCode {
  code : string;
  hasCellMarker : bool;
  firstNonBlankLineIndex : Z;
  lineOffsetRelativeToIndexOfFirstLineInCell : Z
}.

Record InteractiveCellMetadata : Type := mkMetadata {
  interactive : Interactive;
  generatedCode : option GeneratedCode
}.

(** A notebook cell: [cell.index], [cell.document.getText()],
    [cell.document.uri], [cell.metadata]. *)
Record NotebookCell : Type := mkCell {
  cell_index : Z;
  cell_getText : string;
  cell_uri : Uri;
  cell_metadata : option InteractiveCellMetadata
}.

(** The custom requests of the kernel session. *)
Record PydevdSourceMap : Type := mkSourceMap {
  sm_endLine : Z;
  sm_line : Z;
  sm_runtimeLine : Z;
  sm_runtimeSource_path : string
}.

Record ISourceMapRequest : Type := mkSourceMapRequest {
  smr_source_path : option string;
  pydevdSourceMaps : list PydevdSourceMap
}.

Inductive CustomArgs : Type :=
| DumpCellArgs (code : string)
| SourceMapArgs (req : ISourceMapRequest).

(** What a custom request resolves to, read as [IDumpCellResponse]. *)
Record CustomReply : Type := mkReply {
  sourcePath : option string
}.

(** What an adapter method does to the outside, in order. *)
Inductive Event : Type :=
| EvCustomRequest (cmd : string) (args : CustomArgs)
| EvSuperSend (request : Request)
| EvTraceError (cellIndex : option Z) (originalSource : option string) (err : error).

(** The requests handed to the pass-through channel, in order. *)
Fixpoint superSends (l : list Event) : list Request :=
  match l with
  | [] => []
  | EvSuperSend request :: l' => request :: superSends l'
  | _ :: l' => superSends l'
  end.

(** [Map.prototype.set] and [get] on a map that remembers insertion order:
    setting a key that is present overwrites its value where it stands. *)
Section JsMap.
Variable V : Type.

Fixpoint mapSet (k : string) (v : V) (m : list (string * V))
  : list (string * V) :=
  match m with
  | [] => [(k, v)]
  | (k', v') :: m' =>
      if String.eqb k' k then (k, v) :: m' else (k', v') :: mapSet k v m'
  end.

Fixpoint mapGet (k : string) (m : list (string * V)) : option V :=
  match m with
  | [] => None
  | (k', v') :: m' => if String.eqb k' k then Some v' else mapGet k m'
  end.

Definition mapValues (m : list (string * V)) : list V := map snd m.
Definition mapKeys (m : list (string * V)) : list string := map fst m.
End JsMap.

Definition optStringEqb (a b : option string) : bool :=
  match a, b with
  | Some x, Some y => String.eqb x y
  | None, None => true
  | _, _ => false
  end.

Definition optZEqb (a b : option Z) : bool :=
  match a, b with
  | Some x, Some y => x =? y
  | None, None => true
  | _, _ => false
  end.

(** ** What the adapters take from their host

    The base class [KernelDebugAdapterBase], the [vscode] API and the path
    helpers are outside the two files; an adapter sees them through this
    interface.  [Kernel] is whatever state the debug session behind
    [session.customRequest] and the base class's
    [sendRequestToJupyterSession2] carries from one request to the next. *)
Class Host : Type := {
  Kernel : Type;
  NotebookDocument : Type;
  (* path.normalize *)
  normalize : string -> string;
  (* path.basename *)
  basename : string -> string;
  (* Uri.parse *)
  Uri_parse : string -> Uri;
  (* notebookDocument.cellAt *)
  cellAt : NotebookDocument -> Z -> NotebookCell;
  (* getInteractiveCellMetadata *)
  getInteractiveCellMetadata : NotebookCell -> option InteractiveCellMetadata;
  (* await this.session.customRequest(cmd, args) *)
  customRequest : string -> CustomArgs -> Kernel -> outcome CustomReply * Kernel;
  (* await super.sendRequestToJupyterSession2(request) *)
  superSend : Request -> Kernel -> outcome Response * Kernel
}.

(** ** The interactive-window adapter *)
Module IW.

Record CellRecord : Type := mkCellRecord {
  debugFilePath : string;
  interactiveWindow : Uri;
  lineOffset : Z;
  metadata : InteractiveCellMetadata
}.

Definition recordLineIndex (item : CellRecord) : Z :=
  lineIndex (interactive (metadata item)).

(** [kernelLine + (cell.lineOffset || 0)] and
    [realLine - (cell.lineOffset || 0)], the two expressions the translation
    methods apply to every line they rewrite. *)
Definition toReal (cell : CellRecord) (kernelLine : Z) : Z :=
  kernelLine + orZero (lineOffset cell).

Definition toKernel (cell : CellRecord) (realLine : Z) : Z :=
  realLine - orZero (lineOffset cell).

Definition bpToKernel (cell : CellRecord) (bp : SourceBreakpoint)
  : SourceBreakpoint :=
  mkSourceBreakpoint (toKernel cell (bp_line bp)) (bp_column bp) (bp_condition bp).

(** The assignments to [lines] once the cell is known. *)
Definition shiftToReal (cell : CellRecord) (ls : Lines) : Lines :=
  mkLines (option_map (toReal cell) (line ls))
          (option_map (toReal cell) (endLine ls))
          (option_map (map (toReal cell)) (lines ls)).

(** The assignments to [location] once the cell is known. *)
Definition shiftToKernel (cell : CellRecord) (loc : Location) : Location :=
  mkLocation (option_map (toKernel cell) (loc_line loc))
             (option_map (toKernel cell) (loc_endLine loc))
             (option_map (map (bpToKernel cell)) (loc_breakpoints loc)).

(** [this.cellToDebugFileSortedInReverseOrderByLineNumber.find(
      (item) => item.debugFilePath === p)] *)
Definition findByDebugPath (store : list CellRecord) (p : string)
  : option CellRecord :=
  find (fun item => String.eqb (debugFilePath item) p) store.

(** [this.cellToDebugFileSortedInReverseOrderByLineNumber.find(
      (item) => item.metadata.interactive.lineIndex + 1 <= line)], the lookup
    of both [translateRealLocationToDebuggerLocation] and the breakpoint
    loop. *)
Definition findNearestPrecedingBySortKey (store : list CellRecord) (l : Z)
  : option CellRecord :=
  find (fun item => recordLineIndex item + 1 <=? l) store.

(** The comparator of the sort in [dumpCell]. *)
Definition byLineIndexDescending (a b : CellRecord) : Z :=
  recordLineIndex b - recordLineIndex a.

Section Adapter.
Context {host : Host}.

Record World : Type := mkWorld {
  notebookDocument : NotebookDocument;
  fileToCell : list (string * Uri);
  cellToDebugFileSortedInReverseOrderByLineNumber : list CellRecord;
  session : Kernel;
  log : list Event
}.

Definition emit (e : Event) : M World unit :=
  modify (fun w => mkWorld (notebookDocument w) (fileToCell w)
                     (cellToDebugFileSortedInReverseOrderByLineNumber w)
                     (session w) (log w ++ [e])).

Definition setStore (s : list CellRecord) : M World unit :=
  modify (fun w => mkWorld (notebookDocument w) (fileToCell w) s
                     (session w) (log w)).

Definition setFileToCell (m : list (string * Uri)) : M World unit :=
  modify (fun w => mkWorld (notebookDocument w) m
                     (cellToDebugFileSortedInReverseOrderByLineNumber w)
                     (session w) (log w)).

(** [await this.session.customRequest(cmd, args)] *)
Definition session_customRequest (cmd : string) (args : CustomArgs)
  : M World CustomReply :=
  fun w =>
    let '(r, k) := customRequest cmd args (session w) in
    (r, mkWorld (notebookDocument w) (fileToCell w)
          (cellToDebugFileSortedInReverseOrderByLineNumber w)
          k (log w ++ [EvCustomRequest cmd args])).

(** [super.sendRequestToJupyterSession2(request)], awaited. *)
Definition super_sendRequestToJupyterSession2 (request : Request)
  : M World Response :=
  fun w =>
    let '(r, k) := superSend request (session w) in
    (r, mkWorld (notebookDocument w) (fileToCell w)
          (cellToDebugFileSortedInReverseOrderByLineNumber w)
          k (log w ++ [EvSuperSend request])).

(** A promise that was started and is awaited later: the call is made now,
    how it settled is kept as a value. *)
Definition settle {A : Type} (m : M World A) : M World (outcome A) :=
  fun w => let '(r, w') := m w in (Ok r, w').

(** The record [dumpCell] pushes for the file [norm]. *)
Definition dumpedRecord (norm : string) (metadata : InteractiveCellMetadata)
  : CellRecord :=
  let numberOfStrippedLines :=
    match generatedCode metadata with
    | Some g => if hasCellMarker g then 0 else firstNonBlankLineIndex g
    | None => 0
    end in
  mkCellRecord norm
    (Uri_parse (uristring (interactive metadata)))
    (numberOfStrippedLines
     + lineIndex (interactive metadata)
     + orZero (match generatedCode metadata with
               | Some g => lineOffsetRelativeToIndexOfFirstLineInCell g
               | None => 0
               end))
    metadata.

(** The code [dumpCell] sends to the kernel. *)
Definition codeToDump (cell : NotebookCell) (metadata : InteractiveCellMetadata)
  : string :=
  replaceCRLF (orString (option_map code (generatedCode metadata))
                        (cell_getText cell)).

Definition dumpCell (index : Z) : M World unit :=
  (doc <- gets notebookDocument ;;
  let cell := cellAt doc index in
  match getInteractiveCellMetadata cell with
  | None => throw (Error "Not an interactive window cell")
  | Some metadata =>
      tryCatch
        (let code := codeToDump cell metadata in
         response <- session_customRequest "dumpCell" (DumpCellArgs code) ;;
         norm <- match sourcePath response with
                 | Some p => ret (normalize p)
                 | None => throw (TypeError "path must be a string")
                 end ;;
         m <- gets fileToCell ;;
         setFileToCell
           (mapSet norm (Uri_parse (uristring (interactive metadata))) m) ;;;
         store <- gets cellToDebugFileSortedInReverseOrderByLineNumber ;;
         let pushed := store ++ [dumpedRecord norm metadata] in
         setStore (jsSort byLineIndexDescending pushed))%adapter
        (fun err =>
           emit (EvTraceError (Some (cell_index cell))
                   (Some (originalSource (interactive metadata))) err))
  end)%adapter.

Definition translateDebuggerFileToRealFile (store : list CellRecord)
    (source : option Source) (ls : option Lines)
  : option Source * option Lines :=
  match source, ls with
  | Some src, Some l =>
      match truthyString (path src) with
      | None => (source, ls)
      | Some p =>
          if (negb (isSome (line l)) && negb (isSome (lines l)))%bool
          then (source, ls)
          else
            match findByDebugPath store p with
            | None => (source, ls)
            | Some cell =>
                (Some (mkSource
                         (Some (basename (uri_path (interactiveWindow cell))))
                         (Some (uri_toString (interactiveWindow cell)))
                         (sourceReference src)),
                 Some (shiftToReal cell l))
            end
      end
  | _, _ => (source, ls)
  end.

(** [location.line || location.breakpoints![0].line] *)
Definition startLineOf (loc : Location) : outcome Z :=
  let fromBreakpoints :=
    match loc_breakpoints loc with
    | Some (bp :: _) => Ok (bp_line bp)
    | Some [] =>
        Throw (TypeError "Cannot read properties of undefined (reading 'line')")
    | None =>
        Throw (TypeError "Cannot read properties of undefined (reading '0')")
    end in
  match loc_line loc with
  | Some l => if l =? 0 then fromBreakpoints else Ok l
  | None => fromBreakpoints
  end.

Definition translateRealLocationToDebuggerLocation (store : list CellRecord)
    (source : option Source) (location : option Location)
  : outcome (option Source * option Location) :=
  match source, location with
  | Some src, Some loc =>
      match truthyString (path src) with
      | None => Ok (source, location)
      | Some p =>
          if (negb (isSome (loc_line loc))
              && negb (isSome (loc_breakpoints loc)))%bool
          then Ok (source, location)
          else
            match startLineOf loc with
            | Throw e => Throw e
            | Ok startLine =>
                match findNearestPrecedingBySortKey store startLine with
                | None => Ok (source, location)
                | Some cell =>
                    if negb (String.eqb (uri_path (interactiveWindow cell)) p)
                    then Ok (source, location)
                    else
                      Ok (Some (mkSource (name src)
                                  (Some (debugFilePath cell))
                                  (sourceReference src)),
                          Some (shiftToKernel cell loc))
                end
            end
      end
  | _, _ => Ok (source, location)
  end.

Definition getDumpFilesForDeletion : M World (list string) :=
  gets (fun w =>
          map debugFilePath (cellToDebugFileSortedInReverseOrderByLineNumber w)).

(** The notebook as it reads when the cell at [index] is dumped. *)
Definition dumpCellOf (w : World) (op : NotebookDocument * Z) : World :=
  snd (dumpCell (snd op)
         (mkWorld (fst op) (fileToCell w)
            (cellToDebugFileSortedInReverseOrderByLineNumber w)
            (session w) (log w))).

(** A debug session's dump operations, one after the other. *)
Definition dumpCells (ops : list (NotebookDocument * Z)) (w : World) : World :=
  fold_left dumpCellOf ops w.

(** [Promise.all]: every call was already made; the result is the list of
    responses, or the rejection of the first promise (in array order) that
    rejected. *)
Fixpoint promiseAll {A : Type} (settled : list (outcome A))
  : outcome (list A) :=
  match settled with
  | [] => Ok []
  | Throw e :: _ => Throw e
  | Ok a :: rest =>
      match promiseAll rest with
      | Ok l => Ok (a :: l)
      | Throw e => Throw e
      end
  end.

(** [newResponse.body.breakpoints =
       newResponse.body.breakpoints.concat(response.body.breakpoints ?? [])] *)
Definition concatBreakpoints (newResponse response : Response)
  : outcome Response :=
  match body newResponse with
  | None =>
      Throw (TypeError "Cannot read properties of undefined (reading 'breakpoints')")
  | Some nb =>
      match body_breakpoints nb with
      | None =>
          Throw (TypeError "Cannot read properties of undefined (reading 'concat')")
      | Some mine =>
          match body response with
          | None =>
              Throw (TypeError "Cannot read properties of undefined (reading 'breakpoints')")
          | Some rb =>
              Ok (mkResponse (request_seq newResponse) (success newResponse)
                    (Some (mkBody
                             (Some (mine ++ match body_breakpoints rb with
                                            | Some theirs => theirs
                                            | None => []
                                            end)))))
          end
      end
  end.

Fixpoint concatAll (newResponse : Response) (rest : list Response)
  : outcome Response :=
  match rest with
  | [] => Ok newResponse
  | response :: rest' =>
      match concatBreakpoints newResponse response with
      | Ok r => concatAll r rest'
      | Throw e => Throw e
      end
  end.

(** [JSON.parse(JSON.stringify(responses[0]))] followed by the [forEach]
    over [responses.slice(1)].  [JSON.stringify(undefined)] is [undefined],
    which [JSON.parse] rejects. *)
Definition mergeResponses (responses : list Response) : outcome Response :=
  match responses with
  | [] => Throw (SyntaxError "undefined is not valid JSON")
  | first :: rest => concatAll first rest
  end.

(** [{ ...bp, ...{ verified: true } }] *)
Definition fakeBreakpoint (bp : SourceBreakpoint) : Breakpoint :=
  mkBreakpoint true (Some (bp_line bp)) (bp_column bp) (bp_condition bp) None.

(** [{ body: { breakpoints: [fakeBreakpoint] } }] *)
Definition fakeResponse (bp : SourceBreakpoint) : Response :=
  mkResponse None None (Some (mkBody (Some [fakeBreakpoint bp]))).

(** The variables of the breakpoint loop. *)
Record LoopState : Type := mkLoop {
  currentCellLine : option Z;
  currentCellBps : list SourceBreakpoint;
  setBreakpointsRequests : list (outcome Response)
}.

(** [clonedRequest = JSON.parse(JSON.stringify(request))] with
    [clonedRequest.arguments.breakpoints = currentCellBps]. *)
Definition cloneWithBreakpoints (request : Request)
    (currentCellBps : list SourceBreakpoint) : Request :=
  mkRequest (seq request) (command request)
    (mkArgs (source (arguments request)) (Some currentCellBps)).

Definition sendIfNeeded (request : Request) (st : LoopState)
  : M World LoopState :=
  match currentCellBps st with
  | [] => ret st
  | _ :: _ =>
      let clonedRequest := cloneWithBreakpoints request (currentCellBps st) in
      (p <- settle (super_sendRequestToJupyterSession2 clonedRequest) ;;
       ret (mkLoop (currentCellLine st) (currentCellBps st)
              (setBreakpointsRequests st ++ [p])))%adapter
  end.

(** [cellForBp?.lineOffset] *)
Definition cellLineForBp (store : list CellRecord) (bp : SourceBreakpoint)
  : option Z :=
  option_map lineOffset (findNearestPrecedingBySortKey store (bp_line bp)).

(** [typeof cellLineForBp === 'number']: some record owns the breakpoint's
    line. *)
Definition owned (store : list CellRecord) (bp : SourceBreakpoint) : bool :=
  isSome (cellLineForBp store bp).

(** One turn of [for (const bp of request.arguments.breakpoints ?? [])]. *)
Definition loopBody (request : Request) (store : list CellRecord)
    (st : LoopState) (bp : SourceBreakpoint) : M World LoopState :=
  match cellLineForBp store bp with
  | Some n =>
      if negb (optZEqb (Some n) (currentCellLine st))
      then
        (st' <- sendIfNeeded request st ;;
         ret (mkLoop (Some n) [bp] (setBreakpointsRequests st')))%adapter
      else
        ret (mkLoop (currentCellLine st) (currentCellBps st ++ [bp])
               (setBreakpointsRequests st))
  | None =>
      ret (mkLoop (currentCellLine st) (currentCellBps st)
             (setBreakpointsRequests st ++ [Ok (fakeResponse bp)]))
  end.

Fixpoint forEachBreakpoint (request : Request) (store : list CellRecord)
    (bps : list SourceBreakpoint) (st : LoopState) : M World LoopState :=
  match bps with
  | [] => ret st
  | bp :: rest =>
      (st' <- loopBody request store st bp ;;
       forEachBreakpoint request store rest st')%adapter
  end.

(** The loop and the last [sendIfNeeded]: the promises the merge waits
    for. *)
Definition partitionBreakpoints (request : Request)
  : M World (list (outcome Response)) :=
  (store <- gets cellToDebugFileSortedInReverseOrderByLineNumber ;;
   let bps := match breakpoints (arguments request) with
              | Some l => l
              | None => []
              end in
   st <- forEachBreakpoint request store bps (mkLoop None [] []) ;;
   st' <- sendIfNeeded request st ;;
   ret (setBreakpointsRequests st'))%adapter.

Definition sendRequestToJupyterSession2 (request : Request)
  : M World Response :=
  if String.eqb (command request) "setBreakpoints" then
    let args := arguments request in
    (store <- gets cellToDebugFileSortedInReverseOrderByLineNumber ;;
     match store with
     | [] =>
         throw (TypeError
                  "Cannot read properties of undefined (reading 'debugFilePath')")
     | first :: _ =>
         let runtimeSource := debugFilePath first in
         let sourceMapRequest :=
           mkSourceMapRequest (path (source args))
             [mkSourceMap 3 1 2 ("/private" ++ runtimeSource)%string] in
         _ <- session_customRequest "setPydevdSourceMap"
                (SourceMapArgs sourceMapRequest) ;;
         super_sendRequestToJupyterSession2 request
     end)%adapter
  else if String.eqb (command request) "2setBreakpoints" then
    let args := arguments request in
    (store <- gets cellToDebugFileSortedInReverseOrderByLineNumber ;;
     if negb (optStringEqb
                (option_map (fun c => uri_path (interactiveWindow c))
                   (hd_error store))
                (path (source args)))
     then super_sendRequestToJupyterSession2 request
     else
       setBreakpointsRequests <- partitionBreakpoints request ;;
       responses <- liftOutcome (promiseAll setBreakpointsRequests) ;;
       liftOutcome (mergeResponses responses))%adapter
  else super_sendRequestToJupyterSession2 request.
End Adapter.
End IW.

(** ** The notebook adapter *)
Module NB.
Section Adapter.
Context {host : Host}.

Record World : Type := mkWorld {
  notebookDocument : NotebookDocument;
  fileToCell : list (string * Uri);
  cellToFile : list (string * string);
  session : Kernel;
  log : list Event
}.

Definition emit (e : Event) : M World unit :=
  modify (fun w => mkWorld (notebookDocument w) (fileToCell w) (cellToFile w)
                     (session w) (log w ++ [e])).

Definition setCellToFile (m : list (string * string)) : M World unit :=
  modify (fun w => mkWorld (notebookDocument w) (fileToCell w) m
                     (session w) (log w)).

Definition setFileToCell (m : list (string * Uri)) : M World unit :=
  modify (fun w => mkWorld (notebookDocument w) m (cellToFile w)
                     (session w) (log w)).

(** [await this.session.customRequest(cmd, args)] *)
Definition session_customRequest (cmd : string) (args : CustomArgs)
  : M World CustomReply :=
  fun w =>
    let '(r, k) := customRequest cmd args (session w) in
    (r, mkWorld (notebookDocument w) (fileToCell w) (cellToFile w)
          k (log w ++ [EvCustomRequest cmd args])).

Definition dumpCell (index : Z) : M World unit :=
  (doc <- gets notebookDocument ;;
   let cell := cellAt doc index in
   tryCatch
     (response <- session_customRequest "dumpCell"
                    (DumpCellArgs (replaceCRLF (cell_getText cell))) ;;
      norm <- match sourcePath response with
              | Some p => ret (normalize p)
              | None => throw (TypeError "path must be a string")
              end ;;
      f <- gets fileToCell ;;
      setFileToCell (mapSet norm (cell_uri cell) f) ;;;
      c <- gets cellToFile ;;
      setCellToFile (mapSet (uri_toString (cell_uri cell)) norm c))
     (fun err => emit (EvTraceError None None err)))%adapter.

Definition translateRealLocationToDebuggerLocation
    (cellToFile : list (string * string)) (source : option Source)
  : option Source :=
  match source with
  | Some src =>
      match truthyString (path src) with
      | Some p =>
          match truthyString (mapGet p cellToFile) with
          | Some mapping =>
              Some (mkSource (name src) (Some mapping) (sourceReference src))
          | None => source
          end
      | None => source
      end
  | None => source
  end.

Definition getDumpFilesForDeletion : M World (list string) :=
  gets (fun w => mapValues (cellToFile w)).

(** The notebook as it reads when the cell at [index] is dumped. *)
Definition dumpCellOf (w : World) (op : NotebookDocument * Z) : World :=
  snd (dumpCell (snd op)
         (mkWorld (fst op) (fileToCell w) (cellToFile w) (session w) (log w))).

(** A debug session's dump operations, one after the other. *)
Definition dumpCells (ops : list (NotebookDocument * Z)) (w : World) : World :=
  fold_left dumpCellOf ops w.

(** [super.sendRequestToJupyterSession2(request)], awaited. *)
Definition super_sendRequestToJupyterSession2 (request : Request)
  : M World Response :=
  fun w =>
    let '(r, k) := superSend request (session w) in
    (r, mkWorld (notebookDocument w) (fileToCell w) (cellToFile w)
          k (log w ++ [EvSuperSend request])).

(** [args.source.path = '<' + args.source.path] *)
Definition markSource (request : Request) : Request :=
  let args := arguments request in
  mkRequest (seq request) (command request)
    (mkArgs (mkSource (name (source args))
               (Some ("<" ++ stringOf (path (source args)))%string)
               (sourceReference (source args)))
       (breakpoints args)).

Definition sendRequestToJupyterSession2 (request : Request)
  : M World Response :=
  if String.eqb (command request) "setBreakpoints" then
    let args := arguments request in
    (c <- gets cellToFile ;;
     let runtimeSource :=
       match path (source args) with
       | Some p => mapGet p c
       | None => None
       end in
     let sourceMapRequest :=
       mkSourceMapRequest
         (Some ("<" ++ stringOf (path (source args)))%string)
         [mkSourceMap 3 1 2 ("/private" ++ stringOf runtimeSource)%string] in
     _ <- session_customRequest "setPydevdSourceMap"
            (SourceMapArgs sourceMapRequest) ;;
     super_sendRequestToJupyterSession2 (markSource request))%adapter
  else super_sendRequestToJupyterSession2 request.
End Adapter.
End NB.

(** ** A scripted host, for running the adapters on concrete sessions

    The kernel answers the custom requests from a script, one reply per
    request; the pass-through channel verifies every breakpoint it is given,
    where it is given it.  Paths are already normal. *)
Module Scenario.

Fixpoint lastSegment (s cur : string) : string :=
  match s with
  | EmptyString => cur
  | String c rest =>
      if Ascii.eqb c "/"%char then lastSegment rest EmptyString
      else lastSegment rest (cur ++ String c EmptyString)%string
  end.

Definition parseFileUri (s : string) : Uri :=
  if String.prefix "file://" s
  then mkUri (String.substring 7 (String.length s - 7) s) s
  else mkUri s s.

Definition echo (request : Request) : Response :=
  mkResponse (Some (seq request)) (Some true)
    (Some (mkBody
             (Some (map (fun bp =>
                           mkBreakpoint true (Some (bp_line bp)) (bp_column bp)
                             None (Some (source (arguments request))))
                        (match breakpoints (arguments request) with
                         | Some l => l
                         | None => []
                         end))))).

Definition noCell : NotebookCell := mkCell 0 "" (mkUri "" "") None.

Definition scripted : Host := {|
  Kernel := list (outcome CustomReply);
  NotebookDocument := list NotebookCell;
  normalize := fun p => p;
  basename := fun p => lastSegment p EmptyString;
  Uri_parse := parseFileUri;
  cellAt := fun doc index => nth (Z.to_nat index) doc noCell;
  getInteractiveCellMetadata := cell_metadata;
  customRequest := fun _ _ k =>
    match k with
    | [] => (Throw (Rejected "no reply scripted"), [])
    | r :: k' => (r, k')
    end;
  superSend := fun request k => (Ok (echo request), k)
|}.

Definition reply (p : string) : outcome CustomReply := Ok (mkReply (Some p)).

(** The metadata of an interactive-window cell of the file [/w.py] that
    starts at [lineIndex]; with [extra] lines of generated code in front of
    it when [extra] is not 0. *)
Definition iwMetadata (lineIndex : Z) (src : string) (extra : Z)
  : InteractiveCellMetadata :=
  mkMetadata (mkInteractive "file:///w.py" lineIndex src)
    (if extra =? 0 then None else Some (mkGeneratedCode src true 0 extra)).

Definition iwCell (index lineIndex extra : Z) (src : string) : NotebookCell :=
  mkCell index src (mkUri "/iw-1" "vscode-interactive:/iw-1")
    (Some (iwMetadata lineIndex src extra)).

(** The record [dumpCell] pushes for such a cell. *)
Definition iwRecord (debugFile : string) (lineIndex extra : Z) (src : string)
  : IW.CellRecord :=
  IW.dumpedRecord (host := scripted) debugFile (iwMetadata lineIndex src extra).

Definition iwWorld (doc : list NotebookCell) (store : list IW.CellRecord)
    (script : list (outcome CustomReply)) : IW.World (host := scripted) :=
  IW.mkWorld (host := scripted) doc [] store script [].

Definition nbCell (index : Z) (uri text : string) : NotebookCell :=
  mkCell index text (mkUri uri uri) None.

Definition nbWorld (script : list (outcome CustomReply))
  : NB.World (host := scripted) :=
  NB.mkWorld (host := scripted) [] [] [] script [].

Definition bpAt (l : Z) : SourceBreakpoint := mkSourceBreakpoint l None None.

Definition setBreakpointsRequest (cmd : string) (p : string) (ls : list Z)
  : Request :=
  mkRequest 1 cmd (mkArgs (mkSource None (Some p) None) (Some (map bpAt ls))).

(** Two cells of [/w.py]: A starts at line index 0 and has line offset 10, B
    starts at line index 15 and has line offset 100. *)
Definition twoCellsDocument : list NotebookCell :=
  [iwCell 0 0 10 "a = 1"; iwCell 1 15 85 "b = 2"].

Definition recordA : IW.CellRecord := iwRecord "/tmp/a.py" 0 10 "a = 1".
Definition recordB : IW.CellRecord := iwRecord "/tmp/b.py" 15 85 "b = 2".

(** Both cells dumped, A first; the kernel has one more reply ready. *)
Definition twoCells : IW.World (host := scripted) :=
  IW.dumpCells (host := scripted)
    [(twoCellsDocument, 0); (twoCellsDocument, 1)]
    (iwWorld twoCellsDocument []
       [reply "/tmp/a.py"; reply "/tmp/b.py"; Ok (mkReply None)]).

(** One dumped cell that starts at line index 9: lines up to 9 have no
    owner. *)
Definition oneCell : IW.World (host := scripted) :=
  iwWorld [] [iwRecord "/tmp/a.py" 9 0 "a = 1"] [].

(** The same record, with a kernel that has a reply ready for the next custom
    request. *)
Definition oneCellReady : IW.World (host := scripted) :=
  iwWorld [] [iwRecord "/tmp/a.py" 9 0 "a = 1"] [Ok (mkReply None)].

(** The interactive window after one cell: the cell at index 0 starts at
    line index 0 of [/w.py]. *)
Definition oneIwCell : list NotebookCell := [iwCell 0 0 0 "x = 1"].

(** The same cell dumped twice; the kernel names the file after the code, so
    it answers with the same path. *)
Definition dumpedTwice : IW.World (host := scripted) :=
  IW.dumpCells (host := scripted) [(oneIwCell, 0); (oneIwCell, 0)]
    (iwWorld oneIwCell [] [reply "/tmp/a.py"; reply "/tmp/a.py"]).

(** A notebook cell dumped, edited, and dumped again. *)
Definition dumpedEditedDumped : NB.World (host := scripted) :=
  NB.dumpCells (host := scripted)
    [([nbCell 0 "vscode-notebook-cell:/nb.ipynb#c1" "x = 1"], 0);
     ([nbCell 0 "vscode-notebook-cell:/nb.ipynb#c1" "x = 2"], 0)]
    (nbWorld [reply "/tmp/1.py"; reply "/tmp/2.py"]).

(** The first cell of [/w.py] (line index 3) is dumped; the next cell, which
    starts at line index 10, is about to be dumped and the kernel will reject
    the request. *)
Definition secondCellFailsDocument : list NotebookCell :=
  [iwCell 0 3 0 "a = 1"; iwCell 1 10 0 "b = 2"].

Definition secondCellFails : IW.World (host := scripted) :=
  IW.dumpCells (host := scripted) [(secondCellFailsDocument, 0)]
    (iwWorld secondCellFailsDocument []
       [reply "/tmp/a.py"; Throw (Rejected "kernel timed out")]).

(** The first cell of [/w.py] is dumped and the kernel is ready to answer the
    dump of the second one. *)
Definition secondCellResolves : IW.World (host := scripted) :=
  IW.mkWorld (host := scripted) secondCellFailsDocument
    (IW.fileToCell secondCellFails)
    (IW.cellToDebugFileSortedInReverseOrderByLineNumber secondCellFails)
    [reply "/tmp/b.py"] [].

(** A notebook of two cells, the second with Windows line ends, and a kernel
    that answers two dumps. *)
Definition notebookDocument : list NotebookCell :=
  [nbCell 0 "vscode-notebook-cell:/nb.ipynb#c1" "x = 1";
   nbCell 1 "vscode-notebook-cell:/nb.ipynb#c2"
     (joinLines CRLF ["y = 2"; "print(y)"])].

Definition notebookWorld : NB.World (host := scripted) :=
  NB.mkWorld (host := scripted) notebookDocument [] []
    [reply "/tmp/1.py"; reply "/tmp/2.py"; Ok (mkReply None)] [].

(** The scripted host with a pass-through channel that rejects every
    request. *)
Definition refusing : Host := {|
  Kernel := list (outcome CustomReply);
  NotebookDocument := list NotebookCell;
  normalize := fun p => p;
  basename := fun p => lastSegment p EmptyString;
  Uri_parse := parseFileUri;
  cellAt := fun doc index => nth (Z.to_nat index) doc noCell;
  getInteractiveCellMetadata := cell_metadata;
  customRequest := fun _ _ k =>
    match k with
    | [] => (Throw (Rejected "no reply scripted"), [])
    | r :: k' => (r, k')
    end;
  superSend := fun request k => (Throw (Rejected "session is dead"), k)
|}.

(** The two dumped cells of [twoCells], on that host. *)
Definition twoCellsRefusing : IW.World (host := refusing) :=
  IW.dumpCells (host := refusing)
    [(twoCellsDocument, 0); (twoCellsDocument, 1)]
    (IW.mkWorld (host := refusing) twoCellsDocument [] []
       [reply "/tmp/a.py"; reply "/tmp/b.py"] []).
End Scenario.

(** * Vocabulary of the properties *)

(** What an adapter method leaves alone: everything but the kernel session
    and the log. *)
Definition sameAdapter {host : Host} (w w' : IW.World) : Prop :=
  IW.notebookDocument w' = IW.notebookDocument w
  /\ IW.fileToCell w' = IW.fileToCell w
  /\ IW.cellToDebugFileSortedInReverseOrderByLineNumber w'
     = IW.cellToDebugFileSortedInReverseOrderByLineNumber w.

(** The sub-request the partitioner hands on for a group of breakpoints. *)
Definition sent (request : Request) (group : list SourceBreakpoint) : Event :=
  EvSuperSend (IW.cloneWithBreakpoints request group).

Definition unowned (store : list IW.CellRecord) (bp : SourceBreakpoint) : bool :=
  negb (IW.owned store bp).

(** [response.body.breakpoints ?? []], also when there is no body. *)
Definition bpsOf (r : Response) : list Breakpoint :=
  match body r with
  | Some b => match body_breakpoints b with Some l => l | None => [] end
  | None => []
  end.

(** Descending by line index: every record starts at or after the ones that
    follow it. *)
Definition descending (store : list IW.CellRecord) : Prop :=
  StronglySorted (fun a b => IW.recordLineIndex b <= IW.recordLineIndex a) store.

(** The breakpoints a request asks for: [arguments.breakpoints ?? []]. *)
Definition requested (request : Request) : list SourceBreakpoint :=
  match breakpoints (arguments request) with
  | Some l => l
  | None => []
  end.

(** The request reaches the partitioner: it is named [2setBreakpoints] and
    the first record of the array has the request's source path. *)
Definition partitioned {host : Host} (w : IW.World) (request : Request) : Prop :=
  command request = "2setBreakpoints"
  /\ optStringEqb
       (option_map (fun c => uri_path (IW.interactiveWindow c))
          (hd_error (IW.cellToDebugFileSortedInReverseOrderByLineNumber w)))
       (path (source (arguments request))) = true.

(** The pass-through channel answers every request with a response that has
    one breakpoint per breakpoint asked. *)
Definition answersEachBreakpoint {host : Host} : Prop :=
  forall (request : Request) (k : Kernel),
  exists (r : Response) (l : list Breakpoint) (k' : Kernel),
    superSend request k = (Ok r, k')
    /\ body r = Some (mkBody (Some l))
    /\ length l = length (requested request).

(** How many breakpoints a settled sub-request answered. *)
Definition answeredCount (o : outcome Response) : nat :=
  match o with
  | Ok r => length (bpsOf r)
  | Throw _ => 0%nat
  end.

(** The sub-request resolved with a body that has a breakpoints array. *)
Definition answered (o : outcome Response) : Prop :=
  exists r l, o = Ok r /\ body r = Some (mkBody (Some l)).

Fixpoint total (l : list nat) : nat :=
  match l with
  | [] => 0%nat
  | n :: l' => (n + total l')%nat
  end.

(** The maximal runs of neighbours that are [same]. *)
Fixpoint runs {A : Type} (same : A -> A -> bool) (l : list A) : list (list A) :=
  match l with
  | [] => []
  | x :: l' =>
      match runs same l' with
      | (y :: g) :: gs =>
          if same x y then (x :: y :: g) :: gs else [x] :: (y :: g) :: gs
      | _ => [[x]]
      end
  end.

(** Two breakpoints whose owning records have the same line offset. *)
Definition sameOffset (store : list IW.CellRecord) (a b : SourceBreakpoint) : bool :=
  optZEqb (IW.cellLineForBp store a) (IW.cellLineForBp store b).

(** The group being collected is empty before the first owned breakpoint and
    afterwards a run with the current line offset. *)
Definition collecting (store : list IW.CellRecord) (st : IW.LoopState) : Prop :=
  (IW.currentCellLine st = None /\ IW.currentCellBps st = [])
  \/ exists n, IW.currentCellLine st = Some n
               /\ IW.currentCellBps st <> []
               /\ Forall (fun b => IW.cellLineForBp store b = Some n)
                    (IW.currentCellBps st).

Definition pending (st : IW.LoopState) : list (list SourceBreakpoint) :=
  match IW.currentCellBps st with
  | [] => []
  | g => [g]
  end.

(** Every file of the interactive-window array is a key of [fileToCell]. *)
Definition IW_filesKnown {host : Host} (w : IW.World) : Prop :=
  forall f,
    In f (map IW.debugFilePath (IW.cellToDebugFileSortedInReverseOrderByLineNumber w)) ->
    In f (mapKeys (IW.fileToCell w)).

(** Every file of the notebook adapter's map is a key of [fileToCell]. *)
Definition NB_filesKnown {host : Host} (w : NB.World) : Prop :=
  forall f, In f (mapValues (NB.cellToFile w)) -> In f (mapKeys (NB.fileToCell w)).

Section Vocabulary.
Context {host : Host}.

(** The normalized path the kernel returns when the cell at [index] is
    dumped in [w], if the cell is an interactive-window cell and the request
    resolves with a path. *)
Definition IW_dumpedPath (w : IW.World) (index : Z) : option string :=
  let cell := cellAt (IW.notebookDocument w) index in
  match getInteractiveCellMetadata cell with
  | Some metadata =>
      match customRequest "dumpCell" (DumpCellArgs (IW.codeToDump cell metadata))
              (IW.session w) with
      | (Ok reply, _) => option_map normalize (sourcePath reply)
      | (Throw _, _) => None
      end
  | None => None
  end.

Definition IW_withDocument (w : IW.World) (doc : NotebookDocument) : IW.World :=
  IW.mkWorld doc (IW.fileToCell w)
    (IW.cellToDebugFileSortedInReverseOrderByLineNumber w)
    (IW.session w) (IW.log w).

(** The paths the kernel returned over a session, one per dump that
    resolved, in the order of the dumps. *)
Fixpoint IW_dumpedPaths (ops : list (NotebookDocument * Z)) (w : IW.World)
  : list string :=
  match ops with
  | [] => []
  | op :: ops' =>
      match IW_dumpedPath (IW_withDocument w (fst op)) (snd op) with
      | Some p => p :: IW_dumpedPaths ops' (IW.dumpCellOf w op)
      | None => IW_dumpedPaths ops' (IW.dumpCellOf w op)
      end
  end.

(** The normalized path the kernel returns when the cell at [index] is
    dumped in [w], if the request resolves with a path. *)
Definition NB_dumpedPath (w : NB.World) (index : Z) : option string :=
  match customRequest "dumpCell"
          (DumpCellArgs
             (replaceCRLF (cell_getText (cellAt (NB.notebookDocument w) index))))
          (NB.session w) with
  | (Ok reply, _) => option_map normalize (sourcePath reply)
  | (Throw _, _) => None
  end.
End Vocabulary.

(** * Properties *)

(** ** Coordinate translation *)

Lemma orZero_id (x : Z) : orZero x = x.
Proof.
  unfold orZero. destruct (x =? 0) eqn:E; [apply Z.eqb_eq in E; lia | reflexivity].
Qed.

Lemma toReal_toKernel (cell : IW.CellRecord) (l : Z) :
  IW.toReal cell (IW.toKernel cell l) = l.
Proof. unfold IW.toReal, IW.toKernel. lia. Qed.

Lemma toKernel_toReal (cell : IW.CellRecord) (l : Z) :
  IW.toKernel cell (IW.toReal cell l) = l.
Proof. unfold IW.toReal, IW.toKernel. lia. Qed.

(** Once its lookup has found [cell] in the source's file,
    [translateRealLocationToDebuggerLocation] rewrites the location with
    [shiftToKernel cell]. *)
Lemma translateRealLocationToDebuggerLocation_found
    (store : list IW.CellRecord) (src : Source) (loc : Location)
    (p : string) (startLine : Z) (cell : IW.CellRecord) :
  truthyString (path src) = Some p ->
  (isSome (loc_line loc) || isSome (loc_breakpoints loc))%bool = true ->
  IW.startLineOf loc = Ok startLine ->
  IW.findNearestPrecedingBySortKey store startLine = Some cell ->
  uri_path (IW.interactiveWindow cell) = p ->
  IW.translateRealLocationToDebuggerLocation store (Some src) (Some loc)
  = Ok (Some (mkSource (name src) (Some (IW.debugFilePath cell))
                (sourceReference src)),
        Some (IW.shiftToKernel cell loc)).
Proof.
  intros Hp Hl Hs Hf Hw. unfold IW.translateRealLocationToDebuggerLocation.
  rewrite Hp, Hs, Hf, Hw, String.eqb_refl.
  destruct (loc_line loc), (loc_breakpoints loc); simpl in *;
    try discriminate; reflexivity.
Qed.

(** Written out, the assignments of the two methods add the record's line
    offset to, and subtract it from, every line they touch. *)
Lemma shiftToReal_adds (cell : IW.CellRecord) (ls : Lines) :
  IW.shiftToReal cell ls
  = mkLines (option_map (fun l => l + IW.lineOffset cell) (line ls))
            (option_map (fun l => l + IW.lineOffset cell) (endLine ls))
            (option_map (map (fun l => l + IW.lineOffset cell)) (lines ls)).
Proof.
  unfold IW.shiftToReal, IW.toReal. now rewrite orZero_id.
Qed.

Lemma shiftToKernel_subtracts (cell : IW.CellRecord) (loc : Location) :
  IW.shiftToKernel cell loc
  = mkLocation
      (option_map (fun l => l - IW.lineOffset cell) (loc_line loc))
      (option_map (fun l => l - IW.lineOffset cell) (loc_endLine loc))
      (option_map
         (map (fun bp => mkSourceBreakpoint (bp_line bp - IW.lineOffset cell)
                           (bp_column bp) (bp_condition bp)))
         (loc_breakpoints loc)).
Proof.
  unfold IW.shiftToKernel, IW.bpToKernel, IW.toKernel. now rewrite orZero_id.
Qed.

(** A start line can be read only off a location that has a [line] or a
    [breakpoints] array. *)
Lemma startLineOf_guard (loc : Location) (s : Z) :
  IW.startLineOf loc = Ok s ->
  (isSome (loc_line loc) || isSome (loc_breakpoints loc))%bool = true.
Proof.
  unfold IW.startLineOf.
  destruct (loc_line loc) as [l|]; [reflexivity|].
  destruct (loc_breakpoints loc) as [[|b bs]|]; simpl; intros H;
    try discriminate; reflexivity.
Qed.

(** The whole result of [translateDebuggerFileToRealFile] once its lookup has
    found [cell]. *)
Lemma translateDebuggerFileToRealFile_with
    {host : Host} (store : list IW.CellRecord) (src : Source) (ls : Lines)
    (p : string) (cell : IW.CellRecord) :
  truthyString (path src) = Some p ->
  (isSome (line ls) || isSome (lines ls))%bool = true ->
  IW.findByDebugPath store p = Some cell ->
  IW.translateDebuggerFileToRealFile store (Some src) (Some ls)
  = (Some (mkSource (Some (basename (uri_path (IW.interactiveWindow cell))))
             (Some (uri_toString (IW.interactiveWindow cell)))
             (sourceReference src)),
     Some (IW.shiftToReal cell ls)).
Proof.
  intros Hp Hl Hf. unfold IW.translateDebuggerFileToRealFile.
  rewrite Hp.
  destruct (line ls), (lines ls); simpl in *; try discriminate;
    now rewrite Hf.
Qed.

Lemma truthyString_nonempty (p : string) :
  p <> "" -> truthyString (Some p) = Some p.
Proof.
  intros Hne. unfold truthyString.
  destruct (String.eqb_spec p ""); [contradiction | reflexivity].
Qed.

Lemma findByDebugPath_path (store : list IW.CellRecord) (p : string)
    (cell : IW.CellRecord) :
  IW.findByDebugPath store p = Some cell -> IW.debugFilePath cell = p.
Proof.
  unfold IW.findByDebugPath. intros H. apply find_some in H.
  destruct H as [_ H]. now apply String.eqb_eq in H.
Qed.

(** C1.  For every dump record, the kernel-to-editor direction adds the
    record's line offset to a line and the editor-to-kernel direction
    subtracts it, and the two undo each other in both orders, for every
    integer line.  The two translation methods do exactly this whenever they
    translate with the record:
    - [translateDebuggerFileToRealFile], when its lookup by file returns the
      record, adds the offset to [line], to [endLine] and to every element of
      [lines];
    - [translateRealLocationToDebuggerLocation], when its lookup by start
      line returns the record and the source is the record's file, subtracts
      it from [line], from [endLine] and from the [line] of every breakpoint.
    So an editor location translated for the kernel, and then back with the
    source the first translation gave (the record being the one the lookup
    by file returns for its dump file), has its [line], [endLine] and
    breakpoint lines again; and kernel lines translated for the editor, and
    then back with the editor's source for the record's file (the lookup by
    start line returning the record for the translated lines), are the
    kernel's [line], [endLine] and [lines] again. *)
Theorem C1_translation_round_trip :
  forall (host : Host) (store : list IW.CellRecord) (cell : IW.CellRecord),
    (forall l : Z,
        IW.toReal cell l = l + IW.lineOffset cell
        /\ IW.toKernel cell l = l - IW.lineOffset cell
        /\ IW.toReal cell (IW.toKernel cell l) = l
        /\ IW.toKernel cell (IW.toReal cell l) = l)
    /\ (forall (src : Source) (p : string) (ls : Lines),
           truthyString (path src) = Some p ->
           (isSome (line ls) || isSome (lines ls))%bool = true ->
           IW.findByDebugPath store p = Some cell ->
           IW.translateDebuggerFileToRealFile store (Some src) (Some ls)
           = (Some (mkSource
                      (Some (basename (uri_path (IW.interactiveWindow cell))))
                      (Some (uri_toString (IW.interactiveWindow cell)))
                      (sourceReference src)),
              Some (mkLines
                      (option_map (fun l => l + IW.lineOffset cell) (line ls))
                      (option_map (fun l => l + IW.lineOffset cell) (endLine ls))
                      (option_map (map (fun l => l + IW.lineOffset cell))
                         (lines ls)))))
    /\ (forall (src : Source) (loc : Location) (s : Z),
           truthyString (path src)
           = Some (uri_path (IW.interactiveWindow cell)) ->
           IW.startLineOf loc = Ok s ->
           IW.findNearestPrecedingBySortKey store s = Some cell ->
           IW.translateRealLocationToDebuggerLocation store (Some src) (Some loc)
           = Ok (Some (mkSource (name src) (Some (IW.debugFilePath cell))
                         (sourceReference src)),
                 Some (mkLocation
                         (option_map (fun l => l - IW.lineOffset cell)
                            (loc_line loc))
                         (option_map (fun l => l - IW.lineOffset cell)
                            (loc_endLine loc))
                         (option_map
                            (map (fun bp =>
                                    mkSourceBreakpoint
                                      (bp_line bp - IW.lineOffset cell)
                                      (bp_column bp) (bp_condition bp)))
                            (loc_breakpoints loc)))))
    /\ (forall (src : Source) (loc : Location) (s : Z),
           truthyString (path src)
           = Some (uri_path (IW.interactiveWindow cell)) ->
           IW.startLineOf loc = Ok s ->
           IW.findNearestPrecedingBySortKey store s = Some cell ->
           IW.debugFilePath cell <> "" ->
           IW.findByDebugPath store (IW.debugFilePath cell) = Some cell ->
           exists (kernelSource : Source) (kernelLocation : Location),
             IW.translateRealLocationToDebuggerLocation store
               (Some src) (Some loc)
             = Ok (Some kernelSource, Some kernelLocation)
             /\ IW.translateDebuggerFileToRealFile store (Some kernelSource)
                  (Some (mkLines (loc_line kernelLocation)
                           (loc_endLine kernelLocation)
                           (option_map (map bp_line)
                              (loc_breakpoints kernelLocation))))
                = (Some (mkSource
                           (Some (basename (uri_path (IW.interactiveWindow cell))))
                           (Some (uri_toString (IW.interactiveWindow cell)))
                           (sourceReference src)),
                   Some (mkLines (loc_line loc) (loc_endLine loc)
                           (option_map (map bp_line) (loc_breakpoints loc)))))
    /\ (forall (kernelSource src : Source) (p : string) (ls : Lines),
           truthyString (path kernelSource) = Some p ->
           (isSome (line ls) || isSome (lines ls))%bool = true ->
           IW.findByDebugPath store p = Some cell ->
           truthyString (path src)
           = Some (uri_path (IW.interactiveWindow cell)) ->
           exists (editorSource : Source) (editorLines : Lines),
             IW.translateDebuggerFileToRealFile store
               (Some kernelSource) (Some ls)
             = (Some editorSource, Some editorLines)
             /\ forall s : Z,
                 IW.startLineOf
                   (mkLocation (line editorLines) (endLine editorLines)
                      (option_map
                         (map (fun l => mkSourceBreakpoint l None None))
                         (lines editorLines)))
                 = Ok s ->
                 IW.findNearestPrecedingBySortKey store s = Some cell ->
                 IW.translateRealLocationToDebuggerLocation store (Some src)
                   (Some (mkLocation (line editorLines) (endLine editorLines)
                            (option_map
                               (map (fun l => mkSourceBreakpoint l None None))
                               (lines editorLines))))
                 = Ok (Some (mkSource (name src) (Some p) (sourceReference src)),
                       Some (mkLocation (line ls) (endLine ls)
                               (option_map
                                  (map (fun l => mkSourceBreakpoint l None None))
                                  (lines ls))))).
Proof.
  intros host store cell.
  split.
  { intro l. unfold IW.toReal, IW.toKernel. rewrite orZero_id.
    repeat split; lia. }
  split.
  { intros src p ls Hp Hl Hf.
    rewrite (translateDebuggerFileToRealFile_with store src ls Hp Hl Hf).
    now rewrite shiftToReal_adds. }
  split.
  { intros src loc s Hp Hs Hf.
    rewrite (@translateRealLocationToDebuggerLocation_found store src loc
               (uri_path (IW.interactiveWindow cell)) s cell Hp
               (startLineOf_guard loc Hs) Hs Hf eq_refl).
    now rewrite shiftToKernel_subtracts. }
  split.
  { intros src loc s Hp Hs Hf Hne Hfile.
    exists (mkSource (name src) (Some (IW.debugFilePath cell))
              (sourceReference src)),
           (IW.shiftToKernel cell loc).
    split.
    { exact (@translateRealLocationToDebuggerLocation_found store src loc
               (uri_path (IW.interactiveWindow cell)) s cell Hp
               (startLineOf_guard loc Hs) Hs Hf eq_refl). }
    pose proof (startLineOf_guard loc Hs) as Hg.
    rewrite (@translateDebuggerFileToRealFile_with host store _ _
               (IW.debugFilePath cell) cell).
    - cbn [sourceReference]. f_equal. f_equal.
      rewrite shiftToReal_adds, shiftToKernel_subtracts.
      cbn [line endLine lines loc_line loc_endLine loc_breakpoints].
      destruct (loc_line loc) as [l|], (loc_endLine loc) as [e|],
               (loc_breakpoints loc) as [bs|]; cbn [option_map];
        rewrite ?map_map; cbn [bp_line];
        repeat match goal with
               | |- context [?x - ?o + ?o] =>
                   replace (x - o + o) with x by lia
               end;
        try reflexivity;
        (f_equal; f_equal; apply map_ext; intro b; lia).
    - cbn [path]. now apply truthyString_nonempty.
    - rewrite shiftToKernel_subtracts.
      cbn [line lines loc_line loc_breakpoints].
      destruct (loc_line loc), (loc_breakpoints loc); simpl in *;
        try reflexivity; discriminate.
    - exact Hfile. }
  intros kernelSource src p ls Hp Hl Hf Hq.
  eexists. eexists.
  split; [exact (translateDebuggerFileToRealFile_with store kernelSource ls Hp Hl Hf)|].
  intros s Hs Hn.
  rewrite (@translateRealLocationToDebuggerLocation_found store src _
             (uri_path (IW.interactiveWindow cell)) s cell Hq
             (startLineOf_guard _ Hs) Hs Hn eq_refl).
  rewrite (findByDebugPath_path store p Hf).
  f_equal. f_equal. f_equal.
  rewrite shiftToKernel_subtracts, shiftToReal_adds.
  cbn [line endLine lines loc_line loc_endLine loc_breakpoints].
  destruct (line ls) as [l|], (endLine ls) as [e|], (lines ls) as [ll|];
    cbn [option_map]; rewrite ?map_map; cbn [bp_line bp_column bp_condition];
    repeat match goal with
           | |- context [?x + ?o - ?o] =>
               replace (x + o - o) with x by lia
           end;
    try reflexivity;
    (f_equal; f_equal; apply map_ext; intro b; f_equal; lia).
Qed.

(** The two cells of [Scenario.twoCells]: record A has line offset 10.  Kernel
    lines 2 to 4 of A's file are lines 12 to 14 of the editor's file, and
    back. *)
Lemma C1_translation_round_trip_witness :
  IW.translateDebuggerFileToRealFile (host := Scenario.scripted)
    [Scenario.recordB; Scenario.recordA]
    (Some (mkSource None (Some "/tmp/a.py") None))
    (Some (mkLines (Some 2) (Some 4) (Some [2; 3])))
  = (Some (mkSource (Some "w.py") (Some "file:///w.py") None),
     Some (mkLines (Some 12) (Some 14) (Some [12; 13])))
  /\ IW.translateRealLocationToDebuggerLocation
       [Scenario.recordB; Scenario.recordA]
       (Some (mkSource None (Some "/w.py") None))
       (Some (mkLocation (Some 12) (Some 14)
                (Some [Scenario.bpAt 12; Scenario.bpAt 13])))
     = Ok (Some (mkSource None (Some "/tmp/a.py") None),
           Some (mkLocation (Some 2) (Some 4)
                   (Some [Scenario.bpAt 2; Scenario.bpAt 3])))
  /\ (exists kernelSource kernelLocation,
         IW.translateRealLocationToDebuggerLocation
           [Scenario.recordB; Scenario.recordA]
           (Some (mkSource None (Some "/w.py") None))
           (Some (mkLocation (Some 12) (Some 14)
                    (Some [Scenario.bpAt 12; Scenario.bpAt 13])))
         = Ok (Some kernelSource, Some kernelLocation)
         /\ IW.translateDebuggerFileToRealFile (host := Scenario.scripted)
              [Scenario.recordB; Scenario.recordA]
              (Some kernelSource)
              (Some (mkLines (loc_line kernelLocation)
                       (loc_endLine kernelLocation)
                       (option_map (map bp_line)
                          (loc_breakpoints kernelLocation))))
            = (Some (mkSource (Some "w.py") (Some "file:///w.py") None),
               Some (mkLines (Some 12) (Some 14) (Some [12; 13]))))
  /\ (exists editorSource editorLines,
         IW.translateDebuggerFileToRealFile (host := Scenario.scripted)
           [Scenario.recordB; Scenario.recordA]
           (Some (mkSource None (Some "/tmp/a.py") None))
           (Some (mkLines (Some 2) (Some 4) (Some [2; 3])))
         = (Some editorSource, Some editorLines)
         /\ IW.translateRealLocationToDebuggerLocation
              [Scenario.recordB; Scenario.recordA]
              (Some (mkSource None (Some "/w.py") None))
              (Some (mkLocation (line editorLines) (endLine editorLines)
                       (option_map
                          (map (fun l => mkSourceBreakpoint l None None))
                          (lines editorLines))))
            = Ok (Some (mkSource None (Some "/tmp/a.py") None),
                  Some (mkLocation (Some 2) (Some 4)
                          (Some [Scenario.bpAt 2; Scenario.bpAt 3])))).
Proof.
  destruct (@C1_translation_round_trip Scenario.scripted
              [Scenario.recordB; Scenario.recordA] Scenario.recordA)
    as (_ & Hreal & Hkernel & Hthere & Hback).
  split.
  { exact (Hreal (mkSource None (Some "/tmp/a.py") None) "/tmp/a.py"
             (mkLines (Some 2) (Some 4) (Some [2; 3]))
             eq_refl eq_refl eq_refl). }
  split.
  { exact (Hkernel (mkSource None (Some "/w.py") None)
             (mkLocation (Some 12) (Some 14)
                (Some [Scenario.bpAt 12; Scenario.bpAt 13]))
             12 eq_refl eq_refl eq_refl). }
  split.
  { apply (Hthere (mkSource None (Some "/w.py") None)
             (mkLocation (Some 12) (Some 14)
                (Some [Scenario.bpAt 12; Scenario.bpAt 13]))
             12 eq_refl eq_refl eq_refl);
      [discriminate | reflexivity]. }
  destruct (Hback (mkSource None (Some "/tmp/a.py") None)
              (mkSource None (Some "/w.py") None) "/tmp/a.py"
              (mkLines (Some 2) (Some 4) (Some [2; 3]))
              eq_refl eq_refl eq_refl eq_refl)
    as (editorSource & editorLines & Hrun & Hreturn).
  exists editorSource, editorLines. split; [exact Hrun|].
  injection Hrun as <- <-.
  exact (Hreturn 12 eq_refl eq_refl).
Defined.

(** ** Nearest-preceding lookup *)

(** C5.  With records whose line indices are 50, 20 and 5, stored in that
    order, the lookup for line 30 returns the record with index 20 and the
    lookup for line 3 returns none. *)
Theorem C5_nearest_preceding_lookup :
  forall (r50 r20 r5 : IW.CellRecord),
    IW.recordLineIndex r50 = 50 ->
    IW.recordLineIndex r20 = 20 ->
    IW.recordLineIndex r5 = 5 ->
    IW.findNearestPrecedingBySortKey [r50; r20; r5] 30 = Some r20
    /\ IW.findNearestPrecedingBySortKey [r50; r20; r5] 3 = None.
Proof.
  intros r50 r20 r5 H50 H20 H5.
  unfold IW.findNearestPrecedingBySortKey; simpl.
  rewrite H50, H20, H5. split; reflexivity.
Qed.

Lemma C5_nearest_preceding_lookup_witness :
  IW.recordLineIndex (Scenario.iwRecord "/tmp/c.py" 50 0 "c = 3") = 50
  /\ IW.recordLineIndex (Scenario.iwRecord "/tmp/b.py" 20 0 "b = 2") = 20
  /\ IW.recordLineIndex (Scenario.iwRecord "/tmp/a.py" 5 0 "a = 1") = 5
  /\ IW.findNearestPrecedingBySortKey
       [Scenario.iwRecord "/tmp/c.py" 50 0 "c = 3"; Scenario.iwRecord "/tmp/b.py" 20 0 "b = 2";
        Scenario.iwRecord "/tmp/a.py" 5 0 "a = 1"] 30
     = Some (Scenario.iwRecord "/tmp/b.py" 20 0 "b = 2")
  /\ IW.findNearestPrecedingBySortKey
       [Scenario.iwRecord "/tmp/c.py" 50 0 "c = 3"; Scenario.iwRecord "/tmp/b.py" 20 0 "b = 2";
        Scenario.iwRecord "/tmp/a.py" 5 0 "a = 1"] 3
     = None.
Proof.
  split; [reflexivity|]. split; [reflexivity|]. split; [reflexivity|].
  apply (C5_nearest_preceding_lookup
           (Scenario.iwRecord "/tmp/c.py" 50 0 "c = 3")
           (Scenario.iwRecord "/tmp/b.py" 20 0 "b = 2")
           (Scenario.iwRecord "/tmp/a.py" 5 0 "a = 1")); reflexivity.
Defined.

(** ** Messages that no record matches *)

(** Kernel to editor: a source path that is no record's [debugFilePath]
    leaves source and lines as they were. *)
Lemma translateDebuggerFileToRealFile_unmatched
    {host : Host} (store : list IW.CellRecord) (source : option Source)
    (ls : option Lines) :
  (forall src p, source = Some src -> truthyString (path src) = Some p ->
                 forall item, In item store -> IW.debugFilePath item <> p) ->
  IW.translateDebuggerFileToRealFile store source ls = (source, ls).
Proof.
  intros Hno. unfold IW.translateDebuggerFileToRealFile.
  destruct source as [src|]; [|reflexivity].
  destruct ls as [l|]; [|reflexivity].
  destruct (truthyString (path src)) as [p|] eqn:Hp; [|reflexivity].
  destruct (negb (isSome (line l)) && negb (isSome (lines l)))%bool;
    [reflexivity|].
  destruct (IW.findByDebugPath store p) as [cell|] eqn:Hf; [|reflexivity].
  apply find_some in Hf. destruct Hf as [Hin Heq].
  apply String.eqb_eq in Heq.
  exfalso. exact (Hno src p eq_refl Hp cell Hin Heq).
Qed.

(** Kernel to editor: without a [line] and without a [lines] array there is
    nothing to translate. *)
Lemma translateDebuggerFileToRealFile_no_location
    {host : Host} (store : list IW.CellRecord) (source : option Source)
    (l : Lines) :
  line l = None -> lines l = None ->
  IW.translateDebuggerFileToRealFile store source (Some l) = (source, Some l).
Proof.
  intros H1 H2. unfold IW.translateDebuggerFileToRealFile.
  destruct source as [src|]; [|reflexivity].
  destruct (truthyString (path src)); [|reflexivity].
  now rewrite H1, H2.
Qed.

(** Editor to kernel: without a [line] and without a [breakpoints] array there
    is nothing to translate. *)
Lemma translateRealLocationToDebuggerLocation_no_location
    (store : list IW.CellRecord) (source : option Source) (loc : Location) :
  loc_line loc = None -> loc_breakpoints loc = None ->
  IW.translateRealLocationToDebuggerLocation store source (Some loc)
  = Ok (source, Some loc).
Proof.
  intros H1 H2. unfold IW.translateRealLocationToDebuggerLocation.
  destruct source as [src|]; [|reflexivity].
  destruct (truthyString (path src)); [|reflexivity].
  now rewrite H1, H2.
Qed.

(** Editor to kernel: when the start line can be read, a source path that is
    no record's interactive-window path leaves source and location as they
    were. *)
Lemma translateRealLocationToDebuggerLocation_unmatched
    (store : list IW.CellRecord) (source : option Source)
    (location : option Location) :
  (forall loc, location = Some loc ->
               (isSome (loc_line loc) || isSome (loc_breakpoints loc))%bool = true ->
               exists startLine, IW.startLineOf loc = Ok startLine) ->
  (forall src p, source = Some src -> truthyString (path src) = Some p ->
                 forall item, In item store ->
                              uri_path (IW.interactiveWindow item) <> p) ->
  IW.translateRealLocationToDebuggerLocation store source location
  = Ok (source, location).
Proof.
  intros Hstart Hno. unfold IW.translateRealLocationToDebuggerLocation.
  destruct source as [src|]; [|reflexivity].
  destruct location as [loc|]; [|reflexivity].
  destruct (truthyString (path src)) as [p|] eqn:Hp; [|reflexivity].
  destruct (negb (isSome (loc_line loc)) && negb (isSome (loc_breakpoints loc)))%bool
    eqn:Hg; [reflexivity|].
  destruct (Hstart loc eq_refl) as [startLine Hs].
  { destruct (loc_line loc), (loc_breakpoints loc); simpl in *;
      try reflexivity; discriminate. }
  rewrite Hs.
  destruct (IW.findNearestPrecedingBySortKey store startLine) as [cell|] eqn:Hf;
    [|reflexivity].
  apply find_some in Hf. destruct Hf as [Hin _].
  destruct (String.eqb (uri_path (IW.interactiveWindow cell)) p) eqn:He; simpl;
    [|reflexivity].
  apply String.eqb_eq in He.
  exfalso. exact (Hno src p eq_refl Hp cell Hin He).
Qed.

(** C3.  The editor-to-kernel translation does not pass every unmatched
    message through: whatever the store holds (so also when no record
    matches), a location with an empty [breakpoints] array and no [line], or
    with [line] 0 and no [breakpoints], makes it throw at
    [location.breakpoints![0].line]. *)
Theorem C3_unmatched_location_throws :
  forall (store : list IW.CellRecord),
    IW.translateRealLocationToDebuggerLocation store
      (Some (mkSource None (Some "/w.py") None))
      (Some (mkLocation None None (Some [])))
    = Throw (TypeError "Cannot read properties of undefined (reading 'line')")
    /\ IW.translateRealLocationToDebuggerLocation store
         (Some (mkSource None (Some "/w.py") None))
         (Some (mkLocation (Some 0) None None))
       = Throw (TypeError "Cannot read properties of undefined (reading '0')").
Proof. intro store. split; reflexivity. Qed.

(** ** The [setBreakpoints] handler *)

(** C9.  With no dump record in the store a [setBreakpoints] request throws at
    [cellToDebugFileSortedInReverseOrderByLineNumber[0].debugFilePath]: no
    custom request is made and the request is not forwarded. *)
Theorem C9_setBreakpoints_needs_a_record :
  forall (host : Host) (w : IW.World) (request : Request),
    command request = "setBreakpoints" ->
    IW.cellToDebugFileSortedInReverseOrderByLineNumber w = [] ->
    IW.sendRequestToJupyterSession2 request w
    = (Throw (TypeError
                "Cannot read properties of undefined (reading 'debugFilePath')"),
       w).
Proof.
  intros host w request Hc Hs. unfold IW.sendRequestToJupyterSession2.
  rewrite Hc; simpl. unfold bind, gets. now rewrite Hs.
Qed.

Lemma C9_setBreakpoints_needs_a_record_witness :
  IW.sendRequestToJupyterSession2 (host := Scenario.scripted)
    (Scenario.setBreakpointsRequest "setBreakpoints" "/w.py" [2])
    (Scenario.iwWorld [] [] [])
  = (Throw (TypeError
              "Cannot read properties of undefined (reading 'debugFilePath')"),
     Scenario.iwWorld [] [] []).
Proof.
  apply (C9_setBreakpoints_needs_a_record (host := Scenario.scripted));
    reflexivity.
Defined.

(** With a record in the store the same request asks the kernel for the source
    map of the first record's file and, when that resolves, is forwarded
    whole. *)
Lemma setBreakpoints_forwards_whole
    {host : Host} (w : IW.World) (request : Request)
    (first : IW.CellRecord) (rest : list IW.CellRecord) :
  command request = "setBreakpoints" ->
  IW.cellToDebugFileSortedInReverseOrderByLineNumber w = first :: rest ->
  IW.sendRequestToJupyterSession2 request w
  = (_ <- IW.session_customRequest "setPydevdSourceMap"
            (SourceMapArgs
               (mkSourceMapRequest (path (source (arguments request)))
                  [mkSourceMap 3 1 2 ("/private" ++ IW.debugFilePath first)%string])) ;;
     IW.super_sendRequestToJupyterSession2 request)%adapter w.
Proof.
  intros Hc Hs. unfold IW.sendRequestToJupyterSession2.
  rewrite Hc; simpl. unfold bind at 1. unfold gets. now rewrite Hs.
Qed.

(** C10, as the code has it.  A request named [2setBreakpoints] that reaches
    the partitioner (its source path is the first record's interactive-window
    path) with no breakpoints gives the merge nothing to clone: it throws at
    [JSON.parse(JSON.stringify(responses[0]))], after no sub-request and no
    synthesized entry. *)
Theorem C10_merge_needs_a_response :
  forall (host : Host) (w : IW.World) (request : Request),
    command request = "2setBreakpoints" ->
    optStringEqb
      (option_map (fun c => uri_path (IW.interactiveWindow c))
         (hd_error (IW.cellToDebugFileSortedInReverseOrderByLineNumber w)))
      (path (source (arguments request))) = true ->
    breakpoints (arguments request) = None
    \/ breakpoints (arguments request) = Some [] ->
    IW.partitionBreakpoints request w = (Ok [], w)
    /\ IW.sendRequestToJupyterSession2 request w
       = (Throw (SyntaxError "undefined is not valid JSON"), w).
Proof.
  intros host w request Hc Hg Hb.
  assert (Hp : IW.partitionBreakpoints request w = (Ok [], w)).
  { unfold IW.partitionBreakpoints, bind, gets.
    destruct Hb as [Hb|Hb]; rewrite Hb; reflexivity. }
  split; [exact Hp|].
  unfold IW.sendRequestToJupyterSession2.
  rewrite Hc; simpl. unfold bind at 1. unfold gets at 1.
  rewrite Hg; simpl. unfold bind. now rewrite Hp.
Qed.

Lemma C10_merge_needs_a_response_witness :
  IW.partitionBreakpoints (host := Scenario.scripted)
    (Scenario.setBreakpointsRequest "2setBreakpoints" "/w.py" [])
    (Scenario.iwWorld [] [Scenario.iwRecord "/tmp/a.py" 0 0 "a = 1"] [])
  = (Ok [], Scenario.iwWorld [] [Scenario.iwRecord "/tmp/a.py" 0 0 "a = 1"] [])
  /\ IW.sendRequestToJupyterSession2 (host := Scenario.scripted)
       (Scenario.setBreakpointsRequest "2setBreakpoints" "/w.py" [])
       (Scenario.iwWorld [] [Scenario.iwRecord "/tmp/a.py" 0 0 "a = 1"] [])
     = (Throw (SyntaxError "undefined is not valid JSON"),
        Scenario.iwWorld [] [Scenario.iwRecord "/tmp/a.py" 0 0 "a = 1"] []).
Proof.
  apply (C10_merge_needs_a_response (host := Scenario.scripted));
    [reflexivity | reflexivity | right; reflexivity].
Defined.

(** ** The breakpoint partitioner *)

Section Partitioner.
Context {host : Host}.
Variable request : Request.

Lemma sendIfNeeded_spec (st : IW.LoopState) (w : IW.World) :
  exists groups news w',
    IW.sendIfNeeded request st w
    = (Ok (IW.mkLoop (IW.currentCellLine st) (IW.currentCellBps st)
             (IW.setBreakpointsRequests st ++ news)), w')
    /\ sameAdapter w w'
    /\ IW.log w' = IW.log w ++ map (sent request) groups
    /\ concat groups = IW.currentCellBps st
    /\ Forall (fun g => g <> []) groups
    /\ length news = length groups.
Proof.
  unfold IW.sendIfNeeded.
  destruct (IW.currentCellBps st) as [|b bs] eqn:Hb.
  - exists [], [], w. rewrite app_nil_r, <- Hb. destruct st; simpl in *.
    unfold ret, sameAdapter. rewrite app_nil_r.
    repeat split; auto.
  - unfold bind, IW.settle, IW.super_sendRequestToJupyterSession2, ret.
    destruct (superSend (IW.cloneWithBreakpoints request (b :: bs))
                (IW.session w)) as [r k] eqn:Hs.
    exists [b :: bs], [r]. eexists. split; [reflexivity|].
    unfold sameAdapter; simpl. rewrite app_nil_r.
    repeat split; auto.
    constructor; [discriminate | constructor].
Qed.

Lemma sameAdapter_refl (w : IW.World) : sameAdapter w w.
Proof. unfold sameAdapter; auto. Qed.

Lemma sameAdapter_trans (w1 w2 w3 : IW.World) :
  sameAdapter w1 w2 -> sameAdapter w2 w3 -> sameAdapter w1 w3.
Proof.
  unfold sameAdapter. intros (A1 & A2 & A3) (B1 & B2 & B3).
  repeat split; congruence.
Qed.

Lemma owned_cellLineForBp (store : list IW.CellRecord)
    (bp : SourceBreakpoint) :
  IW.owned store bp = isSome (IW.cellLineForBp store bp).
Proof. reflexivity. Qed.

(** One turn of the loop. *)
Lemma loopBody_spec (store : list IW.CellRecord) (st : IW.LoopState)
    (bp : SourceBreakpoint) (w : IW.World) :
  exists groups news st' w',
    IW.loopBody request store st bp w = (Ok st', w')
    /\ sameAdapter w w'
    /\ IW.log w' = IW.log w ++ map (sent request) groups
    /\ concat groups ++ IW.currentCellBps st'
       = IW.currentCellBps st ++ filter (IW.owned store) [bp]
    /\ Forall (fun g => g <> []) groups
    /\ IW.setBreakpointsRequests st' = IW.setBreakpointsRequests st ++ news
    /\ (length news
        = length groups + length (filter (unowned store) [bp]))%nat
    /\ (IW.owned store bp = false -> In (Ok (IW.fakeResponse bp)) news).
Proof.
  unfold IW.loopBody, unowned. cbn [filter]. rewrite owned_cellLineForBp.
  destruct (IW.cellLineForBp store bp) as [n|] eqn:Hc; cbv beta iota.
  - destruct (negb (optZEqb (Some n) (IW.currentCellLine st))) eqn:Hn.
    + unfold bind.
      destruct (sendIfNeeded_spec st w)
        as (g0 & n0 & w0 & Hs & Ha0 & Hl0 & Hc0 & Hf0 & Hlen0).
      rewrite Hs. unfold ret.
      exists g0, n0. eexists. exists w0.
      split; [reflexivity|]. cbn [IW.currentCellBps IW.setBreakpointsRequests isSome negb length].
      rewrite Hc0.
      split; [exact Ha0|]. split; [exact Hl0|]. split; [reflexivity|].
      split; [exact Hf0|]. split; [reflexivity|]. split; [lia|].
      discriminate.
    + unfold ret. exists [], []. eexists. exists w.
      split; [reflexivity|]. cbn [IW.currentCellBps IW.setBreakpointsRequests isSome negb length concat map].
      rewrite !app_nil_r.
      split; [apply sameAdapter_refl|]. split; [reflexivity|].
      split; [reflexivity|]. split; [constructor|]. split; [reflexivity|].
      split; [reflexivity|]. discriminate.
  - unfold ret. exists [], [Ok (IW.fakeResponse bp)]. eexists. exists w.
    split; [reflexivity|]. cbn [IW.currentCellBps IW.setBreakpointsRequests isSome negb length concat map].
    rewrite !app_nil_r.
    split; [apply sameAdapter_refl|]. split; [reflexivity|].
    split; [reflexivity|]. split; [constructor|]. split; [reflexivity|].
    split; [reflexivity|]. intros _. now left.
Qed.

(** The loop, from any state it can be in: the groups it sends hold the
    owned breakpoints in order, the entries it adds are one per group sent
    and one per breakpoint that no record owns. *)
Lemma forEachBreakpoint_spec (store : list IW.CellRecord)
    (bps : list SourceBreakpoint) :
  forall (st : IW.LoopState) (w : IW.World),
  exists groups news st' w',
    IW.forEachBreakpoint request store bps st w = (Ok st', w')
    /\ sameAdapter w w'
    /\ IW.log w' = IW.log w ++ map (sent request) groups
    /\ concat groups ++ IW.currentCellBps st'
       = IW.currentCellBps st ++ filter (IW.owned store) bps
    /\ Forall (fun g => g <> []) groups
    /\ IW.setBreakpointsRequests st' = IW.setBreakpointsRequests st ++ news
    /\ (length news
        = length groups + length (filter (unowned store) bps))%nat
    /\ (forall bp, In bp bps -> IW.owned store bp = false ->
                   In (Ok (IW.fakeResponse bp)) news).
Proof.
  induction bps as [|bp rest IH]; intros st w.
  - exists [], [], st, w. simpl. rewrite !app_nil_r.
    split; [reflexivity|]. split; [apply sameAdapter_refl|].
    split; [reflexivity|]. split; [reflexivity|]. split; [constructor|].
    split; [reflexivity|]. split; [reflexivity|]. intros bp [].
  - cbn [IW.forEachBreakpoint]. unfold bind.
    destruct (loopBody_spec store st bp w)
      as (g0 & n0 & st0 & w0 & Hs & Ha0 & Hl0 & Hc0 & Hf0 & Hq0 & Hlen0 & Hin0).
    rewrite Hs.
    destruct (IH st0 w0)
      as (g1 & n1 & st' & w' & Hr & Ha1 & Hl1 & Hc1 & Hf1 & Hq1 & Hlen1 & Hin1).
    exists (g0 ++ g1), (n0 ++ n1), st', w'.
    split; [exact Hr|].
    split; [eauto using sameAdapter_trans|].
    split; [rewrite Hl1, Hl0, map_app, app_assoc; reflexivity|].
    split.
    { rewrite concat_app, <- app_assoc, Hc1, app_assoc, Hc0, <- app_assoc.
      f_equal. change (bp :: rest) with ([bp] ++ rest).
      now rewrite filter_app. }
    split; [apply Forall_app; auto|].
    split; [rewrite Hq1, Hq0, app_assoc; reflexivity|].
    split.
    { change (bp :: rest) with ([bp] ++ rest).
      rewrite filter_app, !length_app. lia. }
    intros b [Hb|Hb] Ho; apply in_or_app.
    + subst b. left. now apply Hin0.
    + right. now apply Hin1.
Qed.

(** The loop and the final [sendIfNeeded], from the loop's initial state. *)
Lemma partitionBreakpoints_spec (w : IW.World) :
  let store := IW.cellToDebugFileSortedInReverseOrderByLineNumber w in
  let bps := match breakpoints (arguments request) with
             | Some l => l
             | None => []
             end in
  exists groups settled w',
    IW.partitionBreakpoints request w = (Ok settled, w')
    /\ sameAdapter w w'
    /\ IW.log w' = IW.log w ++ map (sent request) groups
    /\ concat groups = filter (IW.owned store) bps
    /\ Forall (fun g => g <> []) groups
    /\ (length settled
        = length groups + length (filter (unowned store) bps))%nat
    /\ (forall bp, In bp bps -> IW.owned store bp = false ->
                   In (Ok (IW.fakeResponse bp)) settled).
Proof.
  intros store bps. unfold IW.partitionBreakpoints.
  unfold bind at 1. unfold gets. fold store. fold bps.
  unfold bind at 1.
  destruct (forEachBreakpoint_spec store bps (IW.mkLoop None [] []) w)
    as (g0 & n0 & st0 & w0 & Hs & Ha0 & Hl0 & Hc0 & Hf0 & Hq0 & Hlen0 & Hin0).
  rewrite Hs. unfold bind.
  destruct (sendIfNeeded_spec st0 w0)
    as (g1 & n1 & w1 & Hs1 & Ha1 & Hl1 & Hc1 & Hf1 & Hlen1).
  rewrite Hs1. unfold ret. cbn [IW.setBreakpointsRequests] in *.
  cbn [IW.currentCellBps] in Hc0.
  exists (g0 ++ g1), (n0 ++ n1). eexists.
  split; [rewrite Hq0; reflexivity|].
  split; [eauto using sameAdapter_trans|].
  split; [rewrite Hl1, Hl0, map_app, app_assoc; reflexivity|].
  split; [rewrite concat_app, Hc1; exact Hc0|].
  split; [apply Forall_app; auto|].
  split; [rewrite !length_app; lia|].
  intros b Hb Ho. apply in_or_app. left. now apply Hin0.
Qed.
End Partitioner.

Lemma concatBreakpoints_ok (r y r1 : Response) :
  IW.concatBreakpoints r y = Ok r1 ->
  body r1 = Some (mkBody (Some (bpsOf r ++ bpsOf y))).
Proof.
  unfold IW.concatBreakpoints, bpsOf.
  destruct (body r) as [[[mine|]]|]; try discriminate.
  destruct (body y) as [[theirs]|]; try discriminate.
  intros H. injection H as <-. reflexivity.
Qed.

(** When the merge succeeds, the merged response carries every breakpoint of
    every response. *)
Lemma concatAll_keeps (rest : list Response) :
  forall (r resp : Response),
    IW.concatAll r rest = Ok resp ->
    forall x b, In x (r :: rest) -> In b (bpsOf x) -> In b (bpsOf resp).
Proof.
  induction rest as [|y rest IH]; intros r resp H x b Hx Hb.
  - simpl in H. injection H as <-. destruct Hx as [<-|[]]. exact Hb.
  - cbn [IW.concatAll] in H.
    destruct (IW.concatBreakpoints r y) as [r1|e] eqn:Hc; [|discriminate].
    apply concatBreakpoints_ok in Hc.
    assert (H1 : bpsOf r1 = bpsOf r ++ bpsOf y).
    { unfold bpsOf at 1. now rewrite Hc. }
    destruct Hx as [<-|[<-|Hx]].
    + apply (IH r1 resp H r1 b); [now left|]. rewrite H1. apply in_or_app. now left.
    + apply (IH r1 resp H r1 b); [now left|]. rewrite H1. apply in_or_app. now right.
    + apply (IH r1 resp H x b); [now right | exact Hb].
Qed.

Lemma promiseAll_ok {A : Type} (settled : list (outcome A)) :
  forall responses,
    IW.promiseAll settled = Ok responses -> settled = map Ok responses.
Proof.
  induction settled as [|[a|e] settled IH]; intros responses H; simpl in H.
  - injection H as <-. reflexivity.
  - destruct (IW.promiseAll settled) as [l|e]; [|discriminate].
    injection H as <-. simpl. f_equal. now apply IH.
  - discriminate.
Qed.

(** C7, as the code has it.  The partitioner runs for a request named
    [2setBreakpoints] whose source path is the first record's
    interactive-window path.  There, what is handed to the pass-through
    channel is one copy of the request per group, with the group as its
    [breakpoints] and nothing else changed; the groups are not empty and
    hold, taken together and in order, exactly the breakpoints that some
    record owns.  A breakpoint whose line no record owns is therefore among
    the breakpoints of no forwarded request; it gets the response
    [{body: {breakpoints: [{...bp, verified: true}]}}] among the settled
    responses, one such entry per unowned breakpoint beside one response per
    group, and its entry is in the merged response. *)
Theorem C7_unmapped_breakpoints_synthesized :
  forall (host : Host) (w : IW.World) (request : Request),
    command request = "2setBreakpoints" ->
    optStringEqb
      (option_map (fun c => uri_path (IW.interactiveWindow c))
         (hd_error (IW.cellToDebugFileSortedInReverseOrderByLineNumber w)))
      (path (source (arguments request))) = true ->
    exists (groups : list (list SourceBreakpoint))
           (settled : list (outcome Response)) (w' : IW.World),
      IW.partitionBreakpoints request w = (Ok settled, w')
      /\ IW.log w'
         = IW.log w
           ++ map (fun group =>
                     EvSuperSend
                       (mkRequest (seq request) (command request)
                          (mkArgs (source (arguments request)) (Some group))))
                groups
      /\ Forall (fun group => group <> []) groups
      /\ concat groups
         = filter (IW.owned (IW.cellToDebugFileSortedInReverseOrderByLineNumber w))
             (match breakpoints (arguments request) with
              | Some l => l
              | None => []
              end)
      /\ (length settled
          = length groups
            + length (filter (unowned (IW.cellToDebugFileSortedInReverseOrderByLineNumber w))
                        (match breakpoints (arguments request) with
                         | Some l => l
                         | None => []
                         end)))%nat
      /\ (forall bp,
             In bp (match breakpoints (arguments request) with
                    | Some l => l
                    | None => []
                    end) ->
             IW.owned (IW.cellToDebugFileSortedInReverseOrderByLineNumber w) bp
             = false ->
             In (Ok (mkResponse None None
                       (Some (mkBody
                                (Some [mkBreakpoint true (Some (bp_line bp))
                                         (bp_column bp) (bp_condition bp)
                                         None])))))
                settled
             /\ (forall forwarded,
                    In (EvSuperSend forwarded) (IW.log w') ->
                    ~ In (EvSuperSend forwarded) (IW.log w) ->
                    exists group,
                      breakpoints (arguments forwarded) = Some group
                      /\ ~ In bp group
                      /\ Forall (fun b =>
                                   IW.owned
                                     (IW.cellToDebugFileSortedInReverseOrderByLineNumber w)
                                     b = true) group)
             /\ (forall resp w'',
                    IW.sendRequestToJupyterSession2 request w = (Ok resp, w'') ->
                    exists l, body resp = Some (mkBody (Some l))
                              /\ In (mkBreakpoint true (Some (bp_line bp))
                                       (bp_column bp) (bp_condition bp) None)
                                    l)).
Proof.
  intros host w request Hcmd Hguard.
  destruct (partitionBreakpoints_spec request w)
    as (groups & settled & w' & Hp & Ha & Hl & Hc & Hf & Hlen & Hin).
  exists groups, settled, w'.
  split; [exact Hp|]. split; [exact Hl|]. split; [exact Hf|].
  split; [exact Hc|]. split; [exact Hlen|].
  intros bp Hbp Ho.
  split; [exact (Hin bp Hbp Ho)|]. split.
  - intros forwarded Hnew Hold.
    rewrite Hl in Hnew. apply in_app_or in Hnew.
    destruct Hnew as [Hnew|Hnew]; [contradiction|].
    apply in_map_iff in Hnew. destruct Hnew as (group & Hev & Hg).
    injection Hev as <-. exists group.
    assert (Hsub : forall b, In b group ->
                     IW.owned (IW.cellToDebugFileSortedInReverseOrderByLineNumber w) b
                     = true).
    { intros b Hb.
      assert (Hcat : In b (concat groups)) by (apply in_concat; eauto).
      rewrite Hc in Hcat. apply filter_In in Hcat. now destruct Hcat. }
    split; [reflexivity|]. split.
    + intros Hbg. apply Hsub in Hbg. congruence.
    + now apply Forall_forall.
  - intros resp w'' Hsend.
    unfold IW.sendRequestToJupyterSession2 in Hsend.
    rewrite Hcmd in Hsend. cbn [String.eqb Ascii.eqb Bool.eqb] in Hsend.
    unfold bind at 1 in Hsend. unfold gets at 1 in Hsend.
    rewrite Hguard in Hsend. cbn [negb] in Hsend.
    unfold bind in Hsend. rewrite Hp in Hsend. unfold liftOutcome in Hsend.
    destruct (IW.promiseAll settled) as [responses|e] eqn:Hall; [|discriminate].
    apply promiseAll_ok in Hall.
    assert (Hfake : In (IW.fakeResponse bp) responses).
    { specialize (Hin bp Hbp Ho). rewrite Hall in Hin.
      apply in_map_iff in Hin. destruct Hin as (x & Hx & Hxin).
      injection Hx as ->. exact Hxin. }
    unfold IW.mergeResponses in Hsend.
    destruct responses as [|first rest]; [destruct Hfake|].
    destruct (IW.concatAll first rest) as [merged|e] eqn:Hm; [|discriminate].
    injection Hsend as <- _.
    assert (Hb : In (IW.fakeBreakpoint bp) (bpsOf merged)).
    { apply (@concatAll_keeps rest first merged Hm (IW.fakeResponse bp));
        [exact Hfake|].
      now left. }
    unfold bpsOf in Hb.
    destruct (body merged) as [[[l|]]|]; [|destruct Hb|destruct Hb].
    exists l. split; [reflexivity | exact Hb].
Qed.

(** One record that starts at line index 9: of the breakpoints at lines 2 and
    12 the first has no owner.  It is answered with a synthesized entry, and
    the one request that is forwarded carries the breakpoint at 12 alone. *)
Lemma C7_unmapped_breakpoints_synthesized_witness :
  command (Scenario.setBreakpointsRequest "2setBreakpoints" "/w.py" [2; 12])
  = "2setBreakpoints"
  /\ IW.owned (IW.cellToDebugFileSortedInReverseOrderByLineNumber Scenario.oneCell)
       (Scenario.bpAt 2) = false
  /\ exists groups settled w',
      IW.partitionBreakpoints (host := Scenario.scripted)
        (Scenario.setBreakpointsRequest "2setBreakpoints" "/w.py" [2; 12])
        Scenario.oneCell
      = (Ok settled, w')
      /\ In (Ok (mkResponse None None
                   (Some (mkBody
                            (Some [mkBreakpoint true (Some 2) None None None])))))
            settled
      /\ concat groups = [Scenario.bpAt 12]
      /\ (forall forwarded,
             In (EvSuperSend forwarded) (IW.log w') ->
             exists group,
               breakpoints (arguments forwarded) = Some group
               /\ ~ In (Scenario.bpAt 2) group).
Proof.
  split; [reflexivity|]. split; [reflexivity|].
  destruct (C7_unmapped_breakpoints_synthesized (host := Scenario.scripted)
              Scenario.oneCell
              (Scenario.setBreakpointsRequest "2setBreakpoints" "/w.py" [2; 12])
              eq_refl eq_refl)
    as (groups & settled & w' & Hp & _ & _ & Hc & _ & Hin).
  exists groups, settled, w'.
  destruct (Hin (Scenario.bpAt 2) (or_introl eq_refl) eq_refl)
    as (Hfake & Hnone & _).
  split; [exact Hp|]. split; [exact Hfake|]. split; [exact Hc|].
  intros forwarded Hf.
  destruct (Hnone forwarded Hf (fun H => H)) as (group & Hg & Hnot & _).
  exists group. split; [exact Hg | exact Hnot].
Defined.

Lemma find_two_second (A B : IW.CellRecord) (l : Z) :
  IW.recordLineIndex B + 1 > l -> IW.recordLineIndex A + 1 <= l ->
  IW.findNearestPrecedingBySortKey [B; A] l = Some A.
Proof.
  intros HB HA. unfold IW.findNearestPrecedingBySortKey; simpl.
  destruct (IW.recordLineIndex B + 1 <=? l) eqn:E1;
    [apply Z.leb_le in E1; lia|].
  destruct (IW.recordLineIndex A + 1 <=? l) eqn:E2;
    [reflexivity | apply Z.leb_gt in E2; lia].
Qed.

Lemma find_two_first (A B : IW.CellRecord) (l : Z) :
  IW.recordLineIndex B + 1 <= l ->
  IW.findNearestPrecedingBySortKey [B; A] l = Some B.
Proof.
  intros HB. unfold IW.findNearestPrecedingBySortKey; simpl.
  destruct (IW.recordLineIndex B + 1 <=? l) eqn:E1;
    [reflexivity | apply Z.leb_gt in E1; lia].
Qed.

(** C2, as the code has it.  The partitioner runs for the command
    [2setBreakpoints].  There, with breakpoints at lines 2, 3, 20 and 21, of
    which record A (line offset 10) owns 2 and 3 and record B (line offset
    100) owns 20 and 21, it hands the pass-through channel exactly two
    sub-requests, one with the breakpoints at 2 and 3 and then one with those
    at 20 and 21; the adapter's editor-to-kernel translation, given the source
    and the breakpoints of a sub-request, sends the first to A's file with
    lines -8 and -7 and the second to B's file with lines -80 and -79; and
    the merged response has the first sub-response's breakpoints followed by
    the second's, four when each answers two. *)
Theorem C2_partition_two_cells :
  forall (host : Host) (w : IW.World) (request : Request)
         (A B : IW.CellRecord) (p : string)
         (b2 b3 b20 b21 : SourceBreakpoint),
    command request = "2setBreakpoints" ->
    path (source (arguments request)) = Some p ->
    p <> "" ->
    breakpoints (arguments request) = Some [b2; b3; b20; b21] ->
    bp_line b2 = 2 -> bp_line b3 = 3 -> bp_line b20 = 20 -> bp_line b21 = 21 ->
    IW.cellToDebugFileSortedInReverseOrderByLineNumber w = [B; A] ->
    IW.lineOffset A = 10 -> IW.lineOffset B = 100 ->
    IW.recordLineIndex A + 1 <= 2 ->
    3 < IW.recordLineIndex B + 1 <= 20 ->
    uri_path (IW.interactiveWindow A) = p ->
    uri_path (IW.interactiveWindow B) = p ->
    exists (rA rB : outcome Response) (w' : IW.World),
      IW.partitionBreakpoints request w = (Ok [rA; rB], w')
      /\ IW.log w' = IW.log w ++ [sent request [b2; b3]; sent request [b20; b21]]
      /\ IW.translateRealLocationToDebuggerLocation [B; A]
           (Some (source (arguments request)))
           (Some (mkLocation None None
                    (breakpoints
                       (arguments (IW.cloneWithBreakpoints request [b2; b3])))))
         = Ok (Some (mkSource (name (source (arguments request)))
                       (Some (IW.debugFilePath A))
                       (sourceReference (source (arguments request)))),
               Some (mkLocation None None
                       (Some [mkSourceBreakpoint (-8) (bp_column b2) (bp_condition b2);
                              mkSourceBreakpoint (-7) (bp_column b3) (bp_condition b3)])))
      /\ IW.translateRealLocationToDebuggerLocation [B; A]
           (Some (source (arguments request)))
           (Some (mkLocation None None
                    (breakpoints
                       (arguments (IW.cloneWithBreakpoints request [b20; b21])))))
         = Ok (Some (mkSource (name (source (arguments request)))
                       (Some (IW.debugFilePath B))
                       (sourceReference (source (arguments request)))),
               Some (mkLocation None None
                       (Some [mkSourceBreakpoint (-80) (bp_column b20) (bp_condition b20);
                              mkSourceBreakpoint (-79) (bp_column b21) (bp_condition b21)])))
      /\ (forall respA respB la lb,
             rA = Ok respA -> rB = Ok respB ->
             body respA = Some (mkBody (Some la)) ->
             body respB = Some (mkBody (Some lb)) ->
             exists merged,
               IW.sendRequestToJupyterSession2 request w = (Ok merged, w')
               /\ body merged = Some (mkBody (Some (la ++ lb)))
               /\ (length la = 2%nat -> length lb = 2%nat ->
                   length (la ++ lb) = 4%nat)).
Proof.
  intros host w request A B p b2 b3 b20 b21
         Hcmd Hpath Hp Hbps H2 H3 H20 H21 Hstore HoA HoB HiA HiB HwA HwB.
  assert (F2 : IW.cellLineForBp [B; A] b2 = Some 10).
  { unfold IW.cellLineForBp. rewrite H2, find_two_second by lia.
    simpl. now rewrite HoA. }
  assert (F3 : IW.cellLineForBp [B; A] b3 = Some 10).
  { unfold IW.cellLineForBp. rewrite H3, find_two_second by lia.
    simpl. now rewrite HoA. }
  assert (F20 : IW.cellLineForBp [B; A] b20 = Some 100).
  { unfold IW.cellLineForBp. rewrite H20, find_two_first by lia.
    simpl. now rewrite HoB. }
  assert (F21 : IW.cellLineForBp [B; A] b21 = Some 100).
  { unfold IW.cellLineForBp. rewrite H21, find_two_first by lia.
    simpl. now rewrite HoB. }
  destruct (superSend (IW.cloneWithBreakpoints request [b2; b3]) (IW.session w))
    as [rA k1] eqn:HsA.
  destruct (superSend (IW.cloneWithBreakpoints request [b20; b21]) k1)
    as [rB k2] eqn:HsB.
  assert (Hpart :
    IW.partitionBreakpoints request w
    = (Ok [rA; rB],
       IW.mkWorld (IW.notebookDocument w) (IW.fileToCell w) [B; A] k2
         (IW.log w ++ [sent request [b2; b3]; sent request [b20; b21]]))).
  { unfold IW.partitionBreakpoints. unfold bind at 1. unfold gets.
    rewrite Hstore, Hbps.
    cbn [IW.forEachBreakpoint]. unfold IW.loopBody.
    rewrite F2, F3, F20, F21.
    cbn -[superSend].
    unfold IW.sendIfNeeded, bind, ret, IW.settle,
      IW.super_sendRequestToJupyterSession2.
    cbn -[superSend]. rewrite Hstore, HsA. cbn -[superSend]. rewrite HsB.
    cbn -[superSend]. unfold sent. rewrite <- app_assoc. reflexivity. }
  assert (Htruthy : truthyString (path (source (arguments request))) = Some p).
  { rewrite Hpath. unfold truthyString.
    destruct (String.eqb p "") eqn:E; [apply String.eqb_eq in E; contradiction|].
    reflexivity. }
  exists rA, rB. eexists. split; [exact Hpart|].
  split; [reflexivity|].
  split.
  { rewrite (@translateRealLocationToDebuggerLocation_found [B; A]
               (source (arguments request)) _ p 2 A); auto.
    - unfold IW.shiftToKernel, IW.bpToKernel, IW.toKernel.
      cbn. rewrite HoA, H2, H3. reflexivity.
    - unfold IW.startLineOf. cbn. now rewrite H2.
    - apply find_two_second; lia. }
  split.
  { rewrite (@translateRealLocationToDebuggerLocation_found [B; A]
               (source (arguments request)) _ p 20 B); auto.
    - unfold IW.shiftToKernel, IW.bpToKernel, IW.toKernel.
      cbn. rewrite HoB, H20, H21. reflexivity.
    - unfold IW.startLineOf. cbn. now rewrite H20.
    - apply find_two_first; lia. }
  intros respA respB la lb -> -> HbA HbB.
  exists (mkResponse (request_seq respA) (success respA)
            (Some (mkBody (Some (la ++ lb))))).
  split; [|split; [reflexivity | rewrite length_app; lia]].
  unfold IW.sendRequestToJupyterSession2.
  rewrite Hcmd. cbn [String.eqb Ascii.eqb Bool.eqb].
  unfold bind at 1. unfold gets at 1.
  rewrite Hstore, Hpath. cbn [hd_error option_map optStringEqb].
  rewrite HwB, String.eqb_refl. cbn [negb].
  unfold bind. rewrite Hpart. unfold liftOutcome. cbn [IW.promiseAll].
  unfold IW.mergeResponses, IW.concatAll, IW.concatBreakpoints.
  rewrite HbA, HbB. reflexivity.
Qed.

Lemma C2_partition_two_cells_witness :
  exists (rA rB : outcome Response) (w' : IW.World (host := Scenario.scripted)),
    IW.partitionBreakpoints (host := Scenario.scripted)
      (Scenario.setBreakpointsRequest "2setBreakpoints" "/w.py" [2; 3; 20; 21])
      Scenario.twoCells
    = (Ok [rA; rB], w')
    /\ IW.log w'
       = IW.log Scenario.twoCells
         ++ [sent (Scenario.setBreakpointsRequest "2setBreakpoints" "/w.py" [2; 3; 20; 21])
            [Scenario.bpAt 2; Scenario.bpAt 3];
          sent (Scenario.setBreakpointsRequest "2setBreakpoints" "/w.py" [2; 3; 20; 21])
            [Scenario.bpAt 20; Scenario.bpAt 21]].
Proof.
  destruct (@C2_partition_two_cells Scenario.scripted
              Scenario.twoCells
              (Scenario.setBreakpointsRequest "2setBreakpoints" "/w.py" [2; 3; 20; 21])
              Scenario.recordA Scenario.recordB "/w.py"
              (Scenario.bpAt 2) (Scenario.bpAt 3)
              (Scenario.bpAt 20) (Scenario.bpAt 21))
    as (rA & rB & w' & Hp & Hl & _);
    try reflexivity; try discriminate; try (simpl; lia).
  exists rA, rB, w'. split; [exact Hp | exact Hl].
Defined.

(** ** Dumping cells *)

Section SortFacts.
Variable A : Type.
Variable cmp : A -> A -> Z.

Lemma insertSorted_perm (x : A) (l : list A) :
  Permutation (insertSorted cmp x l) (x :: l).
Proof.
  induction l as [|y l IH]; simpl; [reflexivity|].
  destruct (cmp y x >? 0); [reflexivity|].
  rewrite IH. apply perm_swap.
Qed.

Lemma fold_insertSorted_perm (l acc : list A) :
  Permutation (fold_left (fun acc x => insertSorted cmp x acc) l acc) (acc ++ l).
Proof.
  revert acc. induction l as [|x l IH]; intro acc; simpl.
  - now rewrite app_nil_r.
  - rewrite IH, insertSorted_perm. simpl. apply Permutation_middle.
Qed.

Lemma jsSort_perm (l : list A) : Permutation (jsSort cmp l) l.
Proof. unfold jsSort. now rewrite fold_insertSorted_perm. Qed.
End SortFacts.

Lemma insertSorted_descending (x : IW.CellRecord) (l : list IW.CellRecord) :
  descending l -> descending (insertSorted IW.byLineIndexDescending x l).
Proof.
  unfold descending. induction 1 as [|y l Hs IH Hall]; simpl.
  - repeat constructor.
  - unfold IW.byLineIndexDescending at 1.
    destruct (IW.recordLineIndex x - IW.recordLineIndex y >? 0) eqn:E.
    + apply Z.gtb_lt in E. constructor; [constructor; assumption|].
      constructor; [lia|].
      eapply Forall_impl; [|exact Hall]. simpl. intros a Ha. lia.
    + assert (IW.recordLineIndex x <= IW.recordLineIndex y).
      { destruct (Z.gtb_spec (IW.recordLineIndex x - IW.recordLineIndex y) 0);
          [discriminate | lia]. }
      constructor; [exact IH|].
      eapply Permutation_Forall; [symmetry; apply insertSorted_perm|].
      constructor; assumption.
Qed.

Lemma jsSort_descending (l : list IW.CellRecord) :
  descending (jsSort IW.byLineIndexDescending l).
Proof.
  unfold jsSort.
  assert (H : forall acc, descending acc ->
            descending (fold_left
                          (fun acc x => insertSorted IW.byLineIndexDescending x acc)
                          l acc)).
  { induction l as [|x l IH]; intros acc Hacc; simpl; [exact Hacc|].
    apply IH. now apply insertSorted_descending. }
  apply H. constructor.
Qed.

Section IWDumps.
Context {host : Host}.

(** The kernel resolves with a path: one record is pushed and the array is
    sorted. *)
Lemma IW_dumpCell_resolved (w : IW.World) (index : Z)
    (metadata : InteractiveCellMetadata) (reply : CustomReply) (k : Kernel)
    (p : string) :
  getInteractiveCellMetadata (cellAt (IW.notebookDocument w) index)
  = Some metadata ->
  customRequest "dumpCell"
    (DumpCellArgs (IW.codeToDump (cellAt (IW.notebookDocument w) index) metadata))
    (IW.session w) = (Ok reply, k) ->
  sourcePath reply = Some p ->
  IW.dumpCell index w
  = (Ok tt,
     IW.mkWorld (IW.notebookDocument w)
       (mapSet (normalize p) (Uri_parse (uristring (interactive metadata)))
          (IW.fileToCell w))
       (jsSort IW.byLineIndexDescending
          (IW.cellToDebugFileSortedInReverseOrderByLineNumber w
           ++ [IW.dumpedRecord (normalize p) metadata]))
       k
       (IW.log w
        ++ [EvCustomRequest "dumpCell"
              (DumpCellArgs
                 (IW.codeToDump (cellAt (IW.notebookDocument w) index) metadata))])).
Proof.
  intros Hm Hk Hp. unfold IW.dumpCell.
  unfold bind at 1. unfold gets at 1. rewrite Hm.
  unfold tryCatch, bind, IW.session_customRequest.
  rewrite Hk, Hp. reflexivity.
Qed.

(** The kernel rejects: the error is logged and nothing else changes. *)
Lemma IW_dumpCell_rejected (w : IW.World) (index : Z)
    (metadata : InteractiveCellMetadata) (e : error) (k : Kernel) :
  getInteractiveCellMetadata (cellAt (IW.notebookDocument w) index)
  = Some metadata ->
  customRequest "dumpCell"
    (DumpCellArgs (IW.codeToDump (cellAt (IW.notebookDocument w) index) metadata))
    (IW.session w) = (Throw e, k) ->
  IW.dumpCell index w
  = (Ok tt,
     IW.mkWorld (IW.notebookDocument w) (IW.fileToCell w)
       (IW.cellToDebugFileSortedInReverseOrderByLineNumber w) k
       (IW.log w
        ++ [EvCustomRequest "dumpCell"
              (DumpCellArgs
                 (IW.codeToDump (cellAt (IW.notebookDocument w) index) metadata))]
        ++ [EvTraceError
              (Some (cell_index (cellAt (IW.notebookDocument w) index)))
              (Some (originalSource (interactive metadata))) e])).
Proof.
  intros Hm Hk. unfold IW.dumpCell.
  unfold bind at 1. unfold gets at 1. rewrite Hm.
  unfold tryCatch, bind, IW.session_customRequest.
  rewrite Hk. unfold IW.emit, modify. cbn. now rewrite <- app_assoc.
Qed.

(** A dump leaves the array as it was or pushes one record and sorts. *)
Lemma IW_dumpCell_store (w : IW.World) (index : Z) :
  IW.cellToDebugFileSortedInReverseOrderByLineNumber (snd (IW.dumpCell index w))
  = IW.cellToDebugFileSortedInReverseOrderByLineNumber w
  \/ exists (metadata : InteractiveCellMetadata) (reply : CustomReply)
            (k : Kernel) (p : string),
       getInteractiveCellMetadata (cellAt (IW.notebookDocument w) index)
       = Some metadata
       /\ customRequest "dumpCell"
            (DumpCellArgs
               (IW.codeToDump (cellAt (IW.notebookDocument w) index) metadata))
            (IW.session w) = (Ok reply, k)
       /\ sourcePath reply = Some p
       /\ IW.cellToDebugFileSortedInReverseOrderByLineNumber
            (snd (IW.dumpCell index w))
          = jsSort IW.byLineIndexDescending
              (IW.cellToDebugFileSortedInReverseOrderByLineNumber w
               ++ [IW.dumpedRecord (normalize p) metadata]).
Proof.
  destruct (getInteractiveCellMetadata (cellAt (IW.notebookDocument w) index))
    as [metadata|] eqn:Hm.
  - destruct (customRequest "dumpCell"
                (DumpCellArgs
                   (IW.codeToDump (cellAt (IW.notebookDocument w) index) metadata))
                (IW.session w)) as [[reply|e] k] eqn:Hk.
    + destruct (sourcePath reply) as [p|] eqn:Hp.
      * right. exists metadata, reply, k, p.
        rewrite (IW_dumpCell_resolved w index Hm Hk Hp). auto.
      * left. unfold IW.dumpCell.
        unfold bind at 1. unfold gets at 1. rewrite Hm.
        unfold tryCatch, bind, IW.session_customRequest.
        rewrite Hk, Hp. reflexivity.
    + left. now rewrite (IW_dumpCell_rejected w index Hm Hk).
  - left. unfold IW.dumpCell.
    unfold bind at 1. unfold gets at 1. now rewrite Hm.
Qed.

(** Over a session the array only grows: by at most one record per dump, and
    it is sorted after every dump that pushed. *)
Lemma IW_dumpCells_grows (ops : list (NotebookDocument * Z)) :
  forall (w : IW.World),
  exists added : list IW.CellRecord,
    Permutation
      (IW.cellToDebugFileSortedInReverseOrderByLineNumber (IW.dumpCells ops w))
      (IW.cellToDebugFileSortedInReverseOrderByLineNumber w ++ added)
    /\ (length added <= length ops)%nat
    /\ (descending (IW.cellToDebugFileSortedInReverseOrderByLineNumber w) ->
        descending
          (IW.cellToDebugFileSortedInReverseOrderByLineNumber (IW.dumpCells ops w))).
Proof.
  induction ops as [|op ops IH]; intro w.
  - exists []. simpl. rewrite app_nil_r. auto.
  - unfold IW.dumpCells. cbn [fold_left]. fold (IW.dumpCells ops).
    destruct (IH (IW.dumpCellOf w op)) as (added & Hperm & Hlen & Hsort).
    unfold IW.dumpCellOf in *.
    set (w0 := IW.mkWorld (fst op) (IW.fileToCell w)
                 (IW.cellToDebugFileSortedInReverseOrderByLineNumber w)
                 (IW.session w) (IW.log w)) in *.
    destruct (IW_dumpCell_store w0 (snd op))
      as [Hsame | (metadata & reply & k & p & _ & _ & _ & Hpush)].
    + rewrite Hsame in *. exists added. simpl in *. auto.
    + rewrite Hpush in *. cbn [IW.cellToDebugFileSortedInReverseOrderByLineNumber w0] in *.
      exists (IW.dumpedRecord (normalize p) metadata :: added).
      split; [|split].
      * rewrite Hperm, jsSort_perm, <- app_assoc. reflexivity.
      * simpl. lia.
      * intros _. apply Hsort. apply jsSort_descending.
Qed.
End IWDumps.

Section IWPaths.
Context {host : Host}.

Lemma IW_dumpCell_files (w : IW.World) (index : Z) :
  Permutation
    (map IW.debugFilePath
       (IW.cellToDebugFileSortedInReverseOrderByLineNumber
          (snd (IW.dumpCell index w))))
    (map IW.debugFilePath (IW.cellToDebugFileSortedInReverseOrderByLineNumber w)
     ++ match IW_dumpedPath w index with Some p => [p] | None => [] end).
Proof.
  unfold IW_dumpedPath.
  destruct (getInteractiveCellMetadata (cellAt (IW.notebookDocument w) index))
    as [metadata|] eqn:Hm.
  - destruct (customRequest "dumpCell"
                (DumpCellArgs
                   (IW.codeToDump (cellAt (IW.notebookDocument w) index) metadata))
                (IW.session w)) as [[reply|e] k] eqn:Hk.
    + destruct (sourcePath reply) as [p|] eqn:Hp.
      * rewrite (IW_dumpCell_resolved w index Hm Hk Hp). cbn [snd option_map].
        cbn [IW.cellToDebugFileSortedInReverseOrderByLineNumber].
        rewrite jsSort_perm, map_app. reflexivity.
      * unfold IW.dumpCell.
        unfold bind at 1. unfold gets at 1. rewrite Hm.
        unfold tryCatch, bind, IW.session_customRequest.
        rewrite Hk, Hp. cbn. now rewrite app_nil_r.
    + rewrite (IW_dumpCell_rejected w index Hm Hk). cbn. now rewrite app_nil_r.
  - unfold IW.dumpCell.
    unfold bind at 1. unfold gets at 1. rewrite Hm. cbn. now rewrite app_nil_r.
Qed.

(** After any session the files of the array are the files it had plus the
    paths the kernel returned, each as often as it was returned. *)
Lemma IW_dumpCells_files (ops : list (NotebookDocument * Z)) :
  forall (w : IW.World),
    Permutation
      (map IW.debugFilePath
         (IW.cellToDebugFileSortedInReverseOrderByLineNumber (IW.dumpCells ops w)))
      (map IW.debugFilePath (IW.cellToDebugFileSortedInReverseOrderByLineNumber w)
       ++ IW_dumpedPaths ops w).
Proof.
  induction ops as [|op ops IH]; intro w.
  - simpl. now rewrite app_nil_r.
  - etransitivity; [apply (IH (IW.dumpCellOf w op))|].
    cbn [IW_dumpedPaths].
    etransitivity.
    { apply Permutation_app_tail.
      apply (IW_dumpCell_files (IW_withDocument w (fst op)) (snd op)). }
    cbn [IW_withDocument IW.cellToDebugFileSortedInReverseOrderByLineNumber].
    rewrite <- app_assoc.
    destruct (IW_dumpedPath (IW_withDocument w (fst op)) (snd op)); reflexivity.
Qed.
End IWPaths.

Section MapFacts.
Variable V : Type.

Lemma mapKeys_mapSet_in (k : string) (v : V) (m : list (string * V)) :
  In k (mapKeys m) -> mapKeys (mapSet k v m) = mapKeys m.
Proof.
  induction m as [|[k' v'] m IH]; simpl; [intros []|].
  destruct (String.eqb_spec k' k) as [->|Hne]; [reflexivity|].
  intros [H|H]; [contradiction|]. simpl. f_equal. now apply IH.
Qed.

Lemma mapKeys_mapSet_notin (k : string) (v : V) (m : list (string * V)) :
  ~ In k (mapKeys m) -> mapKeys (mapSet k v m) = mapKeys m ++ [k].
Proof.
  induction m as [|[k' v'] m IH]; simpl; [reflexivity|].
  intros Hn. destruct (String.eqb_spec k' k) as [->|Hne]; [tauto|].
  simpl. f_equal. apply IH. tauto.
Qed.

Lemma mapSet_NoDup (k : string) (v : V) (m : list (string * V)) :
  NoDup (mapKeys m) -> NoDup (mapKeys (mapSet k v m)).
Proof.
  intros Hn. destruct (in_dec string_dec k (mapKeys m)) as [Hin|Hout].
  - now rewrite mapKeys_mapSet_in.
  - rewrite mapKeys_mapSet_notin by assumption.
    apply NoDup_app; [assumption | repeat constructor; intros [] |].
    intros x Hx [<-|[]]. contradiction.
Qed.

Lemma mapGet_mapSet (k : string) (v : V) (m : list (string * V)) :
  mapGet k (mapSet k v m) = Some v.
Proof.
  induction m as [|[k' v'] m IH]; simpl.
  - now rewrite String.eqb_refl.
  - destruct (String.eqb k' k) eqn:E; simpl.
    + now rewrite String.eqb_refl.
    + now rewrite E.
Qed.

Lemma mapGet_in (k : string) (v : V) (m : list (string * V)) :
  mapGet k m = Some v -> In k (mapKeys m).
Proof.
  induction m as [|[k' v'] m IH]; simpl; [discriminate|].
  destruct (String.eqb_spec k' k) as [->|Hne]; [now left|].
  intros H. right. now apply IH.
Qed.
End MapFacts.

Section NBDumps.
Context {host : Host}.

(** A dump sets the cell's entry to the returned path, or leaves the map as
    it was. *)
Lemma NB_dumpCell_cellToFile (w : NB.World) (index : Z) :
  NB.cellToFile (snd (NB.dumpCell index w))
  = match NB_dumpedPath w index with
    | Some p =>
        mapSet (uri_toString (cell_uri (cellAt (NB.notebookDocument w) index)))
          p (NB.cellToFile w)
    | None => NB.cellToFile w
    end.
Proof.
  unfold NB_dumpedPath, NB.dumpCell.
  unfold bind at 1. unfold gets at 1.
  unfold tryCatch, bind, NB.session_customRequest.
  destruct (customRequest "dumpCell"
              (DumpCellArgs
                 (replaceCRLF (cell_getText (cellAt (NB.notebookDocument w) index))))
              (NB.session w)) as [[reply|e] k].
  - destruct (sourcePath reply) as [p|]; reflexivity.
  - reflexivity.
Qed.

Lemma NB_dumpCell_rejected (w : NB.World) (index : Z) (e : error) (k : Kernel) :
  customRequest "dumpCell"
    (DumpCellArgs
       (replaceCRLF (cell_getText (cellAt (NB.notebookDocument w) index))))
    (NB.session w) = (Throw e, k) ->
  NB.dumpCell index w
  = (Ok tt,
     NB.mkWorld (NB.notebookDocument w) (NB.fileToCell w) (NB.cellToFile w) k
       (NB.log w
        ++ [EvCustomRequest "dumpCell"
              (DumpCellArgs
                 (replaceCRLF
                    (cell_getText (cellAt (NB.notebookDocument w) index))))]
        ++ [EvTraceError None None e])).
Proof.
  intros Hk. unfold NB.dumpCell.
  unfold bind at 1. unfold gets at 1.
  unfold tryCatch, bind, NB.session_customRequest.
  rewrite Hk. unfold NB.emit, modify. cbn. now rewrite <- app_assoc.
Qed.

(** The map never holds two entries for one cell. *)
Lemma NB_dumpCells_keys (ops : list (NotebookDocument * Z)) :
  forall (w : NB.World),
    NoDup (mapKeys (NB.cellToFile w)) ->
    NoDup (mapKeys (NB.cellToFile (NB.dumpCells ops w))).
Proof.
  induction ops as [|op ops IH]; intros w Hn; [exact Hn|].
  apply (IH (NB.dumpCellOf w op)).
  unfold NB.dumpCellOf. rewrite NB_dumpCell_cellToFile.
  destruct (NB_dumpedPath _ _); [now apply mapSet_NoDup | exact Hn].
Qed.
End NBDumps.

(** C4, as the code has it.  After any session the interactive-window array
    holds the files it held and, for every dump that resolved, the path the
    kernel returned, as often as it was returned: nothing is replaced or
    removed, the array stays sorted by descending line index, and no two
    records share a [debugFilePath] exactly when those paths are all
    different.  The notebook adapter's map has one entry per cell: a dump
    sets the entry of the cell's URI to the returned path, replacing the one
    it had. *)
Theorem C4_store_after_dumps :
  forall (host : Host),
    (forall (ops : list (NotebookDocument * Z)) (w : IW.World),
        Permutation
          (map IW.debugFilePath
             (IW.cellToDebugFileSortedInReverseOrderByLineNumber
                (IW.dumpCells ops w)))
          (map IW.debugFilePath
             (IW.cellToDebugFileSortedInReverseOrderByLineNumber w)
           ++ IW_dumpedPaths ops w)
        /\ (NoDup (map IW.debugFilePath
                     (IW.cellToDebugFileSortedInReverseOrderByLineNumber
                        (IW.dumpCells ops w)))
            <-> NoDup (map IW.debugFilePath
                         (IW.cellToDebugFileSortedInReverseOrderByLineNumber w)
                       ++ IW_dumpedPaths ops w))
        /\ (descending (IW.cellToDebugFileSortedInReverseOrderByLineNumber w) ->
            descending
              (IW.cellToDebugFileSortedInReverseOrderByLineNumber
                 (IW.dumpCells ops w))))
    /\ (forall (ops : list (NotebookDocument * Z)) (w : NB.World),
           NoDup (mapKeys (NB.cellToFile w)) ->
           NoDup (mapKeys (NB.cellToFile (NB.dumpCells ops w))))
    /\ (forall (w : NB.World) (index : Z) (p : string),
           NB_dumpedPath w index = Some p ->
           mapGet (uri_toString (cell_uri (cellAt (NB.notebookDocument w) index)))
             (NB.cellToFile (snd (NB.dumpCell index w))) = Some p
           /\ (forall old,
                  mapGet
                    (uri_toString (cell_uri (cellAt (NB.notebookDocument w) index)))
                    (NB.cellToFile w) = Some old ->
                  mapKeys (NB.cellToFile (snd (NB.dumpCell index w)))
                  = mapKeys (NB.cellToFile w))).
Proof.
  intro host. split; [|split].
  - intros ops w. split; [apply IW_dumpCells_files|]. split.
    + split; intro H.
      * eapply Permutation_NoDup; [apply IW_dumpCells_files | exact H].
      * eapply Permutation_NoDup; [symmetry; apply IW_dumpCells_files | exact H].
    + destruct (IW_dumpCells_grows ops w) as (added & _ & _ & Hs). exact Hs.
  - intros ops w. apply NB_dumpCells_keys.
  - intros w index p Hp. rewrite NB_dumpCell_cellToFile, Hp. split.
    + apply mapGet_mapSet.
    + intros old Hold. apply mapKeys_mapSet_in. eapply mapGet_in; eassumption.
Qed.

Lemma C4_store_after_dumps_witness :
  NoDup (mapKeys (NB.cellToFile (Scenario.nbWorld [])))
  /\ NoDup (mapKeys (NB.cellToFile Scenario.dumpedEditedDumped)).
Proof.
  split; [constructor|].
  apply (proj1 (proj2 (C4_store_after_dumps Scenario.scripted))).
  constructor.
Defined.

(** C4 fails as stated: the same cell dumped twice leaves two records with the
    same [debugFilePath] in the array; the second dump replaced nothing. *)
Lemma C4_redump_duplicates :
  map IW.debugFilePath
    (IW.cellToDebugFileSortedInReverseOrderByLineNumber Scenario.dumpedTwice)
  = ["/tmp/a.py"; "/tmp/a.py"]
  /\ ~ NoDup (map IW.debugFilePath
                (IW.cellToDebugFileSortedInReverseOrderByLineNumber
                   Scenario.dumpedTwice)).
Proof.
  assert (H : map IW.debugFilePath
                (IW.cellToDebugFileSortedInReverseOrderByLineNumber
                   Scenario.dumpedTwice)
              = ["/tmp/a.py"; "/tmp/a.py"]) by reflexivity.
  split; [exact H|]. rewrite H. intro Hn.
  inversion Hn as [|x l Hnotin _]; subst. apply Hnotin. now left.
Qed.

(** ** Files to delete *)

(** In the interactive-window adapter the list of files to delete has every
    path the kernel returned during the session, however often a cell was
    dumped. *)
Lemma IW_getDumpFilesForDeletion_complete
    {host : Host} (ops : list (NotebookDocument * Z)) (w : IW.World) :
  exists files,
    IW.getDumpFilesForDeletion (IW.dumpCells ops w)
    = (Ok files, IW.dumpCells ops w)
    /\ Permutation files
         (map IW.debugFilePath
            (IW.cellToDebugFileSortedInReverseOrderByLineNumber w)
          ++ IW_dumpedPaths ops w).
Proof.
  eexists. split; [reflexivity|]. apply IW_dumpCells_files.
Qed.

(** C6.  In the notebook adapter a cell that is dumped, edited and dumped
    again leaves only its second file in the list of files to delete,
    although both paths were recorded in [fileToCell]. *)
Theorem C6_superseded_file_not_listed :
  fst (NB.getDumpFilesForDeletion Scenario.dumpedEditedDumped)
  = Ok ["/tmp/2.py"]
  /\ mapKeys (NB.fileToCell Scenario.dumpedEditedDumped)
     = ["/tmp/1.py"; "/tmp/2.py"]
  /\ NB.cellToFile Scenario.dumpedEditedDumped
     = [("vscode-notebook-cell:/nb.ipynb#c1", "/tmp/2.py")].
Proof. repeat split. Qed.

(** ** A dump that the kernel rejects *)

(** C8, as the code has it.  When the kernel rejects the [dumpCell] request,
    [dumpCell] returns normally, the error is logged, and the store is what it
    was: every later translation gives what it gave before, and is a no-op
    where no record of the store starts at or before the location's start
    line (interactive window) or no entry has the source's path (notebook). *)
Theorem C8_dump_failure_recovered :
  forall (host : Host),
    (forall (w : IW.World) (index : Z) (metadata : InteractiveCellMetadata)
            (e : error) (k : Kernel),
        getInteractiveCellMetadata (cellAt (IW.notebookDocument w) index)
        = Some metadata ->
        customRequest "dumpCell"
          (DumpCellArgs
             (IW.codeToDump (cellAt (IW.notebookDocument w) index) metadata))
          (IW.session w) = (Throw e, k) ->
        exists w',
          IW.dumpCell index w = (Ok tt, w')
          /\ IW.log w'
             = IW.log w
               ++ [EvCustomRequest "dumpCell"
                     (DumpCellArgs
                        (IW.codeToDump (cellAt (IW.notebookDocument w) index)
                           metadata));
                   EvTraceError
                     (Some (cell_index (cellAt (IW.notebookDocument w) index)))
                     (Some (originalSource (interactive metadata))) e]
          /\ IW.cellToDebugFileSortedInReverseOrderByLineNumber w'
             = IW.cellToDebugFileSortedInReverseOrderByLineNumber w
          /\ IW.fileToCell w' = IW.fileToCell w
          /\ (forall source ls,
                 IW.translateDebuggerFileToRealFile
                   (IW.cellToDebugFileSortedInReverseOrderByLineNumber w') source ls
                 = IW.translateDebuggerFileToRealFile
                     (IW.cellToDebugFileSortedInReverseOrderByLineNumber w) source ls)
          /\ (forall source location,
                 IW.translateRealLocationToDebuggerLocation
                   (IW.cellToDebugFileSortedInReverseOrderByLineNumber w')
                   source location
                 = IW.translateRealLocationToDebuggerLocation
                     (IW.cellToDebugFileSortedInReverseOrderByLineNumber w)
                     source location)
          /\ (forall source loc l,
                 IW.startLineOf loc = Ok l ->
                 IW.findNearestPrecedingBySortKey
                   (IW.cellToDebugFileSortedInReverseOrderByLineNumber w) l = None ->
                 IW.translateRealLocationToDebuggerLocation
                   (IW.cellToDebugFileSortedInReverseOrderByLineNumber w')
                   source (Some loc)
                 = Ok (source, Some loc)))
    /\ (forall (w : NB.World) (index : Z) (e : error) (k : Kernel),
           customRequest "dumpCell"
             (DumpCellArgs
                (replaceCRLF (cell_getText (cellAt (NB.notebookDocument w) index))))
             (NB.session w) = (Throw e, k) ->
           exists w',
             NB.dumpCell index w = (Ok tt, w')
             /\ NB.log w'
                = NB.log w
                  ++ [EvCustomRequest "dumpCell"
                        (DumpCellArgs
                           (replaceCRLF
                              (cell_getText (cellAt (NB.notebookDocument w) index))));
                      EvTraceError None None e]
             /\ NB.cellToFile w' = NB.cellToFile w
             /\ NB.fileToCell w' = NB.fileToCell w
             /\ (forall source,
                    NB.translateRealLocationToDebuggerLocation (NB.cellToFile w')
                      source
                    = NB.translateRealLocationToDebuggerLocation (NB.cellToFile w)
                        source)
             /\ (forall src p,
                    truthyString (path src) = Some p ->
                    mapGet p (NB.cellToFile w) = None ->
                    NB.translateRealLocationToDebuggerLocation (NB.cellToFile w')
                      (Some src)
                    = Some src)).
Proof.
  intro host. split.
  - intros w index metadata e k Hm Hk.
    eexists. split; [apply (IW_dumpCell_rejected w index Hm Hk)|].
    cbn [IW.log IW.cellToDebugFileSortedInReverseOrderByLineNumber IW.fileToCell].
    repeat split.
    intros source loc l Hl Hf.
    unfold IW.translateRealLocationToDebuggerLocation.
    destruct source as [src|]; [|reflexivity].
    destruct (truthyString (path src)); [|reflexivity].
    rewrite Hl, Hf.
    destruct (negb (isSome (loc_line loc)) && negb (isSome (loc_breakpoints loc)))%bool;
      reflexivity.
  - intros w index e k Hk.
    eexists. split; [apply (NB_dumpCell_rejected w index Hk)|].
    cbn [NB.log NB.cellToFile NB.fileToCell].
    repeat split.
    intros src p Hp Hg. unfold NB.translateRealLocationToDebuggerLocation.
    now rewrite Hp, Hg.
Qed.

Lemma C8_dump_failure_recovered_witness :
  getInteractiveCellMetadata (Host := Scenario.scripted)
    (cellAt (Host := Scenario.scripted)
       (IW.notebookDocument Scenario.secondCellFails) 1)
  = Some (Scenario.iwMetadata 10 "b = 2" 0)
  /\ exists w',
      IW.dumpCell (host := Scenario.scripted) 1 Scenario.secondCellFails
      = (Ok tt, w')
      /\ IW.cellToDebugFileSortedInReverseOrderByLineNumber w'
         = [Scenario.iwRecord "/tmp/a.py" 3 0 "a = 1"].
Proof.
  split; [reflexivity|].
  destruct (proj1 (C8_dump_failure_recovered Scenario.scripted)
              Scenario.secondCellFails 1 (Scenario.iwMetadata 10 "b = 2" 0)
              (Rejected "kernel timed out") [] eq_refl eq_refl)
    as (w' & Hd & _ & Hs & _).
  exists w'. split; [exact Hd | exact Hs].
Defined.

(** C8 fails as stated: the first cell of the file (line index 3) is dumped,
    the dump of the next cell (line index 10) is rejected; a location at line
    12, inside that cell, is then translated with the first cell's record,
    not passed through. *)
Lemma C8_translation_after_failed_dump :
  IW.translateRealLocationToDebuggerLocation
    (IW.cellToDebugFileSortedInReverseOrderByLineNumber
       (snd (IW.dumpCell (host := Scenario.scripted) 1 Scenario.secondCellFails)))
    (Some (mkSource None (Some "/w.py") None))
    (Some (mkLocation (Some 12) None None))
  = Ok (Some (mkSource None (Some "/tmp/a.py") None),
        Some (mkLocation (Some 9) None None))
  /\ IW.translateRealLocationToDebuggerLocation
       (IW.cellToDebugFileSortedInReverseOrderByLineNumber
          (snd (IW.dumpCell (host := Scenario.scripted) 1 Scenario.secondCellFails)))
       (Some (mkSource None (Some "/w.py") None))
       (Some (mkLocation (Some 12) None None))
     <> Ok (Some (mkSource None (Some "/w.py") None),
            Some (mkLocation (Some 12) None None)).
Proof. split; [reflexivity | discriminate]. Qed.

(** C2 fails as stated: a request named [setBreakpoints] is not partitioned.
    With the two records in the store, the kernel is asked for a source map
    and the request is forwarded whole, once, with its four breakpoints. *)
Lemma C2_setBreakpoints_forwarded_whole :
  superSends
    (IW.log
       (snd (IW.sendRequestToJupyterSession2 (host := Scenario.scripted)
               (Scenario.setBreakpointsRequest "setBreakpoints" "/w.py"
                  [2; 3; 20; 21])
               Scenario.twoCells)))
  = [Scenario.setBreakpointsRequest "setBreakpoints" "/w.py" [2; 3; 20; 21]]
  /\ length
       (superSends
          (IW.log
             (snd (IW.sendRequestToJupyterSession2 (host := Scenario.scripted)
                     (Scenario.setBreakpointsRequest "setBreakpoints" "/w.py"
                        [2; 3; 20; 21])
                     Scenario.twoCells))))
     <> 2%nat.
Proof. split; [reflexivity | discriminate]. Qed.

(** C7 fails as stated: a request named [setBreakpoints] is not partitioned.
    With one record that starts at line index 9, the breakpoint at line 2 has
    no owner; it is handed to the pass-through channel all the same, in the
    whole request beside the breakpoint at line 12, and the response is the
    channel's own: the entry [{line: 2, verified: true}] without a source,
    which the partitioner would synthesize, is not in it. *)
Lemma C7_setBreakpoints_forwards_unowned :
  IW.owned
    (IW.cellToDebugFileSortedInReverseOrderByLineNumber Scenario.oneCellReady)
    (Scenario.bpAt 2)
  = false
  /\ superSends
       (IW.log
          (snd (IW.sendRequestToJupyterSession2 (host := Scenario.scripted)
                  (Scenario.setBreakpointsRequest "setBreakpoints" "/w.py"
                     [2; 12])
                  Scenario.oneCellReady)))
     = [mkRequest 1 "setBreakpoints"
          (mkArgs (mkSource None (Some "/w.py") None)
             (Some [mkSourceBreakpoint 2 None None;
                    mkSourceBreakpoint 12 None None]))]
  /\ fst (IW.sendRequestToJupyterSession2 (host := Scenario.scripted)
            (Scenario.setBreakpointsRequest "setBreakpoints" "/w.py" [2; 12])
            Scenario.oneCellReady)
     = fst (superSend (Host := Scenario.scripted)
              (Scenario.setBreakpointsRequest "setBreakpoints" "/w.py" [2; 12])
              [])
  /\ (forall resp,
         fst (IW.sendRequestToJupyterSession2 (host := Scenario.scripted)
                (Scenario.setBreakpointsRequest "setBreakpoints" "/w.py"
                   [2; 12])
                Scenario.oneCellReady)
         = Ok resp ->
         ~ In (mkBreakpoint true (Some 2) None None None) (bpsOf resp)).
Proof.
  split; [reflexivity|]. split; [reflexivity|]. split; [reflexivity|].
  intros resp H. injection H as <-.
  intros [H|[H|[]]]; discriminate.
Qed.

(** C10 fails as stated: a request named [setBreakpoints] does not reach the
    merge.  With a record in the store and an empty [breakpoints] array it is
    forwarded whole after the source map, and the answer is the channel's: on
    the scripted host a successful response with an empty list. *)
Lemma C10_setBreakpoints_empty_answered :
  fst (IW.sendRequestToJupyterSession2 (host := Scenario.scripted)
         (Scenario.setBreakpointsRequest "setBreakpoints" "/w.py" [])
         Scenario.oneCellReady)
  = Ok (mkResponse (Some 1) (Some true) (Some (mkBody (Some []))))
  /\ superSends
       (IW.log
          (snd (IW.sendRequestToJupyterSession2 (host := Scenario.scripted)
                  (Scenario.setBreakpointsRequest "setBreakpoints" "/w.py" [])
                  Scenario.oneCellReady)))
     = [mkRequest 1 "setBreakpoints"
          (mkArgs (mkSource None (Some "/w.py") None) (Some []))]
  /\ fst (IW.sendRequestToJupyterSession2 (host := Scenario.scripted)
            (Scenario.setBreakpointsRequest "setBreakpoints" "/w.py" [])
            Scenario.oneCellReady)
     <> Throw (SyntaxError "undefined is not valid JSON").
Proof. split; [reflexivity|]. split; [reflexivity | discriminate]. Qed.

(** The same request under the name [2setBreakpoints], run on the scripted
    host: two sub-requests, and a merged response of four verified
    breakpoints in request order. *)
Example two_cells_partitioned :
  superSends
    (IW.log
       (snd (IW.sendRequestToJupyterSession2 (host := Scenario.scripted)
               (Scenario.setBreakpointsRequest "2setBreakpoints" "/w.py"
                  [2; 3; 20; 21])
               Scenario.twoCells)))
  = [Scenario.setBreakpointsRequest "2setBreakpoints" "/w.py" [2; 3];
     Scenario.setBreakpointsRequest "2setBreakpoints" "/w.py" [20; 21]]
  /\ option_map (fun r => map b_line (bpsOf r))
       (match fst (IW.sendRequestToJupyterSession2 (host := Scenario.scripted)
                     (Scenario.setBreakpointsRequest "2setBreakpoints" "/w.py"
                        [2; 3; 20; 21])
                     Scenario.twoCells) with
        | Ok r => Some r
        | Throw _ => None
        end)
     = Some [Some 2; Some 3; Some 20; Some 21].
Proof. split; reflexivity. Qed.

(** The store of the two-cell session, as the dumps left it. *)
Example two_cells_store :
  IW.cellToDebugFileSortedInReverseOrderByLineNumber Scenario.twoCells
  = [Scenario.recordB; Scenario.recordA]
  /\ IW.lineOffset Scenario.recordA = 10
  /\ IW.lineOffset Scenario.recordB = 100
  /\ IW.debugFilePath Scenario.recordA = "/tmp/a.py"
  /\ IW.interactiveWindow Scenario.recordA = mkUri "/w.py" "file:///w.py".
Proof. repeat split. Qed.

(** The end-to-end scenario of the specification: the kernel stops at line 2
    of a dumped file whose line offset is 0, the editor is told line 2 of the
    interactive-window file. *)
Example stopped_event_translated :
  IW.translateDebuggerFileToRealFile (host := Scenario.scripted)
    [Scenario.iwRecord "/tmp/a.py" 0 0 "a = 1"]
    (Some (mkSource None (Some "/tmp/a.py") None))
    (Some (mkLines (Some 2) None None))
  = (Some (mkSource (Some "w.py") (Some "file:///w.py") None),
     Some (mkLines (Some 2) None None)).
Proof. reflexivity. Qed.

(** Cells dumped in the order of line indices 5, 50, 20 are stored in the
    order 50, 20, 5. *)
Example dumps_sort_descending :
  map IW.recordLineIndex
    (IW.cellToDebugFileSortedInReverseOrderByLineNumber
       (IW.dumpCells (host := Scenario.scripted)
          [([Scenario.iwCell 0 5 0 "a = 1"], 0);
           ([Scenario.iwCell 0 50 0 "c = 3"], 0);
           ([Scenario.iwCell 0 20 0 "b = 2"], 0)]
          (Scenario.iwWorld [] []
             [Scenario.reply "/tmp/a.py"; Scenario.reply "/tmp/c.py";
              Scenario.reply "/tmp/b.py"])))
  = [50; 20; 5].
Proof. reflexivity. Qed.

(** * Further properties of the adapters *)

(** ** The lookup by line on a sorted array *)

(** X1.  The lookup by line finds nothing exactly when no record starts
    before the line; on an array sorted by descending line index, the record
    it finds starts before the line and no record that starts before the line
    starts later than it. *)
Theorem X1_nearest_preceding_is_nearest :
  forall (store : list IW.CellRecord) (l : Z),
    (IW.findNearestPrecedingBySortKey store l = None
     <-> forall r, In r store -> l < IW.recordLineIndex r + 1)
    /\ (descending store ->
        forall r,
          IW.findNearestPrecedingBySortKey store l = Some r ->
          In r store
          /\ IW.recordLineIndex r + 1 <= l
          /\ forall r', In r' store -> IW.recordLineIndex r' + 1 <= l ->
                        IW.recordLineIndex r' <= IW.recordLineIndex r).
Proof.
  intros store l. split.
  - unfold IW.findNearestPrecedingBySortKey. split.
    + intros H r Hin.
      pose proof (find_none _ _ H r Hin) as Hr. simpl in Hr.
      apply Z.leb_gt in Hr. lia.
    + intros H. induction store as [|a store IH]; [reflexivity|].
      simpl. destruct (IW.recordLineIndex a + 1 <=? l) eqn:E.
      * apply Z.leb_le in E. specialize (H a (or_introl eq_refl)). lia.
      * apply IH. intros r Hr. apply H. now right.
  - unfold descending, IW.findNearestPrecedingBySortKey.
    induction 1 as [|a store Hs IH Hall]; intros r Hf; [discriminate|].
    simpl in Hf. destruct (IW.recordLineIndex a + 1 <=? l) eqn:E.
    + injection Hf as <-. apply Z.leb_le in E.
      split; [now left|]. split; [exact E|].
      intros r' [<-|Hin] _; [lia|].
      rewrite Forall_forall in Hall. now apply Hall.
    + apply Z.leb_gt in E.
      destruct (IH r Hf) as (Hin & Hle & Hmax).
      split; [now right|]. split; [exact Hle|].
      intros r' [<-|Hin'] Hr'; [lia | now apply Hmax].
Qed.

Lemma X1_nearest_preceding_is_nearest_witness :
  descending [Scenario.recordB; Scenario.recordA]
  /\ forall r,
      IW.findNearestPrecedingBySortKey [Scenario.recordB; Scenario.recordA] 7
      = Some r ->
      In r [Scenario.recordB; Scenario.recordA]
      /\ IW.recordLineIndex r + 1 <= 7
      /\ forall r', In r' [Scenario.recordB; Scenario.recordA] ->
                    IW.recordLineIndex r' + 1 <= 7 ->
                    IW.recordLineIndex r' <= IW.recordLineIndex r.
Proof.
  assert (D : descending [Scenario.recordB; Scenario.recordA]).
  { repeat constructor. vm_compute. discriminate. }
  split; [exact D|].
  exact (proj2 (X1_nearest_preceding_is_nearest
                  [Scenario.recordB; Scenario.recordA] 7) D).
Defined.

(** ** Where a dump puts its record *)

Lemma descending_app_inv (l1 l2 : list IW.CellRecord) :
  descending (l1 ++ l2) ->
  descending l1 /\ descending l2
  /\ forall a b, In a l1 -> In b l2 ->
                 IW.recordLineIndex b <= IW.recordLineIndex a.
Proof.
  unfold descending. induction l1 as [|x l1 IH]; simpl; intros H.
  - split; [constructor|]. split; [exact H|]. intros a b [].
  - inversion H as [|? ? Hs Hall]; subst.
    destruct (IH Hs) as (H1 & H2 & H12).
    apply Forall_app in Hall. destruct Hall as [Ha1 Ha2].
    split; [constructor; assumption|]. split; [exact H2|].
    intros a b [<-|Ha] Hb.
    + rewrite Forall_forall in Ha2. now apply Ha2.
    + now apply H12.
Qed.

Lemma insertSorted_at_end (x : IW.CellRecord) (l : list IW.CellRecord) :
  (forall y, In y l -> IW.recordLineIndex x <= IW.recordLineIndex y) ->
  insertSorted IW.byLineIndexDescending x l = l ++ [x].
Proof.
  induction l as [|y l IH]; intros H; simpl; [reflexivity|].
  unfold IW.byLineIndexDescending at 1.
  destruct (IW.recordLineIndex x - IW.recordLineIndex y >? 0) eqn:E.
  - apply Z.gtb_lt in E. specialize (H y (or_introl eq_refl)). lia.
  - f_equal. apply IH. intros z Hz. apply H. now right.
Qed.

(** Sorting an array that is sorted leaves it as it is. *)
Lemma jsSort_sorted (l : list IW.CellRecord) :
  descending l -> jsSort IW.byLineIndexDescending l = l.
Proof.
  unfold jsSort.
  assert (H : forall l acc, descending (acc ++ l) ->
            fold_left (fun acc x => insertSorted IW.byLineIndexDescending x acc)
              l acc = acc ++ l).
  { clear l. induction l as [|x l IH]; intros acc Hd; simpl.
    - now rewrite app_nil_r.
    - rewrite insertSorted_at_end.
      + rewrite IH; [now rewrite <- app_assoc|].
        now rewrite <- app_assoc.
      + intros y Hy.
        destruct (descending_app_inv acc (x :: l) Hd) as (_ & _ & H12).
        apply H12; [exact Hy | now left]. }
  intros Hd. now apply (H l []).
Qed.

Lemma insertSorted_splits (x : IW.CellRecord) (l : list IW.CellRecord) :
  descending l ->
  exists before after,
    l = before ++ after
    /\ insertSorted IW.byLineIndexDescending x l = before ++ x :: after
    /\ (forall y, In y before -> IW.recordLineIndex x <= IW.recordLineIndex y)
    /\ (forall y, In y after -> IW.recordLineIndex y < IW.recordLineIndex x).
Proof.
  unfold descending. induction 1 as [|y l Hs IH Hall]; simpl.
  - exists [], []. repeat split; intros ? [].
  - unfold IW.byLineIndexDescending at 1.
    destruct (IW.recordLineIndex x - IW.recordLineIndex y >? 0) eqn:E.
    + apply Z.gtb_lt in E. exists [], (y :: l).
      split; [reflexivity|]. split; [reflexivity|].
      split; [intros ? []|].
      intros z [<-|Hz]; [lia|].
      rewrite Forall_forall in Hall. specialize (Hall z Hz). simpl in Hall. lia.
    + assert (IW.recordLineIndex x <= IW.recordLineIndex y).
      { destruct (Z.gtb_spec (IW.recordLineIndex x - IW.recordLineIndex y) 0);
          [discriminate | lia]. }
      destruct IH as (before & after & Hl & Hi & Hb & Ha).
      exists (y :: before), after.
      split; [simpl; now f_equal|]. split; [simpl; now f_equal|].
      split; [|exact Ha].
      intros z [<-|Hz]; [assumption | now apply Hb].
Qed.

Lemma find_app_first {A : Type} (f : A -> bool) (l1 l2 : list A) :
  find f (l1 ++ l2)
  = match find f l1 with Some x => Some x | None => find f l2 end.
Proof.
  induction l1 as [|a l1 IH]; simpl; [reflexivity|].
  destruct (f a); [reflexivity | exact IH].
Qed.

Lemma find_exists {A : Type} (f : A -> bool) (l : list A) (x : A) :
  In x l -> f x = true -> exists y, find f l = Some y.
Proof.
  intros Hin Hf. destruct (find f l) as [y|] eqn:E; [eauto|].
  pose proof (find_none _ _ E x Hin). congruence.
Qed.

(** Pushing to a sorted array and sorting it is an insertion. *)
Lemma IW_dumpCell_inserts
    {host : Host} (w : IW.World) (index : Z)
    (metadata : InteractiveCellMetadata) (reply : CustomReply)
    (k : Kernel) (p : string) :
  getInteractiveCellMetadata (cellAt (IW.notebookDocument w) index)
  = Some metadata ->
  customRequest "dumpCell"
    (DumpCellArgs (IW.codeToDump (cellAt (IW.notebookDocument w) index) metadata))
    (IW.session w) = (Ok reply, k) ->
  sourcePath reply = Some p ->
  descending (IW.cellToDebugFileSortedInReverseOrderByLineNumber w) ->
  exists before after : list IW.CellRecord,
    IW.cellToDebugFileSortedInReverseOrderByLineNumber w = before ++ after
    /\ IW.cellToDebugFileSortedInReverseOrderByLineNumber
         (snd (IW.dumpCell index w))
       = before ++ IW.dumpedRecord (normalize p) metadata :: after
    /\ (forall y, In y before ->
                  lineIndex (interactive metadata) <= IW.recordLineIndex y)
    /\ (forall y, In y after ->
                  IW.recordLineIndex y < lineIndex (interactive metadata)).
Proof.
  intros Hm Hk Hp Hd.
  destruct (insertSorted_splits (IW.dumpedRecord (normalize p) metadata) Hd)
    as (before & after & Hl & Hi & Hb & Ha).
  exists before, after.
  rewrite (IW_dumpCell_resolved w index Hm Hk Hp).
  cbn [snd IW.cellToDebugFileSortedInReverseOrderByLineNumber].
  split; [exact Hl|]. split; [|split; [exact Hb | exact Ha]].
  unfold jsSort. rewrite fold_left_app. cbn [fold_left].
  fold (jsSort IW.byLineIndexDescending
          (IW.cellToDebugFileSortedInReverseOrderByLineNumber w)).
  rewrite (jsSort_sorted Hd). exact Hi.
Qed.

(** X2.  A dump that resolves puts its record into the sorted array behind
    the records that start at or after the cell and in front of those that
    start before it, and sets [fileToCell] for the file; the other records
    keep their places. *)
Theorem X2_dump_inserts_in_order :
  forall (host : Host) (w : IW.World) (index : Z)
         (metadata : InteractiveCellMetadata) (reply : CustomReply)
         (k : Kernel) (p : string),
    getInteractiveCellMetadata (cellAt (IW.notebookDocument w) index)
    = Some metadata ->
    customRequest "dumpCell"
      (DumpCellArgs (IW.codeToDump (cellAt (IW.notebookDocument w) index) metadata))
      (IW.session w) = (Ok reply, k) ->
    sourcePath reply = Some p ->
    descending (IW.cellToDebugFileSortedInReverseOrderByLineNumber w) ->
    exists (before after : list IW.CellRecord) (w' : IW.World),
      IW.dumpCell index w = (Ok tt, w')
      /\ IW.cellToDebugFileSortedInReverseOrderByLineNumber w = before ++ after
      /\ IW.cellToDebugFileSortedInReverseOrderByLineNumber w'
         = before ++ IW.dumpedRecord (normalize p) metadata :: after
      /\ (forall y, In y before ->
                    lineIndex (interactive metadata) <= IW.recordLineIndex y)
      /\ (forall y, In y after ->
                    IW.recordLineIndex y < lineIndex (interactive metadata))
      /\ mapGet (normalize p) (IW.fileToCell w')
         = Some (Uri_parse (uristring (interactive metadata))).
Proof.
  intros host w index metadata reply k p Hm Hk Hp Hd.
  destruct (IW_dumpCell_inserts w index Hm Hk Hp Hd)
    as (before & after & Hl & Hs & Hb & Ha).
  exists before, after. eexists.
  split; [apply (IW_dumpCell_resolved w index Hm Hk Hp)|].
  rewrite (IW_dumpCell_resolved w index Hm Hk Hp) in Hs.
  cbn [snd IW.cellToDebugFileSortedInReverseOrderByLineNumber IW.fileToCell] in *.
  split; [exact Hl|]. split; [exact Hs|].
  split; [exact Hb|]. split; [exact Ha|]. apply mapGet_mapSet.
Qed.

Lemma X2_dump_inserts_in_order_witness :
  descending
    (IW.cellToDebugFileSortedInReverseOrderByLineNumber Scenario.secondCellResolves)
  /\ exists before after w',
      IW.dumpCell (host := Scenario.scripted) 1
        Scenario.secondCellResolves
      = (Ok tt, w')
      /\ IW.cellToDebugFileSortedInReverseOrderByLineNumber w'
         = before
           ++ IW.dumpedRecord (host := Scenario.scripted) "/tmp/b.py"
                (Scenario.iwMetadata 10 "b = 2" 0)
           :: after.
Proof.
  assert (D : descending
                (IW.cellToDebugFileSortedInReverseOrderByLineNumber
                   Scenario.secondCellResolves)).
  { repeat constructor. }
  split; [exact D|].
  destruct (@X2_dump_inserts_in_order Scenario.scripted
              Scenario.secondCellResolves
              1 (Scenario.iwMetadata 10 "b = 2" 0)
              (mkReply (Some "/tmp/b.py")) [] "/tmp/b.py"
              eq_refl eq_refl eq_refl D)
    as (before & after & w' & Hd & _ & Hs & _).
  exists before, after, w'. split; [exact Hd | exact Hs].
Defined.

(** X3.  After such a dump, the lookup by file answers with the new record
    when no stored record that starts at or after the cell has the file, and
    then kernel locations in the file are translated with the new record's
    offset into the cell's interactive-window file; when a stored record that
    starts at or after the cell already answered for the file, it still
    does. *)
Theorem X3_lookup_after_dump :
  forall (host : Host) (w : IW.World) (index : Z)
         (metadata : InteractiveCellMetadata) (reply : CustomReply)
         (k : Kernel) (p : string),
    getInteractiveCellMetadata (cellAt (IW.notebookDocument w) index)
    = Some metadata ->
    customRequest "dumpCell"
      (DumpCellArgs (IW.codeToDump (cellAt (IW.notebookDocument w) index) metadata))
      (IW.session w) = (Ok reply, k) ->
    sourcePath reply = Some p ->
    descending (IW.cellToDebugFileSortedInReverseOrderByLineNumber w) ->
    ((forall y,
         In y (IW.cellToDebugFileSortedInReverseOrderByLineNumber w) ->
         lineIndex (interactive metadata) <= IW.recordLineIndex y ->
         IW.debugFilePath y <> normalize p) ->
     IW.findByDebugPath
       (IW.cellToDebugFileSortedInReverseOrderByLineNumber
          (snd (IW.dumpCell index w)))
       (normalize p)
     = Some (IW.dumpedRecord (normalize p) metadata)
     /\ forall src l,
         path src = Some (normalize p) -> normalize p <> "" ->
         (isSome (line l) || isSome (lines l))%bool = true ->
         IW.translateDebuggerFileToRealFile
           (IW.cellToDebugFileSortedInReverseOrderByLineNumber
              (snd (IW.dumpCell index w)))
           (Some src) (Some l)
         = (Some (mkSource
                    (Some (basename
                             (uri_path (Uri_parse (uristring (interactive metadata))))))
                    (Some (uri_toString
                             (Uri_parse (uristring (interactive metadata)))))
                    (sourceReference src)),
            Some (IW.shiftToReal (IW.dumpedRecord (normalize p) metadata) l)))
    /\ (forall r0,
           IW.findByDebugPath
             (IW.cellToDebugFileSortedInReverseOrderByLineNumber w) (normalize p)
           = Some r0 ->
           lineIndex (interactive metadata) <= IW.recordLineIndex r0 ->
           IW.findByDebugPath
             (IW.cellToDebugFileSortedInReverseOrderByLineNumber
                (snd (IW.dumpCell index w)))
             (normalize p)
           = Some r0).
Proof.
  intros host w index metadata reply k p Hm Hk Hp Hd.
  destruct (IW_dumpCell_inserts w index Hm Hk Hp Hd)
    as (before & after & Hl & Hs & Hb & Ha).
  rewrite Hs. split.
  - intros Hfresh.
    assert (Hnone : IW.findByDebugPath before (normalize p) = None).
    { unfold IW.findByDebugPath.
      destruct (find _ before) as [y|] eqn:E; [|reflexivity].
      apply find_some in E. destruct E as [Hin He]. apply String.eqb_eq in He.
      exfalso. apply (Hfresh y); [rewrite Hl; apply in_or_app; now left | | exact He].
      now apply Hb. }
    assert (Hfind : IW.findByDebugPath
                      (before ++ IW.dumpedRecord (normalize p) metadata :: after)
                      (normalize p)
                    = Some (IW.dumpedRecord (normalize p) metadata)).
    { unfold IW.findByDebugPath in *. rewrite find_app_first, Hnone.
      simpl. now rewrite String.eqb_refl. }
    split; [exact Hfind|].
    intros src l Hsrc Hne Hg.
    unfold IW.translateDebuggerFileToRealFile. rewrite Hsrc.
    unfold truthyString.
    destruct (String.eqb (normalize p) "") eqn:E;
      [apply String.eqb_eq in E; contradiction|].
    rewrite Hfind.
    destruct (line l), (lines l); simpl in *; try discriminate; reflexivity.
  - intros r0 Hr0 Hle. unfold IW.findByDebugPath in *.
    rewrite Hl, find_app_first in Hr0. rewrite find_app_first.
    destruct (find _ before) as [y|] eqn:E; [exact Hr0|].
    exfalso. apply find_some in Hr0. destruct Hr0 as [Hin _].
    specialize (Ha r0 Hin). lia.
Qed.

Lemma X3_lookup_after_dump_witness :
  descending
    (IW.cellToDebugFileSortedInReverseOrderByLineNumber Scenario.secondCellResolves)
  /\ IW.findByDebugPath
       (IW.cellToDebugFileSortedInReverseOrderByLineNumber
          (snd (IW.dumpCell (host := Scenario.scripted) 1
                  Scenario.secondCellResolves)))
       "/tmp/b.py"
     = Some (IW.dumpedRecord (host := Scenario.scripted) "/tmp/b.py"
               (Scenario.iwMetadata 10 "b = 2" 0)).
Proof.
  assert (D : descending
                (IW.cellToDebugFileSortedInReverseOrderByLineNumber
                   Scenario.secondCellResolves)).
  { repeat constructor. }
  split; [exact D|].
  apply (proj1 (@X3_lookup_after_dump Scenario.scripted
                  Scenario.secondCellResolves 1
                  (Scenario.iwMetadata 10 "b = 2" 0)
                  (mkReply (Some "/tmp/b.py")) [] "/tmp/b.py"
                  eq_refl eq_refl eq_refl D)).
  intros y [<-|[]] _. discriminate.
Defined.

(** ** What a dump sends and when it throws *)

Lemma replaceCRLF_noCR (s t : string) :
  noCR s = true -> replaceCRLF (s ++ t)%string = (s ++ replaceCRLF t)%string.
Proof.
  induction s as [|c s IH]; intros H; [reflexivity|].
  simpl in H. apply andb_prop in H. destruct H as [Hc Hs].
  apply negb_true_iff in Hc.
  change (String c s ++ t)%string with (String c (s ++ t)%string).
  cbn [replaceCRLF]. rewrite Hc. cbn [andb].
  destruct (s ++ t)%string eqn:E.
  - destruct s; [|discriminate]. simpl in E. subst t. reflexivity.
  - simpl. f_equal. now apply IH.
Qed.

Lemma replaceCRLF_CRLF (t : string) :
  replaceCRLF (CRLF ++ t)%string = (NL ++ replaceCRLF t)%string.
Proof. reflexivity. Qed.

Lemma replaceCRLF_noCR_id (s : string) : noCR s = true -> replaceCRLF s = s.
Proof.
  intros H. pose proof (replaceCRLF_noCR s EmptyString H) as E.
  assert (A : forall u : string, (u ++ EmptyString)%string = u).
  { induction u; simpl; [reflexivity | now f_equal]. }
  simpl in E. now rewrite !A in E.
Qed.

Lemma replaceCRLF_joinLines (ls : list string) :
  forallb noCR ls = true ->
  replaceCRLF (joinLines CRLF ls) = joinLines NL ls.
Proof.
  induction ls as [|l ls IH]; intros H; [reflexivity|].
  simpl in H. apply andb_prop in H. destruct H as [Hl Hls].
  destruct ls as [|l' ls'].
  - simpl. now apply replaceCRLF_noCR_id.
  - change (joinLines CRLF (l :: l' :: ls'))
      with (l ++ CRLF ++ joinLines CRLF (l' :: ls'))%string.
    change (joinLines NL (l :: l' :: ls'))
      with (l ++ NL ++ joinLines NL (l' :: ls'))%string.
    rewrite replaceCRLF_noCR by exact Hl.
    rewrite replaceCRLF_CRLF, IH by exact Hls. reflexivity.
Qed.

(** X4.  The notebook adapter's dump sends the cell's text with its line ends
    normalized: lines without a carriage return that are joined by CR LF are
    sent joined by LF, in one [dumpCell] request, whatever the kernel then
    answers. *)
Theorem X4_dump_sends_LF_lines :
  forall (host : Host) (w : NB.World) (index : Z) (ls : list string),
    forallb noCR ls = true ->
    cell_getText (cellAt (NB.notebookDocument w) index) = joinLines CRLF ls ->
    exists (trace : list Event),
      NB.log (snd (NB.dumpCell index w))
      = NB.log w
        ++ EvCustomRequest "dumpCell" (DumpCellArgs (joinLines NL ls)) :: trace
      /\ forall cmd args, ~ In (EvCustomRequest cmd args) trace.
Proof.
  intros host w index ls Hls Htext.
  unfold NB.dumpCell. unfold bind at 1. unfold gets at 1.
  unfold tryCatch, bind, NB.session_customRequest.
  rewrite Htext, (replaceCRLF_joinLines ls Hls).
  destruct (customRequest "dumpCell" (DumpCellArgs (joinLines NL ls))
              (NB.session w)) as [[reply|e] k].
  - destruct (sourcePath reply) as [p|]; cbn.
    + exists []. split; [reflexivity|]. intros cmd args [].
    + exists [EvTraceError None None (TypeError "path must be a string")].
      split; [now rewrite <- app_assoc|]. intros cmd args [H|[]]. discriminate.
  - cbn. exists [EvTraceError None None e].
    split; [now rewrite <- app_assoc|]. intros cmd args [H|[]]. discriminate.
Qed.

Lemma X4_dump_sends_LF_lines_witness :
  forallb noCR ["y = 2"; "print(y)"] = true
  /\ exists trace,
      NB.log (snd (NB.dumpCell (host := Scenario.scripted) 1
                     Scenario.notebookWorld))
      = NB.log Scenario.notebookWorld
        ++ EvCustomRequest "dumpCell"
             (DumpCellArgs (joinLines NL ["y = 2"; "print(y)"])) :: trace
      /\ forall cmd args, ~ In (EvCustomRequest cmd args) trace.
Proof.
  split; [reflexivity|].
  apply (@X4_dump_sends_LF_lines Scenario.scripted Scenario.notebookWorld 1
           ["y = 2"; "print(y)"]); reflexivity.
Defined.

(** X5.  The interactive-window dump throws exactly for a cell without
    interactive-window metadata, before any request and leaving everything as
    it was; for every other cell it makes one [dumpCell] request and returns
    normally whatever the kernel answers.  The notebook adapter's dump always
    returns normally. *)
Theorem X5_dump_throws_only_without_metadata :
  forall (host : Host),
    (forall (w : IW.World) (index : Z),
        (getInteractiveCellMetadata (cellAt (IW.notebookDocument w) index) = None ->
         IW.dumpCell index w
         = (Throw (Error "Not an interactive window cell"), w))
        /\ (forall metadata,
               getInteractiveCellMetadata (cellAt (IW.notebookDocument w) index)
               = Some metadata ->
               exists (w' : IW.World) (trace : list Event),
                 IW.dumpCell index w = (Ok tt, w')
                 /\ IW.log w'
                    = IW.log w
                      ++ EvCustomRequest "dumpCell"
                           (DumpCellArgs
                              (IW.codeToDump
                                 (cellAt (IW.notebookDocument w) index) metadata))
                         :: trace
                 /\ forall cmd args, ~ In (EvCustomRequest cmd args) trace))
    /\ (forall (w : NB.World) (index : Z),
           exists w' : NB.World, NB.dumpCell index w = (Ok tt, w')).
Proof.
  intro host. split.
  - intros w index. split.
    + intros Hm. unfold IW.dumpCell.
      unfold bind at 1. unfold gets at 1. now rewrite Hm.
    + intros metadata Hm.
      destruct (customRequest "dumpCell"
                  (DumpCellArgs
                     (IW.codeToDump (cellAt (IW.notebookDocument w) index) metadata))
                  (IW.session w)) as [[reply|e] k] eqn:Hk.
      * destruct (sourcePath reply) as [p|] eqn:Hp.
        -- eexists. exists [].
           split; [apply (IW_dumpCell_resolved w index Hm Hk Hp)|].
           split; [reflexivity|]. intros cmd args [].
        -- eexists.
           exists [EvTraceError
                     (Some (cell_index (cellAt (IW.notebookDocument w) index)))
                     (Some (originalSource (interactive metadata)))
                     (TypeError "path must be a string")].
           split.
           { unfold IW.dumpCell.
             unfold bind at 1. unfold gets at 1. rewrite Hm.
             unfold tryCatch, bind, IW.session_customRequest.
             rewrite Hk, Hp. reflexivity. }
           split; [cbn; now rewrite <- app_assoc|].
           intros cmd args [H|[]]. discriminate.
      * eexists.
        exists [EvTraceError
                  (Some (cell_index (cellAt (IW.notebookDocument w) index)))
                  (Some (originalSource (interactive metadata))) e].
        split; [apply (IW_dumpCell_rejected w index Hm Hk)|].
        split; [reflexivity|]. intros cmd args [H|[]]. discriminate.
  - intros w index. unfold NB.dumpCell.
    unfold bind at 1. unfold gets at 1.
    unfold tryCatch, bind, NB.session_customRequest.
    destruct (customRequest "dumpCell"
                (DumpCellArgs
                   (replaceCRLF (cell_getText (cellAt (NB.notebookDocument w) index))))
                (NB.session w)) as [[reply|e] k].
    + destruct (sourcePath reply) as [p|]; eexists; reflexivity.
    + eexists; reflexivity.
Qed.

Lemma X5_dump_throws_only_without_metadata_witness :
  getInteractiveCellMetadata (Host := Scenario.scripted)
    (cellAt (Host := Scenario.scripted)
       (IW.notebookDocument (Scenario.iwWorld Scenario.notebookDocument [] [])) 0)
  = None
  /\ IW.dumpCell (host := Scenario.scripted) 0
       (Scenario.iwWorld Scenario.notebookDocument [] [])
     = (Throw (Error "Not an interactive window cell"),
        Scenario.iwWorld Scenario.notebookDocument [] []).
Proof.
  split; [reflexivity|].
  apply (proj1 (proj1 (X5_dump_throws_only_without_metadata Scenario.scripted)
                  (Scenario.iwWorld Scenario.notebookDocument [] []) 0)).
  reflexivity.
Defined.

(** ** The files to delete *)

(** X6.  In the interactive-window adapter, asking for the files to delete
    changes nothing, and after any session the answer has the files of the
    records held at its start and every path the kernel returned for a dump,
    each as often as it was returned. *)
Theorem X6_files_to_delete_complete :
  forall (host : Host) (ops : list (NotebookDocument * Z)) (w : IW.World),
  exists files : list string,
    IW.getDumpFilesForDeletion (IW.dumpCells ops w)
    = (Ok files, IW.dumpCells ops w)
    /\ Permutation files
         (map IW.debugFilePath
            (IW.cellToDebugFileSortedInReverseOrderByLineNumber w)
          ++ IW_dumpedPaths ops w)
    /\ (forall q, In q (IW_dumpedPaths ops w) -> In q files)
    /\ length files
       = (length (IW.cellToDebugFileSortedInReverseOrderByLineNumber w)
          + length (IW_dumpedPaths ops w))%nat.
Proof.
  intros host ops w. eexists. split; [reflexivity|].
  pose proof (IW_dumpCells_files ops w) as Hperm.
  split; [exact Hperm|]. split.
  - intros q Hq. eapply Permutation_in; [symmetry; exact Hperm|].
    apply in_or_app. now right.
  - rewrite (Permutation_length Hperm), length_app, length_map. reflexivity.
Qed.

Section MoreMapFacts.
Variable V : Type.

Lemma mapGet_mapSet_other (k k' : string) (v : V) (m : list (string * V)) :
  k' <> k -> mapGet k' (mapSet k v m) = mapGet k' m.
Proof.
  intros Hne. induction m as [|[k0 v0] m IH]; simpl.
  - destruct (String.eqb_spec k k'); [congruence | reflexivity].
  - destruct (String.eqb_spec k0 k) as [->|H0]; simpl.
    + destruct (String.eqb_spec k k'); [congruence | reflexivity].
    + destruct (String.eqb k0 k'); [reflexivity | exact IH].
Qed.

Lemma mapSet_value_in (k : string) (v : V) (m : list (string * V)) :
  In v (mapValues (mapSet k v m)).
Proof.
  induction m as [|[k0 v0] m IH]; simpl; [now left|].
  destruct (String.eqb k0 k); simpl; [now left | now right].
Qed.

Lemma mapSet_length (k : string) (v : V) (m : list (string * V)) :
  length (mapSet k v m)
  = if isSome (mapGet k m) then length m else S (length m).
Proof.
  induction m as [|[k0 v0] m IH]; simpl; [reflexivity|].
  destruct (String.eqb k0 k); simpl; [reflexivity|].
  rewrite IH. destruct (isSome (mapGet k m)); reflexivity.
Qed.
End MoreMapFacts.

(** X7.  In the notebook adapter a dump that resolves maps the cell's URI to
    the returned path and leaves every other cell's entry alone; from then on
    a source with the cell's URI as its path is translated to that path, the
    path is among the files to delete, and the map has grown by one entry
    only if the cell had none. *)
Theorem X7_notebook_dump_then_translate :
  forall (host : Host) (w : NB.World) (index : Z) (p : string),
    NB_dumpedPath w index = Some p ->
    mapGet (uri_toString (cell_uri (cellAt (NB.notebookDocument w) index)))
      (NB.cellToFile (snd (NB.dumpCell index w))) = Some p
    /\ (forall u',
           u' <> uri_toString (cell_uri (cellAt (NB.notebookDocument w) index)) ->
           mapGet u' (NB.cellToFile (snd (NB.dumpCell index w)))
           = mapGet u' (NB.cellToFile w))
    /\ (forall src,
           path src
           = Some (uri_toString (cell_uri (cellAt (NB.notebookDocument w) index))) ->
           uri_toString (cell_uri (cellAt (NB.notebookDocument w) index)) <> "" ->
           p <> "" ->
           NB.translateRealLocationToDebuggerLocation
             (NB.cellToFile (snd (NB.dumpCell index w))) (Some src)
           = Some (mkSource (name src) (Some p) (sourceReference src)))
    /\ In p (mapValues (NB.cellToFile (snd (NB.dumpCell index w))))
    /\ length (NB.cellToFile (snd (NB.dumpCell index w)))
       = if isSome
              (mapGet
                 (uri_toString (cell_uri (cellAt (NB.notebookDocument w) index)))
                 (NB.cellToFile w))
         then length (NB.cellToFile w)
         else S (length (NB.cellToFile w)).
Proof.
  intros host w index p Hp.
  rewrite NB_dumpCell_cellToFile, Hp.
  split; [apply mapGet_mapSet|].
  split; [intros u' Hu'; now apply mapGet_mapSet_other|].
  split.
  - intros src Hsrc Hu Hne.
    unfold NB.translateRealLocationToDebuggerLocation.
    rewrite Hsrc. unfold truthyString at 1.
    destruct (String.eqb_spec
                (uri_toString (cell_uri (cellAt (NB.notebookDocument w) index))) "");
      [contradiction|].
    rewrite mapGet_mapSet. unfold truthyString.
    destruct (String.eqb_spec p ""); [contradiction | reflexivity].
  - split; [apply mapSet_value_in | apply mapSet_length].
Qed.

Lemma X7_notebook_dump_then_translate_witness :
  NB_dumpedPath (host := Scenario.scripted) Scenario.notebookWorld 0
  = Some "/tmp/1.py"
  /\ mapGet "vscode-notebook-cell:/nb.ipynb#c1"
       (NB.cellToFile
          (snd (NB.dumpCell (host := Scenario.scripted) 0 Scenario.notebookWorld)))
     = Some "/tmp/1.py".
Proof.
  split; [reflexivity|].
  apply (proj1 (@X7_notebook_dump_then_translate Scenario.scripted
                  Scenario.notebookWorld 0 "/tmp/1.py" eq_refl)).
Defined.

(** ** The partitioner on whole requests *)

Section PartitionerRuns.
Context {host : Host}.
Variable request : Request.

Lemma partitioned_run (w : IW.World) :
  partitioned w request ->
  IW.sendRequestToJupyterSession2 request w
  = (setBreakpointsRequests <- IW.partitionBreakpoints request ;;
     responses <- liftOutcome (IW.promiseAll setBreakpointsRequests) ;;
     liftOutcome (IW.mergeResponses responses))%adapter w.
Proof.
  intros [Hcmd Hguard]. unfold IW.sendRequestToJupyterSession2.
  rewrite Hcmd. cbn [String.eqb Ascii.eqb Bool.eqb].
  unfold bind at 1. unfold gets at 1. now rewrite Hguard.
Qed.

Lemma partitionBreakpoints_run (w : IW.World) :
  IW.partitionBreakpoints request w
  = (st <- IW.forEachBreakpoint request
             (IW.cellToDebugFileSortedInReverseOrderByLineNumber w)
             (requested request) (IW.mkLoop None [] []) ;;
     st' <- IW.sendIfNeeded request st ;;
     ret (IW.setBreakpointsRequests st'))%adapter w.
Proof. reflexivity. Qed.

(** The loop over breakpoints that no record owns. *)
Lemma forEachBreakpoint_unowned (store : list IW.CellRecord)
    (bps : list SourceBreakpoint) :
  Forall (fun bp => IW.owned store bp = false) bps ->
  forall (st : IW.LoopState) (w : IW.World),
    IW.forEachBreakpoint request store bps st w
    = (Ok (IW.mkLoop (IW.currentCellLine st) (IW.currentCellBps st)
             (IW.setBreakpointsRequests st
              ++ map (fun bp => Ok (IW.fakeResponse bp)) bps)), w).
Proof.
  induction 1 as [|bp bps Hbp _ IH]; intros st w.
  - simpl. rewrite app_nil_r. destruct st; reflexivity.
  - cbn [IW.forEachBreakpoint]. unfold bind. unfold IW.loopBody.
    unfold IW.owned in Hbp.
    destruct (IW.cellLineForBp store bp); [discriminate|].
    unfold ret. rewrite IH. cbn [IW.currentCellLine IW.currentCellBps
                                  IW.setBreakpointsRequests map].
    now rewrite <- app_assoc.
Qed.

Lemma promiseAll_map_Ok {A : Type} (l : list A) :
  IW.promiseAll (map Ok l) = Ok l.
Proof. induction l as [|a l IH]; simpl; [reflexivity | now rewrite IH]. Qed.

Lemma concatAll_fakes (rest : list SourceBreakpoint) :
  forall (seqn : option Z) (ok : option bool) (acc : list Breakpoint),
    IW.concatAll (mkResponse seqn ok (Some (mkBody (Some acc))))
      (map IW.fakeResponse rest)
    = Ok (mkResponse seqn ok
            (Some (mkBody (Some (acc ++ map IW.fakeBreakpoint rest))))).
Proof.
  induction rest as [|bp rest IH]; intros seqn ok acc; simpl.
  - now rewrite app_nil_r.
  - rewrite IH. now rewrite <- app_assoc.
Qed.

(** The loop over breakpoints that all have the line offset of the group
    being collected. *)
Lemma forEachBreakpoint_one_offset (store : list IW.CellRecord) (n : Z)
    (bps : list SourceBreakpoint) :
  Forall (fun bp => IW.cellLineForBp store bp = Some n) bps ->
  forall (st : IW.LoopState) (w : IW.World),
    IW.currentCellLine st = Some n ->
    IW.forEachBreakpoint request store bps st w
    = (Ok (IW.mkLoop (Some n) (IW.currentCellBps st ++ bps)
             (IW.setBreakpointsRequests st)), w).
Proof.
  induction 1 as [|bp bps Hbp _ IH]; intros st w Hst.
  - simpl. rewrite app_nil_r. destruct st; simpl in *; now subst.
  - cbn [IW.forEachBreakpoint]. unfold bind. unfold IW.loopBody.
    rewrite Hbp, Hst. cbn [optZEqb]. rewrite Z.eqb_refl. cbn [negb].
    unfold ret. rewrite IH by reflexivity.
    cbn [IW.currentCellBps IW.setBreakpointsRequests].
    now rewrite <- app_assoc.
Qed.
End PartitionerRuns.

(** X8.  A request that reaches the partitioner with breakpoints none of
    which a record owns causes no request to the kernel and changes nothing:
    it is answered with one synthesized, verified breakpoint per breakpoint
    asked, in the order asked, in a response that has a body and nothing
    else. *)
Theorem X8_unowned_request_answered_locally :
  forall (host : Host) (w : IW.World) (request : Request)
         (bp : SourceBreakpoint) (rest : list SourceBreakpoint),
    partitioned w request ->
    breakpoints (arguments request) = Some (bp :: rest) ->
    Forall (fun b =>
              IW.owned (IW.cellToDebugFileSortedInReverseOrderByLineNumber w) b
              = false) (bp :: rest) ->
    IW.sendRequestToJupyterSession2 request w
    = (Ok (mkResponse None None
             (Some (mkBody (Some (map IW.fakeBreakpoint (bp :: rest)))))),
       w).
Proof.
  intros host w request bp rest Hpart Hbps Hun.
  rewrite (partitioned_run Hpart).
  unfold bind at 1. rewrite partitionBreakpoints_run.
  unfold requested. rewrite Hbps.
  unfold bind at 1. rewrite (forEachBreakpoint_unowned request _ Hun).
  unfold bind, IW.sendIfNeeded, ret, liftOutcome.
  cbn [IW.currentCellBps IW.setBreakpointsRequests app].
  rewrite <- (map_map IW.fakeResponse Ok), promiseAll_map_Ok.
  cbn [map IW.mergeResponses]. unfold IW.fakeResponse at 1.
  rewrite concatAll_fakes. reflexivity.
Qed.

Lemma X8_unowned_request_answered_locally_witness :
  partitioned Scenario.oneCell
    (Scenario.setBreakpointsRequest "2setBreakpoints" "/w.py" [2; 5])
  /\ IW.sendRequestToJupyterSession2 (host := Scenario.scripted)
       (Scenario.setBreakpointsRequest "2setBreakpoints" "/w.py" [2; 5])
       Scenario.oneCell
     = (Ok (mkResponse None None
              (Some (mkBody
                       (Some (map IW.fakeBreakpoint
                                [Scenario.bpAt 2; Scenario.bpAt 5]))))),
        Scenario.oneCell).
Proof.
  assert (P : partitioned Scenario.oneCell
                (Scenario.setBreakpointsRequest "2setBreakpoints" "/w.py" [2; 5])).
  { split; reflexivity. }
  split; [exact P|].
  apply (@X8_unowned_request_answered_locally Scenario.scripted Scenario.oneCell
           (Scenario.setBreakpointsRequest "2setBreakpoints" "/w.py" [2; 5])
           (Scenario.bpAt 2) [Scenario.bpAt 5] P eq_refl).
  repeat constructor.
Defined.

Lemma cloneWithBreakpoints_same (request : Request) (bps : list SourceBreakpoint) :
  breakpoints (arguments request) = Some bps ->
  IW.cloneWithBreakpoints request bps = request.
Proof.
  destruct request as [s c [src b]]. simpl. intros ->. reflexivity.
Qed.

(** X9.  A request that reaches the partitioner with breakpoints that all
    have an owning record, with one and the same line offset, is not split:
    what the adapter does and answers is what forwarding the request does and
    answers, also when the owning records differ. *)
Theorem X9_one_offset_is_forwarded :
  forall (host : Host) (w : IW.World) (request : Request) (n : Z)
         (bp : SourceBreakpoint) (rest : list SourceBreakpoint),
    partitioned w request ->
    breakpoints (arguments request) = Some (bp :: rest) ->
    Forall (fun b =>
              IW.cellLineForBp
                (IW.cellToDebugFileSortedInReverseOrderByLineNumber w) b = Some n)
           (bp :: rest) ->
    IW.sendRequestToJupyterSession2 request w
    = IW.super_sendRequestToJupyterSession2 request w.
Proof.
  intros host w request n bp rest Hpart Hbps Hall.
  rewrite (partitioned_run Hpart).
  unfold bind at 1. rewrite partitionBreakpoints_run.
  unfold requested. rewrite Hbps.
  unfold bind at 1. cbn [IW.forEachBreakpoint]. unfold bind at 1.
  inversion Hall as [|? ? Hbp Hrest]; subst.
  unfold IW.loopBody. rewrite Hbp.
  cbn [IW.currentCellLine optZEqb negb].
  unfold bind at 1. unfold IW.sendIfNeeded at 1.
  cbn [IW.currentCellBps]. unfold ret at 1. unfold ret at 1.
  rewrite (forEachBreakpoint_one_offset request _ Hrest) by reflexivity.
  cbn [IW.currentCellBps IW.setBreakpointsRequests app].
  unfold bind, IW.sendIfNeeded, ret, liftOutcome, IW.settle.
  cbn [IW.currentCellBps IW.setBreakpointsRequests IW.currentCellLine app].
  rewrite (cloneWithBreakpoints_same request Hbps).
  unfold bind. cbv beta.
  destruct (IW.super_sendRequestToJupyterSession2 request w) as [[r|e] w'];
    reflexivity.
Qed.

Lemma X9_one_offset_is_forwarded_witness :
  partitioned Scenario.twoCells
    (Scenario.setBreakpointsRequest "2setBreakpoints" "/w.py" [20; 21])
  /\ IW.sendRequestToJupyterSession2 (host := Scenario.scripted)
       (Scenario.setBreakpointsRequest "2setBreakpoints" "/w.py" [20; 21])
       Scenario.twoCells
     = IW.super_sendRequestToJupyterSession2 (host := Scenario.scripted)
         (Scenario.setBreakpointsRequest "2setBreakpoints" "/w.py" [20; 21])
         Scenario.twoCells.
Proof.
  assert (P : partitioned Scenario.twoCells
                (Scenario.setBreakpointsRequest "2setBreakpoints" "/w.py" [20; 21])).
  { split; reflexivity. }
  split; [exact P|].
  apply (@X9_one_offset_is_forwarded Scenario.scripted Scenario.twoCells
           (Scenario.setBreakpointsRequest "2setBreakpoints" "/w.py" [20; 21])
           100 (Scenario.bpAt 20) [Scenario.bpAt 21] P eq_refl).
  repeat constructor.
Defined.

Lemma total_app (l1 l2 : list nat) : total (l1 ++ l2) = (total l1 + total l2)%nat.
Proof. induction l1 as [|n l1 IH]; simpl; [reflexivity | rewrite IH; lia]. Qed.

Section PartitionerCounts.
Context {host : Host}.
Variable request : Request.
Hypothesis contract : answersEachBreakpoint.

Lemma sendIfNeeded_counts (st : IW.LoopState) (w : IW.World) :
  exists news w',
    IW.sendIfNeeded request st w
    = (Ok (IW.mkLoop (IW.currentCellLine st) (IW.currentCellBps st)
             (IW.setBreakpointsRequests st ++ news)), w')
    /\ Forall answered news
    /\ total (map answeredCount news) = length (IW.currentCellBps st).
Proof.
  unfold IW.sendIfNeeded.
  destruct (IW.currentCellBps st) as [|b bs] eqn:Hb.
  - exists [], w. rewrite app_nil_r, <- Hb. destruct st; simpl.
    split; [reflexivity|]. split; [constructor | simpl in Hb; now subst].
  - unfold bind, IW.settle, IW.super_sendRequestToJupyterSession2, ret.
    destruct (contract (IW.cloneWithBreakpoints request (b :: bs)) (IW.session w))
      as (r & l & k' & Hs & Hbody & Hlen).
    rewrite Hs. exists [Ok r]. eexists. split; [reflexivity|].
    split.
    + constructor; [|constructor]. exists r, l. auto.
    + simpl. unfold bpsOf. rewrite Hbody. simpl in Hlen. simpl. lia.
Qed.

Lemma forEachBreakpoint_counts (store : list IW.CellRecord)
    (bps : list SourceBreakpoint) :
  forall (st : IW.LoopState) (w : IW.World),
  exists news st' w',
    IW.forEachBreakpoint request store bps st w = (Ok st', w')
    /\ IW.setBreakpointsRequests st' = IW.setBreakpointsRequests st ++ news
    /\ Forall answered news
    /\ (total (map answeredCount news) + length (IW.currentCellBps st')
        = length (IW.currentCellBps st) + length bps)%nat.
Proof.
  induction bps as [|bp rest IH]; intros st w.
  - exists [], st, w. simpl. rewrite app_nil_r.
    split; [reflexivity|]. split; [reflexivity|]. split; [constructor | lia].
  - cbn [IW.forEachBreakpoint]. unfold bind at 1. unfold IW.loopBody.
    destruct (IW.cellLineForBp store bp) as [n|].
    + destruct (negb (optZEqb (Some n) (IW.currentCellLine st))).
      * unfold bind at 1.
        destruct (sendIfNeeded_counts st w) as (n0 & w0 & Hs & Ha0 & Hc0).
        rewrite Hs. unfold ret at 1.
        destruct (IH (IW.mkLoop (Some n) [bp]
                        (IW.setBreakpointsRequests st ++ n0)) w0)
          as (n1 & st' & w' & Hr & Hq & Ha1 & Hc1).
        cbn [IW.setBreakpointsRequests IW.currentCellBps] in *.
        exists (n0 ++ n1), st', w'.
        split; [exact Hr|]. split; [now rewrite Hq, app_assoc|].
        split; [now apply Forall_app|].
        rewrite map_app, total_app. simpl in Hc1. simpl. lia.
      * unfold ret at 1.
        destruct (IH (IW.mkLoop (IW.currentCellLine st)
                        (IW.currentCellBps st ++ [bp])
                        (IW.setBreakpointsRequests st)) w)
          as (n1 & st' & w' & Hr & Hq & Ha1 & Hc1).
        cbn [IW.setBreakpointsRequests IW.currentCellBps] in *.
        exists n1, st', w'.
        split; [exact Hr|]. split; [exact Hq|]. split; [exact Ha1|].
        rewrite length_app in Hc1. simpl in Hc1. simpl. lia.
    + unfold ret at 1.
      destruct (IH (IW.mkLoop (IW.currentCellLine st) (IW.currentCellBps st)
                      (IW.setBreakpointsRequests st
                       ++ [Ok (IW.fakeResponse bp)])) w)
        as (n1 & st' & w' & Hr & Hq & Ha1 & Hc1).
      cbn [IW.setBreakpointsRequests IW.currentCellBps] in *.
      exists (Ok (IW.fakeResponse bp) :: n1), st', w'.
      split; [exact Hr|]. split; [now rewrite Hq, <- app_assoc|].
      split.
      * constructor; [|exact Ha1].
        exists (IW.fakeResponse bp), [IW.fakeBreakpoint bp]. auto.
      * simpl. simpl in Hc1. lia.
Qed.

Lemma partitionBreakpoints_counts (w : IW.World) :
  exists settled w',
    IW.partitionBreakpoints request w = (Ok settled, w')
    /\ Forall answered settled
    /\ total (map answeredCount settled) = length (requested request).
Proof.
  rewrite partitionBreakpoints_run. unfold bind at 1.
  destruct (forEachBreakpoint_counts
              (IW.cellToDebugFileSortedInReverseOrderByLineNumber w)
              (requested request) (IW.mkLoop None [] []) w)
    as (n0 & st0 & w0 & Hr & Hq & Ha0 & Hc0).
  rewrite Hr. unfold bind.
  destruct (sendIfNeeded_counts st0 w0) as (n1 & w1 & Hs & Ha1 & Hc1).
  rewrite Hs. unfold ret. cbn [IW.setBreakpointsRequests IW.currentCellBps] in *.
  exists (n0 ++ n1), w1. rewrite Hq. split; [reflexivity|].
  split; [now apply Forall_app|].
  rewrite map_app, total_app. simpl in Hc0. lia.
Qed.
End PartitionerCounts.

Lemma concatAll_answered (rest : list Response) :
  forall (r : Response) (l : list Breakpoint),
    body r = Some (mkBody (Some l)) ->
    Forall (fun x => answered (Ok x)) rest ->
    exists merged,
      IW.concatAll r rest = Ok merged
      /\ body merged = Some (mkBody (Some (l ++ concat (map bpsOf rest)))).
Proof.
  induction rest as [|y rest IH]; intros r l Hr Hall.
  - exists r. simpl. now rewrite app_nil_r.
  - inversion Hall as [|? ? Hy Hrest]; subst.
    destruct Hy as (y' & ly & Hy' & Hby). injection Hy' as <-.
    cbn [IW.concatAll]. unfold IW.concatBreakpoints. rewrite Hr, Hby.
    cbn [body_breakpoints].
    destruct (IH (mkResponse (request_seq r) (success r)
                    (Some (mkBody (Some (l ++ ly))))) (l ++ ly) eq_refl Hrest)
      as (merged & Hm & Hb).
    exists merged. split; [exact Hm|]. rewrite Hb.
    cbn [map concat]. unfold bpsOf at 2. rewrite Hby.
    now rewrite <- app_assoc.
Qed.

(** X10.  When the pass-through channel answers every request with one
    breakpoint per breakpoint asked, a request that reaches the partitioner
    with at least one breakpoint is answered, and the merged response has as
    many breakpoints as the request, however the breakpoints were split into
    sub-requests and synthesized entries. *)
Theorem X10_merged_response_has_every_breakpoint :
  forall (host : Host) (w : IW.World) (request : Request),
    answersEachBreakpoint ->
    partitioned w request ->
    requested request <> [] ->
    exists (merged : Response) (l : list Breakpoint) (w' : IW.World),
      IW.sendRequestToJupyterSession2 request w = (Ok merged, w')
      /\ body merged = Some (mkBody (Some l))
      /\ length l = length (requested request).
Proof.
  intros host w request Hcontract Hpart Hne.
  rewrite (partitioned_run Hpart).
  destruct (partitionBreakpoints_counts request Hcontract w)
    as (settled & w' & Hp & Hall & Hcount).
  unfold bind. rewrite Hp. unfold liftOutcome.
  assert (Hok : exists responses,
             settled = map Ok responses
             /\ Forall (fun x => answered (Ok x)) responses).
  { clear Hp Hcount. induction Hall as [|o settled Ho _ IH].
    - exists []. split; [reflexivity | constructor].
    - destruct IH as (responses & -> & Hr).
      destruct Ho as (r & l & -> & Hb).
      exists (r :: responses). split; [reflexivity|].
      constructor; [|exact Hr]. exists r, l. auto. }
  destruct Hok as (responses & -> & Hr).
  rewrite promiseAll_map_Ok.
  destruct responses as [|first rest].
  - simpl in Hcount. destruct (requested request); [contradiction | discriminate].
  - inversion Hr as [|? ? Hf Hrest]; subst.
    destruct Hf as (f' & lf & Hf' & Hbf). injection Hf' as <-.
    destruct (@concatAll_answered rest first lf Hbf Hrest) as (merged & Hm & Hb).
    exists merged, (lf ++ concat (map bpsOf rest)), w'.
    cbn [IW.mergeResponses]. rewrite Hm. split; [reflexivity|].
    split; [exact Hb|].
    rewrite <- Hcount. cbn [map total answeredCount].
    unfold bpsOf at 2. rewrite Hbf. rewrite length_app. f_equal.
    clear. induction rest as [|y rest IH]; [reflexivity|].
    cbn [map concat total answeredCount]. rewrite length_app, IH. reflexivity.
Qed.

Lemma scripted_answersEachBreakpoint :
  answersEachBreakpoint (host := Scenario.scripted).
Proof.
  intros request k. exists (Scenario.echo request). eexists. exists k.
  split; [reflexivity|]. split; [reflexivity|].
  unfold requested. now rewrite length_map.
Qed.

Lemma X10_merged_response_has_every_breakpoint_witness :
  partitioned Scenario.twoCells
    (Scenario.setBreakpointsRequest "2setBreakpoints" "/w.py" [20; 1; 2; 21; 3])
  /\ exists merged l w',
      IW.sendRequestToJupyterSession2 (host := Scenario.scripted)
        (Scenario.setBreakpointsRequest "2setBreakpoints" "/w.py" [20; 1; 2; 21; 3])
        Scenario.twoCells
      = (Ok merged, w')
      /\ body merged = Some (mkBody (Some l))
      /\ length l = 5%nat.
Proof.
  assert (P : partitioned Scenario.twoCells
                (Scenario.setBreakpointsRequest "2setBreakpoints" "/w.py"
                   [20; 1; 2; 21; 3])).
  { split; reflexivity. }
  split; [exact P|].
  apply (@X10_merged_response_has_every_breakpoint Scenario.scripted
           Scenario.twoCells
           (Scenario.setBreakpointsRequest "2setBreakpoints" "/w.py"
              [20; 1; 2; 21; 3])
           scripted_answersEachBreakpoint P).
  discriminate.
Defined.

Lemma promiseAll_throw {A : Type} (settled : list (outcome A)) (e : error) :
  In (Throw e) settled ->
  exists e', IW.promiseAll settled = Throw e' /\ In (Throw e') settled.
Proof.
  induction settled as [|[a|e0] settled IH]; intros Hin; [destruct Hin | |].
  - destruct Hin as [H|H]; [discriminate|].
    destruct (IH H) as (e' & He & Hin'). exists e'. simpl. rewrite He.
    split; [reflexivity | now right].
  - exists e0. split; [reflexivity | now left].
Qed.

(** X11.  In a request that reaches the partitioner, every sub-request is
    handed on before the results are looked at; if one of them rejects, the
    whole operation rejects with the rejection of one of the sub-requests,
    and the sub-requests that came after the rejected one were made all the
    same. *)
Theorem X11_rejected_sub_request_rejects_all :
  forall (host : Host) (w : IW.World) (request : Request),
    partitioned w request ->
    exists (groups : list (list SourceBreakpoint))
           (settled : list (outcome Response)) (w' : IW.World),
      IW.partitionBreakpoints request w = (Ok settled, w')
      /\ IW.log w' = IW.log w ++ map (sent request) groups
      /\ concat groups
         = filter (IW.owned (IW.cellToDebugFileSortedInReverseOrderByLineNumber w))
             (requested request)
      /\ forall e,
          In (Throw e) settled ->
          exists e',
            IW.sendRequestToJupyterSession2 request w = (Throw e', w')
            /\ In (Throw e') settled.
Proof.
  intros host w request Hpart.
  destruct (partitionBreakpoints_spec request w)
    as (groups & settled & w' & Hp & _ & Hl & Hc & _).
  exists groups, settled, w'.
  split; [exact Hp|]. split; [exact Hl|]. split; [exact Hc|].
  intros e He. destruct (@promiseAll_throw _ settled e He) as (e' & Hall & Hin).
  exists e'. split; [|exact Hin].
  rewrite (partitioned_run Hpart). unfold bind. rewrite Hp.
  unfold liftOutcome. now rewrite Hall.
Qed.

Lemma X11_rejected_sub_request_rejects_all_witness :
  partitioned Scenario.twoCellsRefusing
    (Scenario.setBreakpointsRequest "2setBreakpoints" "/w.py" [2; 20])
  /\ exists groups settled w',
      IW.partitionBreakpoints (host := Scenario.refusing)
        (Scenario.setBreakpointsRequest "2setBreakpoints" "/w.py" [2; 20])
        Scenario.twoCellsRefusing
      = (Ok settled, w')
      /\ concat groups = [Scenario.bpAt 2; Scenario.bpAt 20]
      /\ IW.log w'
         = IW.log Scenario.twoCellsRefusing
           ++ map (sent (Scenario.setBreakpointsRequest "2setBreakpoints"
                           "/w.py" [2; 20])) groups
      /\ exists e',
          IW.sendRequestToJupyterSession2 (host := Scenario.refusing)
            (Scenario.setBreakpointsRequest "2setBreakpoints" "/w.py" [2; 20])
            Scenario.twoCellsRefusing
          = (Throw e', w').
Proof.
  assert (P : partitioned Scenario.twoCellsRefusing
                (Scenario.setBreakpointsRequest "2setBreakpoints" "/w.py" [2; 20])).
  { split; reflexivity. }
  split; [exact P|].
  destruct (@X11_rejected_sub_request_rejects_all Scenario.refusing
              Scenario.twoCellsRefusing
              (Scenario.setBreakpointsRequest "2setBreakpoints" "/w.py" [2; 20]) P)
    as (groups & settled & w' & Hp & Hl & Hc & Hrej).
  exists groups, settled, w'.
  split; [exact Hp|]. split; [exact Hc|]. split; [exact Hl|].
  assert (Hin : In (Throw (Rejected "session is dead")) settled).
  { assert (E : fst (IW.partitionBreakpoints (host := Scenario.refusing)
                       (Scenario.setBreakpointsRequest "2setBreakpoints" "/w.py"
                          [2; 20])
                       Scenario.twoCellsRefusing)
                = Ok [Throw (Rejected "session is dead");
                      Throw (Rejected "session is dead")]) by reflexivity.
    rewrite Hp in E. simpl in E. injection E as ->. now left. }
  destruct (Hrej _ Hin) as (e' & Hs & _). exists e'. exact Hs.
Defined.

(** Requests with another command, and [2setBreakpoints] requests whose
    source path is not the interactive-window path of the first record, are
    handed to the pass-through channel as they are. *)
Lemma other_requests_pass_through
    {host : Host} (w : IW.World) (request : Request) :
  command request <> "setBreakpoints" ->
  command request <> "2setBreakpoints"
  \/ optStringEqb
       (option_map (fun c => uri_path (IW.interactiveWindow c))
          (hd_error (IW.cellToDebugFileSortedInReverseOrderByLineNumber w)))
       (path (source (arguments request))) = false ->
  IW.sendRequestToJupyterSession2 request w
  = IW.super_sendRequestToJupyterSession2 request w.
Proof.
  intros H1 H2. unfold IW.sendRequestToJupyterSession2.
  destruct (String.eqb_spec (command request) "setBreakpoints") as [E|_];
    [contradiction|].
  destruct (String.eqb_spec (command request) "2setBreakpoints") as [E|_];
    [|reflexivity].
  destruct H2 as [H2|H2]; [contradiction|].
  unfold bind, gets. now rewrite H2.
Qed.

Lemma super_send_sameAdapter {host : Host} (w : IW.World) (request : Request) :
  sameAdapter w (snd (IW.super_sendRequestToJupyterSession2 request w)).
Proof.
  unfold IW.super_sendRequestToJupyterSession2.
  destruct (superSend request (IW.session w)) as [r k].
  unfold sameAdapter. cbn. auto.
Qed.

Lemma NB_send_world {host : Host} (w : NB.World) (request : Request) :
  exists o k l,
    NB.sendRequestToJupyterSession2 request w
    = (o, NB.mkWorld (NB.notebookDocument w) (NB.fileToCell w) (NB.cellToFile w)
            k l).
Proof.
  unfold NB.sendRequestToJupyterSession2.
  destruct (String.eqb (command request) "setBreakpoints").
  - unfold bind at 1. unfold gets at 1.
    unfold bind, NB.session_customRequest.
    destruct (customRequest "setPydevdSourceMap" _ (NB.session w))
      as [[r|e] k]; [|eauto].
    unfold NB.super_sendRequestToJupyterSession2.
    cbn [NB.session NB.log NB.cellToFile NB.notebookDocument NB.fileToCell].
    destruct (superSend _ k) as [o k']. eauto.
  - unfold NB.super_sendRequestToJupyterSession2.
    destruct (superSend request (NB.session w)) as [o k']. eauto.
Qed.

(** X12.  Handling a request, whatever its command and however it ends,
    never changes the dump records, [fileToCell] or the notebook: in both
    adapters only the kernel session and the log move on. *)
Theorem X12_requests_leave_the_store_alone :
  forall (host : Host) (request : Request),
    (forall w : IW.World,
        sameAdapter w (snd (IW.sendRequestToJupyterSession2 request w)))
    /\ (forall w : NB.World,
           NB.cellToFile (snd (NB.sendRequestToJupyterSession2 request w))
           = NB.cellToFile w
           /\ NB.fileToCell (snd (NB.sendRequestToJupyterSession2 request w))
              = NB.fileToCell w
           /\ NB.notebookDocument (snd (NB.sendRequestToJupyterSession2 request w))
              = NB.notebookDocument w).
Proof.
  intros host request. split.
  - intro w. unfold IW.sendRequestToJupyterSession2.
    destruct (String.eqb (command request) "setBreakpoints").
    + unfold bind at 1. unfold gets at 1.
      destruct (IW.cellToDebugFileSortedInReverseOrderByLineNumber w)
        as [|first rest] eqn:Hs.
      * apply sameAdapter_refl.
      * unfold bind, IW.session_customRequest.
        destruct (customRequest "setPydevdSourceMap" _ (IW.session w))
          as [[r|e] k].
        -- eapply sameAdapter_trans; [|apply super_send_sameAdapter].
           unfold sameAdapter. cbn. auto.
        -- unfold sameAdapter. cbn. auto.
    + destruct (String.eqb (command request) "2setBreakpoints");
        [|apply super_send_sameAdapter].
      unfold bind at 1. unfold gets at 1.
      destruct (negb _); [apply super_send_sameAdapter|].
      destruct (partitionBreakpoints_spec request w)
        as (groups & settled & w' & Hp & Ha & _).
      unfold bind. rewrite Hp. unfold liftOutcome.
      destruct (IW.promiseAll settled); exact Ha.
  - intro w.
    destruct (NB_send_world w request) as (o & k & l & E).
    rewrite E. cbn. auto.
Qed.

(** X13.  With a record in the store, a [setBreakpoints] request first asks
    the kernel for a source map whose runtime path is [/private] followed by
    the file of the first record of the array, whatever file the request is
    for.  If the kernel rejects that, the rejection is the result and the
    request is not forwarded; if it resolves, the request is forwarded as it
    is and the channel's answer is the result. *)
Theorem X13_setBreakpoints_source_map_first :
  forall (host : Host) (w : IW.World) (request : Request)
         (first : IW.CellRecord) (rest : list IW.CellRecord),
    command request = "setBreakpoints" ->
    IW.cellToDebugFileSortedInReverseOrderByLineNumber w = first :: rest ->
    forall (k : Kernel) (o : outcome CustomReply),
      customRequest "setPydevdSourceMap"
        (SourceMapArgs
           (mkSourceMapRequest (path (source (arguments request)))
              [mkSourceMap 3 1 2 ("/private" ++ IW.debugFilePath first)%string]))
        (IW.session w) = (o, k) ->
      match o with
      | Throw e =>
          IW.sendRequestToJupyterSession2 request w
          = (Throw e,
             IW.mkWorld (IW.notebookDocument w) (IW.fileToCell w)
               (first :: rest) k
               (IW.log w
                ++ [EvCustomRequest "setPydevdSourceMap"
                      (SourceMapArgs
                         (mkSourceMapRequest (path (source (arguments request)))
                            [mkSourceMap 3 1 2
                               ("/private" ++ IW.debugFilePath first)%string]))]))
      | Ok _ =>
          IW.sendRequestToJupyterSession2 request w
          = IW.super_sendRequestToJupyterSession2 request
              (IW.mkWorld (IW.notebookDocument w) (IW.fileToCell w)
                 (first :: rest) k
                 (IW.log w
                  ++ [EvCustomRequest "setPydevdSourceMap"
                        (SourceMapArgs
                           (mkSourceMapRequest (path (source (arguments request)))
                              [mkSourceMap 3 1 2
                                 ("/private" ++ IW.debugFilePath first)%string]))]))
      end.
Proof.
  intros host w request first rest Hcmd Hstore k o Hk.
  rewrite (setBreakpoints_forwards_whole w request Hcmd Hstore).
  unfold bind, IW.session_customRequest. rewrite Hk, Hstore.
  destruct o; reflexivity.
Qed.

Lemma X13_setBreakpoints_source_map_first_witness :
  command (Scenario.setBreakpointsRequest "setBreakpoints" "/w.py" [2])
  = "setBreakpoints"
  /\ superSends
       (IW.log
          (snd (IW.sendRequestToJupyterSession2 (host := Scenario.scripted)
                  (Scenario.setBreakpointsRequest "setBreakpoints" "/w.py" [2])
                  Scenario.secondCellFails)))
     = [].
Proof.
  split; [reflexivity|].
  rewrite (@X13_setBreakpoints_source_map_first Scenario.scripted
             Scenario.secondCellFails
             (Scenario.setBreakpointsRequest "setBreakpoints" "/w.py" [2])
             (Scenario.iwRecord "/tmp/a.py" 3 0 "a = 1") []
             eq_refl eq_refl [] (Throw (Rejected "kernel timed out")) eq_refl).
  reflexivity.
Defined.

(** ** From the editor to the kernel and back *)

Lemma findByDebugPath_unique (store : list IW.CellRecord) (cell : IW.CellRecord) :
  NoDup (map IW.debugFilePath store) ->
  In cell store ->
  IW.findByDebugPath store (IW.debugFilePath cell) = Some cell.
Proof.
  unfold IW.findByDebugPath.
  induction store as [|a store IH]; intros Hn Hin; [destruct Hin|].
  simpl in Hn. inversion Hn as [|? ? Hnotin Hn']; subst.
  simpl. destruct (String.eqb_spec (IW.debugFilePath a) (IW.debugFilePath cell))
    as [E|E].
  - destruct Hin as [->|Hin]; [reflexivity|].
    exfalso. apply Hnotin. rewrite E. now apply in_map.
  - destruct Hin as [->|Hin]; [congruence|]. now apply IH.
Qed.

(** X14.  When no two records share a file, an editor location with a line
    that the editor-to-kernel translation rewrites comes back whole: the
    translated source names the record's dump file, and the kernel-to-editor
    translation of that source with the translated [line] and [endLine] gives
    the original [line] and [endLine] again, with the interactive window's
    URI string as path and the base name of its path as name. *)
Theorem X14_editor_kernel_editor :
  forall (host : Host) (store : list IW.CellRecord) (src : Source)
         (loc : Location) (p : string) (l0 l : Z) (cell : IW.CellRecord),
    NoDup (map IW.debugFilePath store) ->
    truthyString (path src) = Some p ->
    loc_line loc = Some l0 ->
    IW.startLineOf loc = Ok l ->
    IW.findNearestPrecedingBySortKey store l = Some cell ->
    uri_path (IW.interactiveWindow cell) = p ->
    IW.debugFilePath cell <> "" ->
    exists (src' : Source) (loc' : Location),
      IW.translateRealLocationToDebuggerLocation store (Some src) (Some loc)
      = Ok (Some src', Some loc')
      /\ path src' = Some (IW.debugFilePath cell)
      /\ loc_line loc' = Some (l0 - IW.lineOffset cell)
      /\ IW.translateDebuggerFileToRealFile store (Some src')
           (Some (mkLines (loc_line loc') (loc_endLine loc') None))
         = (Some (mkSource (Some (basename p))
                    (Some (uri_toString (IW.interactiveWindow cell)))
                    (sourceReference src)),
            Some (mkLines (loc_line loc) (loc_endLine loc) None)).
Proof.
  intros host store src loc p l0 l cell Hn Hp Hl0 Hs Hf Hw Hne.
  assert (Hin : In cell store).
  { unfold IW.findNearestPrecedingBySortKey in Hf. now apply find_some in Hf. }
  exists (mkSource (name src) (Some (IW.debugFilePath cell)) (sourceReference src)),
         (IW.shiftToKernel cell loc).
  split.
  { apply translateRealLocationToDebuggerLocation_found with (p := p) (startLine := l);
      auto. now rewrite Hl0. }
  split; [reflexivity|].
  split.
  { unfold IW.shiftToKernel. cbn [loc_line]. rewrite Hl0. cbn [option_map].
    unfold IW.toKernel. now rewrite orZero_id. }
  unfold IW.translateDebuggerFileToRealFile. cbn [path sourceReference].
  unfold truthyString.
  destruct (String.eqb_spec (IW.debugFilePath cell) ""); [contradiction|].
  unfold IW.shiftToKernel. cbn [line lines loc_line loc_endLine].
  rewrite Hl0. cbn [option_map isSome negb andb].
  rewrite (findByDebugPath_unique store cell Hn Hin), Hw.
  unfold IW.shiftToReal. cbn [line endLine lines option_map].
  rewrite toReal_toKernel.
  destruct (loc_endLine loc) as [e|]; cbn [option_map];
    [rewrite toReal_toKernel|]; reflexivity.
Qed.

Lemma X14_editor_kernel_editor_witness :
  NoDup (map IW.debugFilePath [Scenario.recordB; Scenario.recordA])
  /\ exists src' loc',
      IW.translateRealLocationToDebuggerLocation
        [Scenario.recordB; Scenario.recordA]
        (Some (mkSource None (Some "/w.py") None))
        (Some (mkLocation (Some 12) (Some 14) None))
      = Ok (Some src', Some loc')
      /\ path src' = Some "/tmp/a.py"
      /\ loc_line loc' = Some 2.
Proof.
  assert (N : NoDup (map IW.debugFilePath [Scenario.recordB; Scenario.recordA])).
  { repeat constructor; simpl; intuition discriminate. }
  split; [exact N|].
  destruct (@X14_editor_kernel_editor Scenario.scripted
              [Scenario.recordB; Scenario.recordA]
              (mkSource None (Some "/w.py") None)
              (mkLocation (Some 12) (Some 14) None)
              "/w.py" 12 12 Scenario.recordA N eq_refl eq_refl eq_refl eq_refl
              eq_refl)
    as (src' & loc' & Ht & Hp & Hl & _); [discriminate|].
  exists src', loc'. split; [exact Ht|]. split; [exact Hp | exact Hl].
Defined.

(** ** The notebook adapter's [setBreakpoints] *)

Lemma NB_setBreakpoints_run
    {host : Host} (w : NB.World) (request : Request) (p : string) :
  command request = "setBreakpoints" ->
  path (source (arguments request)) = Some p ->
  NB.sendRequestToJupyterSession2 request w
  = (_ <- NB.session_customRequest "setPydevdSourceMap"
            (SourceMapArgs
               (mkSourceMapRequest (Some ("<" ++ p)%string)
                  [mkSourceMap 3 1 2
                     ("/private"
                      ++ match mapGet p (NB.cellToFile w) with
                         | Some file => file
                         | None => "undefined"
                         end)%string])) ;;
     NB.super_sendRequestToJupyterSession2 (NB.markSource request))%adapter w.
Proof.
  intros Hcmd Hpath. unfold NB.sendRequestToJupyterSession2. rewrite Hcmd.
  cbn [String.eqb Ascii.eqb Bool.eqb].
  unfold bind at 1. unfold gets at 1. rewrite Hpath. reflexivity.
Qed.

(** X15.  The notebook adapter never throws on a [setBreakpoints] request by
    itself.  It asks the kernel for a source map from the request's path with
    [<] in front to [/private] followed by the dump file of that path, and
    followed by [undefined] when the path has no dump file; then, unless the
    kernel rejected, it forwards the request once with [<] in front of its
    path and its breakpoints as they were.  The map of dump files is not
    changed. *)
Theorem X15_notebook_setBreakpoints :
  forall (host : Host) (w : NB.World) (request : Request) (p : string),
    command request = "setBreakpoints" ->
    path (source (arguments request)) = Some p ->
    exists (trace : list Event),
      NB.log (snd (NB.sendRequestToJupyterSession2 request w))
      = NB.log w
        ++ EvCustomRequest "setPydevdSourceMap"
             (SourceMapArgs
                (mkSourceMapRequest (Some ("<" ++ p)%string)
                   [mkSourceMap 3 1 2
                      ("/private"
                       ++ match mapGet p (NB.cellToFile w) with
                          | Some file => file
                          | None => "undefined"
                          end)%string]))
           :: trace
      /\ (trace = []
          /\ (exists e, fst (NB.sendRequestToJupyterSession2 request w) = Throw e)
          \/ trace
             = [EvSuperSend
                  (mkRequest (seq request) "setBreakpoints"
                     (mkArgs (mkSource (name (source (arguments request)))
                                (Some ("<" ++ p)%string)
                                (sourceReference (source (arguments request))))
                        (breakpoints (arguments request))))])
      /\ NB.cellToFile (snd (NB.sendRequestToJupyterSession2 request w))
         = NB.cellToFile w.
Proof.
  intros host w request p Hcmd Hpath.
  rewrite (NB_setBreakpoints_run w request Hcmd Hpath).
  unfold bind, NB.session_customRequest.
  destruct (customRequest "setPydevdSourceMap" _ (NB.session w)) as [[r|e] k].
  - unfold NB.super_sendRequestToJupyterSession2.
    cbn [NB.session NB.log NB.cellToFile NB.notebookDocument NB.fileToCell].
    destruct (superSend (NB.markSource request) k) as [o k'].
    cbn [snd NB.log NB.cellToFile].
    eexists. split; [rewrite <- app_assoc; reflexivity|].
    split; [|reflexivity]. right.
    unfold NB.markSource. rewrite Hcmd, Hpath. reflexivity.
  - cbn [snd fst NB.log NB.cellToFile].
    exists []. split; [reflexivity|]. split; [|reflexivity].
    left. split; [reflexivity | eauto].
Qed.

Lemma X15_notebook_setBreakpoints_witness :
  command (Scenario.setBreakpointsRequest "setBreakpoints"
             "vscode-notebook-cell:/nb.ipynb#c9" [1])
  = "setBreakpoints"
  /\ exists trace,
      NB.log (snd (NB.sendRequestToJupyterSession2 (host := Scenario.scripted)
                     (Scenario.setBreakpointsRequest "setBreakpoints"
                        "vscode-notebook-cell:/nb.ipynb#c9" [1])
                     Scenario.notebookWorld))
      = EvCustomRequest "setPydevdSourceMap"
          (SourceMapArgs
             (mkSourceMapRequest (Some "<vscode-notebook-cell:/nb.ipynb#c9")
                [mkSourceMap 3 1 2 "/privateundefined"]))
        :: trace.
Proof.
  split; [reflexivity|].
  destruct (@X15_notebook_setBreakpoints Scenario.scripted Scenario.notebookWorld
              (Scenario.setBreakpointsRequest "setBreakpoints"
                 "vscode-notebook-cell:/nb.ipynb#c9" [1])
              "vscode-notebook-cell:/nb.ipynb#c9" eq_refl eq_refl)
    as (trace & Hl & _).
  exists trace. exact Hl.
Defined.

(** ** Which sub-requests the partitioner makes *)

Section Runs.
Variable store : list IW.CellRecord.

Lemma runs_nonempty_head (l : list SourceBreakpoint) :
  forall g gs, runs (sameOffset store) l = g :: gs -> g <> [].
Proof.
  destruct l as [|x l]; intros g gs H; [discriminate|].
  simpl in H. destruct (runs (sameOffset store) l) as [|[|y g'] gs'].
  - injection H as <- _. discriminate.
  - injection H as <- _. discriminate.
  - destruct (sameOffset store x y); injection H as <- _; discriminate.
Qed.

(** A run in front of a breakpoint with another offset, or in front of
    nothing, is a run of the whole. *)
Lemma runs_run_then (n : Z) (g rest : list SourceBreakpoint) :
  g <> [] ->
  Forall (fun b => IW.cellLineForBp store b = Some n) g ->
  (forall x rest', rest = x :: rest' -> IW.cellLineForBp store x <> Some n) ->
  runs (sameOffset store) (g ++ rest) = g :: runs (sameOffset store) rest.
Proof.
  induction g as [|a g IH]; intros Hne Hall Hrest; [contradiction|].
  inversion Hall as [|? ? Ha Hg]; subst.
  destruct g as [|b g].
  - simpl. destruct (runs (sameOffset store) rest) as [|[|y g'] gs'] eqn:E;
      [reflexivity | exfalso; now apply (runs_nonempty_head rest E) |].
    destruct rest as [|x rest']; [discriminate|].
    assert (Hy : y = x).
    { simpl in E. destruct (runs (sameOffset store) rest') as [|[|z g''] gs''].
      - now injection E as <- _.
      - now injection E as <- _.
      - destruct (sameOffset store x z); now injection E as <- _. }
    subst y. unfold sameOffset. rewrite Ha.
    specialize (Hrest x rest' eq_refl).
    destruct (IW.cellLineForBp store x) as [m|]; cbn [optZEqb]; [|reflexivity].
    destruct (Z.eqb_spec n m); [congruence | reflexivity].
  - change ((a :: b :: g) ++ rest) with (a :: (b :: g) ++ rest).
    cbn [runs]. rewrite IH; [|discriminate|exact Hg|exact Hrest].
    inversion Hg as [|? ? Hb _]; subst.
    unfold sameOffset. rewrite Ha, Hb. cbn [optZEqb]. now rewrite Z.eqb_refl.
Qed.
End Runs.

Section PartitionerRunsOfOffsets.
Context {host : Host}.
Variable request : Request.
Variable store : list IW.CellRecord.

Lemma sendIfNeeded_pending (st : IW.LoopState) (w : IW.World) :
  exists news w',
    IW.sendIfNeeded request st w
    = (Ok (IW.mkLoop (IW.currentCellLine st) (IW.currentCellBps st)
             (IW.setBreakpointsRequests st ++ news)), w')
    /\ IW.log w' = IW.log w ++ map (sent request) (pending st).
Proof.
  unfold IW.sendIfNeeded, pending.
  destruct (IW.currentCellBps st) as [|b bs] eqn:Hb.
  - exists [], w. rewrite !app_nil_r, <- Hb. destruct st; simpl. auto.
  - unfold bind, IW.settle, IW.super_sendRequestToJupyterSession2, ret.
    destruct (superSend (IW.cloneWithBreakpoints request (b :: bs))
                (IW.session w)) as [r k].
    exists [r]. eexists. split; reflexivity.
Qed.

Lemma forEachBreakpoint_runs (bps : list SourceBreakpoint) :
  forall (st : IW.LoopState) (w : IW.World),
    collecting store st ->
    exists groups st' w',
      IW.forEachBreakpoint request store bps st w = (Ok st', w')
      /\ IW.log w' = IW.log w ++ map (sent request) groups
      /\ collecting store st'
      /\ groups ++ pending st'
         = runs (sameOffset store)
             (IW.currentCellBps st ++ filter (IW.owned store) bps).
Proof.
  induction bps as [|bp rest IH]; intros st w Hst.
  - exists [], st, w. simpl. rewrite !app_nil_r.
    split; [reflexivity|]. split; [reflexivity|]. split; [exact Hst|].
    unfold pending. destruct Hst as [[_ H]|(n & _ & Hne & Hall)].
    + now rewrite H.
    + pose proof (@runs_run_then store n (IW.currentCellBps st) [] Hne Hall) as R.
      rewrite app_nil_r in R. rewrite R by discriminate.
      destruct (IW.currentCellBps st); [contradiction | reflexivity].
  - cbn [IW.forEachBreakpoint filter]. unfold bind at 1. unfold IW.loopBody.
    rewrite owned_cellLineForBp.
    destruct (IW.cellLineForBp store bp) as [m|] eqn:Hm; cbn [isSome].
    + destruct (negb (optZEqb (Some m) (IW.currentCellLine st))) eqn:Hneq.
      * (* another offset: the group collected so far is sent *)
        unfold bind at 1.
        destruct (sendIfNeeded_pending st w) as (n0 & w0 & Hs & Hl0).
        rewrite Hs. unfold ret at 1.
        destruct (IH (IW.mkLoop (Some m) [bp]
                        (IW.setBreakpointsRequests st ++ n0)) w0)
          as (g1 & st' & w' & Hr & Hl1 & Hst' & Hruns).
        { right. exists m. cbn. split; [reflexivity|].
          split; [discriminate|]. now constructor. }
        cbn [IW.currentCellBps] in Hruns.
        exists (pending st ++ g1), st', w'.
        split; [exact Hr|].
        split; [rewrite Hl1, Hl0, map_app, app_assoc; reflexivity|].
        split; [exact Hst'|].
        rewrite <- app_assoc, Hruns.
        destruct Hst as [[_ H]|(n & Hn & Hne & Hall)].
        -- unfold pending. rewrite H. reflexivity.
        -- assert (Hg0 : pending st = [IW.currentCellBps st]).
           { unfold pending. destruct (IW.currentCellBps st);
               [contradiction | reflexivity]. }
           rewrite Hg0. cbn [app].
           rewrite (@runs_run_then store n (IW.currentCellBps st)
                      (bp :: filter (IW.owned store) rest) Hne Hall);
             [reflexivity|].
           intros x rest' E. injection E as <- _. rewrite Hm, Hn in *.
           cbn [optZEqb] in Hneq. intro Heq. injection Heq as ->.
           now rewrite Z.eqb_refl in Hneq.
      * (* the same offset: the breakpoint joins the group *)
        unfold ret at 1.
        destruct (IH (IW.mkLoop (IW.currentCellLine st)
                        (IW.currentCellBps st ++ [bp])
                        (IW.setBreakpointsRequests st)) w)
          as (g1 & st' & w' & Hr & Hl1 & Hst' & Hruns).
        { apply negb_false_iff in Hneq.
          destruct (IW.currentCellLine st) as [n|] eqn:Hn; [|discriminate].
          cbn [optZEqb] in Hneq. apply Z.eqb_eq in Hneq. subst m.
          right. exists n. cbn. split; [reflexivity|].
          split; [destruct (IW.currentCellBps st); discriminate|].
          apply Forall_app. split; [|now constructor].
          destruct Hst as [[H _]|(n' & Hn' & _ & Hall)]; [congruence|].
          rewrite Hn in Hn'. injection Hn' as <-. exact Hall. }
        cbn [IW.currentCellBps] in Hruns.
        exists g1, st', w'.
        split; [exact Hr|]. split; [exact Hl1|]. split; [exact Hst'|].
        rewrite Hruns, <- app_assoc. reflexivity.
    + unfold ret at 1.
      destruct (IH (IW.mkLoop (IW.currentCellLine st) (IW.currentCellBps st)
                      (IW.setBreakpointsRequests st
                       ++ [Ok (IW.fakeResponse bp)])) w)
        as (g1 & st' & w' & Hr & Hl1 & Hst' & Hruns).
      { destruct Hst as [H|H]; [left | right]; exact H. }
      exists g1, st', w'.
      split; [exact Hr|]. split; [exact Hl1|]. split; [exact Hst'|].
      exact Hruns.
Qed.
End PartitionerRunsOfOffsets.

(** X16.  The sub-requests of a request that reaches the partitioner are, in
    order, the maximal runs of breakpoints with the same line offset in the
    list of the request's owned breakpoints: breakpoints without an owner do
    not end a run, a breakpoint with another offset does, and a record whose
    breakpoints are apart in the request gets one sub-request per run.
    Nothing else is handed to the pass-through channel, whether the operation
    then succeeds or not. *)
Theorem X16_sub_requests_are_runs :
  forall (host : Host) (w : IW.World) (request : Request),
    partitioned w request ->
    IW.log (snd (IW.sendRequestToJupyterSession2 request w))
    = IW.log w
      ++ map (sent request)
           (runs (sameOffset (IW.cellToDebugFileSortedInReverseOrderByLineNumber w))
              (filter (IW.owned (IW.cellToDebugFileSortedInReverseOrderByLineNumber w))
                 (requested request))).
Proof.
  intros host w request Hpart.
  rewrite (partitioned_run Hpart).
  unfold bind at 1. rewrite partitionBreakpoints_run. unfold bind at 1.
  assert (Hinit : collecting (IW.cellToDebugFileSortedInReverseOrderByLineNumber w)
                    (IW.mkLoop None [] [])).
  { left. split; reflexivity. }
  destruct (@forEachBreakpoint_runs host request
              (IW.cellToDebugFileSortedInReverseOrderByLineNumber w)
              (requested request) (IW.mkLoop None [] []) w Hinit)
    as (g0 & st0 & w0 & Hr & Hl0 & _ & Hruns).
  rewrite Hr. unfold bind at 1.
  destruct (sendIfNeeded_pending request st0 w0) as (n1 & w1 & Hs & Hl1).
  rewrite Hs. unfold ret, bind, liftOutcome.
  cbn [IW.currentCellBps app] in Hruns. rewrite <- Hruns, map_app, app_assoc.
  rewrite <- Hl0, <- Hl1.
  destruct (IW.promiseAll _); reflexivity.
Qed.

Lemma X16_sub_requests_are_runs_witness :
  partitioned Scenario.twoCells
    (Scenario.setBreakpointsRequest "2setBreakpoints" "/w.py" [20; 1; 2; 21; 3])
  /\ IW.log
       (snd (IW.sendRequestToJupyterSession2 (host := Scenario.scripted)
               (Scenario.setBreakpointsRequest "2setBreakpoints" "/w.py"
                  [20; 1; 2; 21; 3])
               Scenario.twoCells))
     = IW.log Scenario.twoCells
       ++ map (sent (Scenario.setBreakpointsRequest "2setBreakpoints" "/w.py"
                       [20; 1; 2; 21; 3]))
            [[Scenario.bpAt 20]; [Scenario.bpAt 1; Scenario.bpAt 2];
             [Scenario.bpAt 21]; [Scenario.bpAt 3]].
Proof.
  assert (P : partitioned Scenario.twoCells
                (Scenario.setBreakpointsRequest "2setBreakpoints" "/w.py"
                   [20; 1; 2; 21; 3])).
  { split; reflexivity. }
  split; [exact P|].
  rewrite (@X16_sub_requests_are_runs Scenario.scripted Scenario.twoCells
             (Scenario.setBreakpointsRequest "2setBreakpoints" "/w.py"
                [20; 1; 2; 21; 3]) P).
  reflexivity.
Defined.

(** ** The files to delete and the reverse map *)

Section KeysAndValues.
Variable V : Type.

Lemma mapKeys_mapSet_incl (k k' : string) (v : V) (m : list (string * V)) :
  In k' (mapKeys m) -> In k' (mapKeys (mapSet k v m)).
Proof.
  induction m as [|[k0 v0] m IH]; simpl; [intros []|].
  destruct (String.eqb_spec k0 k) as [->|Hne]; simpl; [auto|].
  intros [H|H]; [now left | right; now apply IH].
Qed.

Lemma mapKeys_mapSet_key (k : string) (v : V) (m : list (string * V)) :
  In k (mapKeys (mapSet k v m)).
Proof.
  induction m as [|[k0 v0] m IH]; simpl; [now left|].
  destruct (String.eqb k0 k); simpl; [now left | now right].
Qed.

Lemma mapValues_mapSet_inv (k : string) (v x : V) (m : list (string * V)) :
  In x (mapValues (mapSet k v m)) -> x = v \/ In x (mapValues m).
Proof.
  induction m as [|[k0 v0] m IH]; simpl.
  - intros [H|[]]. now left.
  - destruct (String.eqb k0 k); simpl.
    + intros [H|H]; [now left | right; now right].
    + intros [H|H]; [right; now left|].
      destruct (IH H); [now left | right; now right].
Qed.
End KeysAndValues.

Section FilesKnown.
Context {host : Host}.

Lemma IW_dumpCell_filesKnown (w : IW.World) (index : Z) :
  IW_filesKnown w -> IW_filesKnown (snd (IW.dumpCell index w)).
Proof.
  intros Hinv.
  destruct (getInteractiveCellMetadata (cellAt (IW.notebookDocument w) index))
    as [metadata|] eqn:Hm.
  - destruct (customRequest "dumpCell"
                (DumpCellArgs
                   (IW.codeToDump (cellAt (IW.notebookDocument w) index) metadata))
                (IW.session w)) as [[reply|e] k] eqn:Hk.
    + destruct (sourcePath reply) as [p|] eqn:Hp.
      * rewrite (IW_dumpCell_resolved w index Hm Hk Hp).
        intros f Hf. cbn [snd IW.cellToDebugFileSortedInReverseOrderByLineNumber
                           IW.fileToCell] in *.
        apply (Permutation_in f (Permutation_map IW.debugFilePath
                                   (jsSort_perm IW.byLineIndexDescending _))) in Hf.
        rewrite map_app in Hf. apply in_app_or in Hf.
        destruct Hf as [Hf|[<-|[]]].
        -- apply mapKeys_mapSet_incl. now apply Hinv.
        -- apply mapKeys_mapSet_key.
      * unfold IW.dumpCell.
        unfold bind at 1. unfold gets at 1. rewrite Hm.
        unfold tryCatch, bind, IW.session_customRequest.
        rewrite Hk, Hp. exact Hinv.
    + rewrite (IW_dumpCell_rejected w index Hm Hk). exact Hinv.
  - unfold IW.dumpCell.
    unfold bind at 1. unfold gets at 1. rewrite Hm. exact Hinv.
Qed.

Lemma NB_dumpCell_fileToCell (w : NB.World) (index : Z) :
  NB.fileToCell (snd (NB.dumpCell index w))
  = match NB_dumpedPath w index with
    | Some p =>
        mapSet p (cell_uri (cellAt (NB.notebookDocument w) index)) (NB.fileToCell w)
    | None => NB.fileToCell w
    end.
Proof.
  unfold NB_dumpedPath, NB.dumpCell.
  unfold bind at 1. unfold gets at 1.
  unfold tryCatch, bind, NB.session_customRequest.
  destruct (customRequest "dumpCell"
              (DumpCellArgs
                 (replaceCRLF (cell_getText (cellAt (NB.notebookDocument w) index))))
              (NB.session w)) as [[reply|e] k].
  - destruct (sourcePath reply) as [p|]; reflexivity.
  - reflexivity.
Qed.

Lemma NB_dumpCell_filesKnown (w : NB.World) (index : Z) :
  NB_filesKnown w -> NB_filesKnown (snd (NB.dumpCell index w)).
Proof.
  intros Hinv f. rewrite NB_dumpCell_cellToFile, NB_dumpCell_fileToCell.
  destruct (NB_dumpedPath w index) as [p|]; [|apply Hinv].
  intros Hf. apply mapValues_mapSet_inv in Hf. destruct Hf as [->|Hf].
  - apply mapKeys_mapSet_key.
  - apply mapKeys_mapSet_incl. now apply Hinv.
Qed.
End FilesKnown.

(** X17.  In both adapters every file that is listed for deletion is a key of
    [fileToCell], the map from dump files back to cells: dumps keep it so
    over any session, and it holds at the start of a session, when nothing
    has been dumped. *)
Theorem X17_files_to_delete_are_known :
  forall (host : Host) (ops : list (NotebookDocument * Z)),
    (forall w : IW.World,
        IW_filesKnown w ->
        forall files,
          fst (IW.getDumpFilesForDeletion (IW.dumpCells ops w)) = Ok files ->
          forall f, In f files ->
                    In f (mapKeys (IW.fileToCell (IW.dumpCells ops w))))
    /\ (forall w : NB.World,
           NB_filesKnown w ->
           forall files,
             fst (NB.getDumpFilesForDeletion (NB.dumpCells ops w)) = Ok files ->
             forall f, In f files ->
                       In f (mapKeys (NB.fileToCell (NB.dumpCells ops w)))).
Proof.
  intros host ops. split.
  - assert (H : forall w : IW.World,
               IW_filesKnown w -> IW_filesKnown (IW.dumpCells ops w)).
    { induction ops as [|op ops IH]; intros w Hinv; [exact Hinv|].
      apply (IH (IW.dumpCellOf w op)). unfold IW.dumpCellOf.
      apply IW_dumpCell_filesKnown. exact Hinv. }
    intros w Hinv files Hfiles f Hf.
    unfold IW.getDumpFilesForDeletion, gets in Hfiles. cbn [fst] in Hfiles.
    injection Hfiles as <-. now apply (H w Hinv).
  - assert (H : forall w : NB.World,
               NB_filesKnown w -> NB_filesKnown (NB.dumpCells ops w)).
    { induction ops as [|op ops IH]; intros w Hinv; [exact Hinv|].
      apply (IH (NB.dumpCellOf w op)). unfold NB.dumpCellOf.
      apply NB_dumpCell_filesKnown. exact Hinv. }
    intros w Hinv files Hfiles f Hf.
    unfold NB.getDumpFilesForDeletion, gets in Hfiles. cbn [fst] in Hfiles.
    injection Hfiles as <-. now apply (H w Hinv).
Qed.

Lemma X17_files_to_delete_are_known_witness :
  NB_filesKnown (Scenario.nbWorld [])
  /\ forall f,
      In f ["/tmp/2.py"] ->
      In f (mapKeys (NB.fileToCell Scenario.dumpedEditedDumped)).
Proof.
  assert (K : NB_filesKnown
                (Scenario.nbWorld [Scenario.reply "/tmp/1.py";
                                   Scenario.reply "/tmp/2.py"])).
  { intros f []. }
  split; [intros f []|].
  exact (proj2 (@X17_files_to_delete_are_known Scenario.scripted
                  [([Scenario.nbCell 0 "vscode-notebook-cell:/nb.ipynb#c1" "x = 1"], 0);
                   ([Scenario.nbCell 0 "vscode-notebook-cell:/nb.ipynb#c1" "x = 2"], 0)])
               (Scenario.nbWorld [Scenario.reply "/tmp/1.py";
                                  Scenario.reply "/tmp/2.py"])
               K ["/tmp/2.py"] eq_refl).
Defined.
